(** * NutriScan: ingredient parsing, lookup and personalised scoring

  A shallow embedding of [src/utils/ingredientDatabase.ts] and
  [src/utils/scoringEngine.ts], and the properties of the scoring
  pipeline proved over it.

  Conventions of the embedding.
  - A JavaScript [string] is a Rocq [string] (a sequence of 8-bit
    characters).  Case mapping and the classes [\s], [\w], [\d] act on
    the ASCII range.
  - A JavaScript [number] is the rational value of a double ([Q]).  The
    operators [+], [*] and [/] round their exact result to the nearest
    double, a tie going to the even significand ([JsNumber.add], [mul],
    [div]), and a decimal literal of the source stands for the double
    nearest to it ([JsNumber.double]).  NaN and the two infinities have
    no value here, and the exponent of [JsNumber.double] is not bounded:
    the operators are those of the code as long as no result overflows
    (magnitude 2^1024 and above).  Module [Binary64] runs the same
    computations on IEEE 754 values and the two are compared there.  The
    values of [Math.round] are integers and are kept in [Z].
  - An optional field ([age?: number]) is an [option]; [x && test(x)]
    on such a field is spelled out by [truthy_and].
  - [INGREDIENT_DATABASE] is an association list in source order, which
    is the order [Object.entries] enumerates.  [INGREDIENT_DATABASE[k]]
    is embedded as the lookup of an own key.  In the code it also finds
    what the object inherits from [Object.prototype]; [k] is in lower
    case, and of the inherited members only [constructor] and
    [__proto__] are.  For a name that normalises to one of the two the
    code goes on with an object that is no record: every field it reads
    is undefined and the score is NaN, which the records of the
    embedding cannot hold.  [IngredientDatabase.own_lookup] holds of the
    names that mention neither, and there [findIngredient] and
    [scoreIngredient] are the code's.
  - The two effects of [scoreProduct], the awaited classifier reply and
    the clock, are arguments of the embedded function. *)

From Stdlib Require Import ZArith QArith Qround Qpower Lia Lqa List Bool Ascii String.
From Stdlib Require Import DecimalString.
From Corelib Require Import Floats.SpecFloat.
Import ListNotations.

Local Open Scope string_scope.
Local Open Scope list_scope.

(* ================================================================== *)
(** ** JavaScript string primitives *)

Module JsString.

Definition code (c : ascii) : nat := nat_of_ascii c.

Definition between (lo hi : nat) (c : ascii) : bool :=
  (lo <=? code c)%nat && (code c <=? hi)%nat.

Definition is_upper : ascii -> bool := between 65 90.
Definition is_lower : ascii -> bool := between 97 122.
(** [\d] *)
Definition is_digit : ascii -> bool := between 48 57.
(** [\s]: tab, line feed, vertical tab, form feed, carriage return, space *)
Definition is_space (c : ascii) : bool := between 9 13 c || (code c =? 32)%nat.
(** [\w] *)
Definition is_word (c : ascii) : bool :=
  is_upper c || is_lower c || is_digit c || (code c =? 95)%nat.
(** [.] (no [s] flag): anything but a line terminator *)
Definition is_dot (c : ascii) : bool :=
  negb ((code c =? 10)%nat || (code c =? 13)%nat).

Definition lower_ascii (c : ascii) : ascii :=
  if is_upper c then ascii_of_nat (code c + 32) else c.

Fixpoint toLowerCase (s : string) : string :=
  match s with
  | EmptyString => EmptyString
  | String c s' => String (lower_ascii c) (toLowerCase s')
  end.

Fixpoint trimStart (s : string) : string :=
  match s with
  | EmptyString => EmptyString
  | String c s' => if is_space c then trimStart s' else s
  end.

Fixpoint trimEnd (s : string) : string :=
  match s with
  | EmptyString => EmptyString
  | String c s' =>
      match trimEnd s' with
      | EmptyString => if is_space c then EmptyString else String c EmptyString
      | t => String c t
      end
  end.

Definition trim (s : string) : string := trimEnd (trimStart s).

(** [s.includes(sub)] *)
Fixpoint includes (s sub : string) : bool :=
  prefix sub s ||
  match s with
  | EmptyString => false
  | String _ s' => includes s' sub
  end.

(** [parts.join(sep)] *)
Definition join (sep : string) (parts : list string) : string :=
  String.concat sep parts.

(** [`${n}`] for a length *)
Definition of_nat (n : nat) : string := NilEmpty.string_of_uint (Nat.to_uint n).

(** [s.split(/[...]/)] for a separator that is one character of a class *)
Fixpoint split_class (sep : ascii -> bool) (s : string) : list string :=
  match s with
  | EmptyString => [EmptyString]
  | String c s' =>
      if sep c then EmptyString :: split_class sep s'
      else match split_class sep s' with
           | [] => [String c EmptyString]
           | t :: ts => String c t :: ts
           end
  end.

End JsString.

(* ================================================================== *)
(** ** The regular expressions of the parser

  A backtracking matcher for the fragment the source uses: literals,
  character classes, a quantified class (greedy or lazy), sequence,
  ordered alternation, one capture group and the two anchors. *)

Module Regex.
Import JsString.

Inductive regex : Type :=
| Chr (p : ascii -> bool)
| Lit (s : string)
| Cat (r1 r2 : regex)
| Alt (r1 r2 : regex)
| Many (greedy : bool) (atleast : nat) (p : ascii -> bool)
| Group (r : regex)
| Bos
| Eos.

(** A position in the subject: the characters already passed (latest
    first), those still ahead, and the text of group 1 if it has closed. *)
Record cursor : Type := mkCursor {
  passed : list ascii;
  ahead : list ascii;
  group1 : option (list ascii)
}.

Definition same_char (ci : bool) (a b : ascii) : bool :=
  if ci then Ascii.eqb (lower_ascii a) (lower_ascii b) else Ascii.eqb a b.

Fixpoint lit (ci : bool) (s : string) (l r : list ascii)
  : option (list ascii * list ascii) :=
  match s with
  | EmptyString => Some (l, r)
  | String c s' =>
      match r with
      | x :: r' => if same_char ci c x then lit ci s' (x :: l) r' else None
      | [] => None
      end
  end.

Section Quantifier.
Context {A : Type} (p : ascii -> bool) (k : list ascii -> list ascii -> option A).

Definition stop (lo : nat) (l r : list ascii) : option A :=
  if (lo =? 0)%nat then k l r else None.

(** [p{lo,}]: take as many as possible, give back one at a time *)
Fixpoint many_greedy (lo : nat) (l r : list ascii) : option A :=
  match r with
  | x :: r' =>
      if p x then
        match many_greedy (pred lo) (x :: l) r' with
        | Some e => Some e
        | None => stop lo l r
        end
      else stop lo l r
  | [] => stop lo l r
  end.

(** [p{lo,}?]: take as few as possible, take one more on failure *)
Fixpoint many_lazy (lo : nat) (l r : list ascii) : option A :=
  match stop lo l r with
  | Some e => Some e
  | None =>
      match r with
      | x :: r' => if p x then many_lazy (pred lo) (x :: l) r' else None
      | [] => None
      end
  end.
End Quantifier.

Fixpoint exec (ci : bool) (r : regex) (c : cursor)
  (k : cursor -> option cursor) : option cursor :=
  match r with
  | Chr p =>
      match ahead c with
      | x :: r' => if p x then k (mkCursor (x :: passed c) r' (group1 c)) else None
      | [] => None
      end
  | Lit s =>
      match lit ci s (passed c) (ahead c) with
      | Some (l, r') => k (mkCursor l r' (group1 c))
      | None => None
      end
  | Cat r1 r2 => exec ci r1 c (fun c' => exec ci r2 c' k)
  | Alt r1 r2 =>
      match exec ci r1 c k with
      | Some e => Some e
      | None => exec ci r2 c k
      end
  | Many greedy lo p =>
      (if greedy then many_greedy else many_lazy) p
        (fun l r' => k (mkCursor l r' (group1 c))) lo (passed c) (ahead c)
  | Group r1 =>
      exec ci r1 c (fun c' =>
        let n := (List.length (passed c') - List.length (passed c))%nat in
        k (mkCursor (passed c') (ahead c') (Some (rev (firstn n (passed c'))))))
  | Bos => match passed c with [] => k c | _ => None end
  | Eos => match ahead c with [] => k c | _ => None end
  end.

Definition match_at (ci : bool) (r : regex) (l rt : list ascii) : option cursor :=
  exec ci r (mkCursor l rt None) Some.

(** The leftmost match at or after the current position. *)
Fixpoint search (ci : bool) (r : regex) (l rt : list ascii) : option cursor :=
  match match_at ci r l rt with
  | Some e => Some e
  | None =>
      match rt with
      | x :: rt' => search ci r (x :: l) rt'
      | [] => None
      end
  end.

(** [s.match(re)] for a regex without the [g] flag, read at index 1:
    [None] when there is no match, [Some g] with [g] the capture. *)
Definition match_group1 (ci : bool) (r : regex) (s : string) : option string :=
  match search ci r [] (list_ascii_of_string s) with
  | Some e =>
      Some (match group1 e with
            | Some g => string_of_list_ascii g
            | None => EmptyString
            end)
  | None => None
  end.

(** [re.test(s)], i.e. whether [s.match(re)] is not null. *)
Definition test (ci : bool) (r : regex) (s : string) : bool :=
  match search ci r [] (list_ascii_of_string s) with
  | Some _ => true
  | None => false
  end.

(** [s.replace(re, rep)] with the [g] flag: matches are taken left to
    right without overlap; after an empty match one character is copied. *)
Fixpoint replace_from (fuel : nat) (ci : bool) (r : regex) (rep : list ascii)
  (l rt : list ascii) : list ascii :=
  let copy fuel' :=
    match rt with
    | x :: rt' => x :: replace_from fuel' ci r rep (x :: l) rt'
    | [] => []
    end in
  match fuel with
  | O => rt
  | S fuel' =>
      match match_at ci r l rt with
      | Some e =>
          if (List.length (passed e) =? List.length l)%nat
          then rep ++ copy fuel'
          else rep ++ replace_from fuel' ci r rep (passed e) (ahead e)
      | None => copy fuel'
      end
  end.

Definition replace_all (ci : bool) (r : regex) (rep : string) (s : string) : string :=
  string_of_list_ascii
    (replace_from (S (String.length s)) ci r (list_ascii_of_string rep)
       [] (list_ascii_of_string s)).

End Regex.

(* ================================================================== *)
(** ** Numbers *)

Module JsNumber.

(** [Math.round]: to the nearest integer, a half going up. *)
Definition Math_round (x : Q) : Z := Qfloor (x + (1 # 2)).

(** The integer nearest to [x], a half going to the even neighbour. *)
Definition round_half_even (x : Q) : Z :=
  let f := Qfloor x in
  match Qcompare (x - inject_Z f) (1 # 2) with
  | Lt => f
  | Gt => (f + 1)%Z
  | Eq => if Z.even f then f else (f + 1)%Z
  end.

(** The binary exponent [k] of a positive number: [2^k <= x < 2^(k+1)]. *)
Definition ilog2 (x : Q) : Z :=
  let k := (Z.log2 (Qnum x) - Z.log2 (Zpos (Qden x)))%Z in
  if Qle_bool (2 ^ k) x then k else (k - 1)%Z.

(** The double nearest to a positive number: a significand of 53 bits,
    a tie going to the even significand. *)
Definition nearest (x : Q) : Q :=
  let e := (ilog2 x - 52)%Z in
  Qred (inject_Z (round_half_even (x / 2 ^ e)) * 2 ^ e).

(** The double nearest to [x]: what a decimal literal denotes and what an
    arithmetic operator returns for the exact result [x]. *)
Definition double (x : Q) : Q :=
  match Qcompare x 0 with
  | Eq => 0
  | Gt => nearest x
  | Lt => - nearest (- x)
  end.

(** [x + y], [x * y] and [x / y] on doubles. *)
Definition add (x y : Q) : Q := double (x + y).
Definition mul (x y : Q) : Q := double (x * y).
Definition div (x y : Q) : Q := double (x / y).

(** A magnitude far enough from the overflow threshold of doubles, about
    1.8e308, for the sums and products of the scoring engine to stay
    finite. *)
Definition finite_range (x : Q) : Prop := - 2 ^ 1000 <= x <= 2 ^ 1000.

Definition geb (x y : Q) : bool := Qle_bool y x.
Definition gtb (x y : Q) : bool := negb (Qle_bool x y).

(** A number is falsy exactly when it is zero. *)
Definition truthy (x : Q) : bool := negb (Qeq_bool x 0).

(** [x && test(x)] on an optional numeric field, read as a condition. *)
Definition truthy_and (x : option Q) (test : Q -> bool) : bool :=
  match x with
  | Some v => truthy v && test v
  | None => false
  end.

End JsNumber.

(* ================================================================== *)
(** ** ingredientDatabase.ts *)

Inductive RiskLevel : Type := LOW | MODERATE | HIGH.

Definition RiskLevel_eqb (a b : RiskLevel) : bool :=
  match a, b with
  | LOW, LOW | MODERATE, MODERATE | HIGH, HIGH => true
  | _, _ => false
  end.

Module AffectedBy.
Record t : Type := mk {
  allergies : option bool;
  diabetes : option bool;
  bloodPressure : option bool;
  age : option bool
}.
(** The literal [{}]. *)
Definition empty : t := mk None None None None.
End AffectedBy.

Module IngredientInfo.
Record t : Type := mk {
  name : string;
  canonicalForm : string;
  category : string;
  baselineRisk : RiskLevel;
  baseScore : Q;
  concerns : list string;
  affectedBy : option AffectedBy.t
}.
End IngredientInfo.

Module IngredientDatabase.
Import JsString.

Definition only_allergies := Some (AffectedBy.mk (Some true) None None None).
Definition only_diabetes := Some (AffectedBy.mk None (Some true) None None).
Definition only_bloodPressure := Some (AffectedBy.mk None None (Some true) None).
Definition only_age := Some (AffectedBy.mk None None None (Some true)).
Definition bloodPressure_and_age := Some (AffectedBy.mk None None (Some true) (Some true)).
Definition no_flags := Some AffectedBy.empty.

Definition INGREDIENT_DATABASE : list (string * IngredientInfo.t) := [
  (* Sugars and Sweeteners *)
  ("sugar",
   IngredientInfo.mk "Sugar" "sugar" "sweetener" MODERATE 5
     ["High glycemic index"; "Blood sugar spikes"] only_diabetes);
  ("high fructose corn syrup",
   IngredientInfo.mk "High Fructose Corn Syrup" "high_fructose_corn_syrup"
     "sweetener" HIGH 10 ["Metabolic issues"; "High glycemic"] only_diabetes);
  ("corn syrup",
   IngredientInfo.mk "Corn Syrup" "corn_syrup" "sweetener" HIGH 10
     ["High glycemic index"] only_diabetes);
  (* Sodium and Preservatives *)
  ("sodium",
   IngredientInfo.mk "Sodium" "sodium" "mineral" MODERATE 5
     ["Blood pressure elevation"] only_bloodPressure);
  ("salt",
   IngredientInfo.mk "Salt" "salt" "mineral" MODERATE 5
     ["Blood pressure elevation"; "Fluid retention"] only_bloodPressure);
  ("monosodium glutamate",
   IngredientInfo.mk "Monosodium Glutamate (MSG)" "msg" "flavor_enhancer" MODERATE 5
     ["Sodium content"; "Headaches in sensitive individuals"] only_bloodPressure);
  ("sodium benzoate",
   IngredientInfo.mk "Sodium Benzoate" "sodium_benzoate" "preservative" MODERATE 5
     ["Preservative"; "Sodium content"] bloodPressure_and_age);
  (* Fats *)
  ("saturated fat",
   IngredientInfo.mk "Saturated Fat" "saturated_fat" "fat" MODERATE 5
     ["Cardiovascular health"] only_age);
  ("trans fat",
   IngredientInfo.mk "Trans Fat" "trans_fat" "fat" HIGH 10
     ["Cardiovascular disease"; "Banned in many countries"] only_age);
  ("palm oil",
   IngredientInfo.mk "Palm Oil" "palm_oil" "fat" MODERATE 5
     ["High in saturated fat"] only_age);
  (* Artificial ingredients *)
  ("artificial flavors",
   IngredientInfo.mk "Artificial Flavors" "artificial_flavors" "additive" MODERATE 5
     ["Synthetic additives"; "Unclear composition"] only_allergies);
  ("artificial colors",
   IngredientInfo.mk "Artificial Colors" "artificial_colors" "additive" MODERATE 5
     ["Hyperactivity in children"; "Allergic reactions"] only_allergies);
  (* Common allergens *)
  ("milk",
   IngredientInfo.mk "Milk" "milk" "dairy" LOW 0 ["Common allergen"] only_allergies);
  ("wheat",
   IngredientInfo.mk "Wheat" "wheat" "grain" LOW 0
     ["Common allergen"; "Gluten content"] only_allergies);
  ("soy",
   IngredientInfo.mk "Soy" "soy" "legume" LOW 0 ["Common allergen"] only_allergies);
  ("peanuts",
   IngredientInfo.mk "Peanuts" "peanuts" "nut" LOW 0 ["Severe allergen"] only_allergies);
  (* Healthy ingredients *)
  ("whole wheat",
   IngredientInfo.mk "Whole Wheat" "whole_wheat" "grain" LOW 0 [] only_allergies);
  ("oats",
   IngredientInfo.mk "Oats" "oats" "grain" LOW 0 [] no_flags);
  ("water",
   IngredientInfo.mk "Water" "water" "liquid" LOW 0 [] no_flags)
].

(** [db[key]] for an own key of [db]. *)
Fixpoint get (db : list (string * IngredientInfo.t)) (key : string)
  : option IngredientInfo.t :=
  match db with
  | [] => None
  | (k, v) :: rest => if String.eqb k key then Some v else get rest key
  end.

(** The [for ... of Object.entries(db)] loop with its early return. *)
Fixpoint partial_match (entries : list (string * IngredientInfo.t))
  (normalized : string) : option IngredientInfo.t :=
  match entries with
  | [] => None
  | (key, value) :: rest =>
      if includes normalized key || includes key normalized
      then Some value
      else partial_match rest normalized
  end.

(** [s.replace(/\s+/g, '_')] *)
Definition underscore_spaces (s : string) : string :=
  Regex.replace_all false (Regex.Many true 1 is_space) "_" s.

(** Unknown ingredient - return default *)
Definition unknown_ingredient (ingredientName normalized : string) : IngredientInfo.t :=
  IngredientInfo.mk ingredientName (underscore_spaces normalized) "unknown" LOW 0
    ["Ingredient not in database"] (Some AffectedBy.empty).

Definition findIngredient (ingredientName : string) : option IngredientInfo.t :=
  let normalized := trim (toLowerCase ingredientName) in
  (* Direct match *)
  match get INGREDIENT_DATABASE normalized with
  | Some value => Some value
  | None =>
      (* Partial match *)
      match partial_match INGREDIENT_DATABASE normalized with
      | Some value => Some value
      | None => Some (unknown_ingredient ingredientName normalized)
      end
  end.

(** The lower-case names of the members [INGREDIENT_DATABASE] inherits
    from [Object.prototype].  The direct match of the code finds them
    too, and returns the constructor function or the prototype object,
    neither of which is a record. *)
Definition inherited_members : list string := ["constructor"; "__proto__"].

(** The names that mention none of them: their direct match is decided
    by the own keys alone, however the name is trimmed. *)
Definition own_lookup (ingredientName : string) : bool :=
  negb (existsb (includes (toLowerCase ingredientName)) inherited_members).

End IngredientDatabase.

(* ================================================================== *)
(** ** scoringEngine.ts: data *)

Module UserProfile.
Record t : Type := mk {
  age : option Q;
  allergies : list string;
  has_diabetes : bool;
  diabetes_measure : option string;
  diabetes_value : option Q;
  blood_pressure_systolic : option Q;
  blood_pressure_diastolic : option Q
}.
End UserProfile.

(** [Partial<UserProfile>]: every field may be missing. *)
Module PartialUserProfile.
Record t : Type := mk {
  age : option Q;
  allergies : option (list string);
  has_diabetes : option bool;
  diabetes_measure : option string;
  diabetes_value : option Q;
  blood_pressure_systolic : option Q;
  blood_pressure_diastolic : option Q
}.
End PartialUserProfile.

Module AIAnalyzedIngredient.
Record t : Type := mk {
  name : string;
  category : string;
  riskLevel : RiskLevel;
  baseScore : Q;
  concerns : list string;
  isAllergen : bool;
  diabetesRisk : bool;
  bpRisk : bool
}.
End AIAnalyzedIngredient.

Module MultiplierInfo.
Record t : Type := mk {
  reason : string;
  value : Q
}.
End MultiplierInfo.

Module IngredientScore.
Record t : Type := mk {
  name : string;
  canonicalForm : string;
  category : string;
  baselineRisk : RiskLevel;
  baseScore : Q;
  multipliers : list MultiplierInfo.t;
  finalScore : Z;
  comment : string;
  isAllergen : bool
}.
End IngredientScore.

Inductive Verdict : Type := Good | Moderate | Bad.

Module ProductScore.
Record t : Type := mk {
  productName : string;
  scanDate : string;
  userProfile : PartialUserProfile.t;
  ingredientScores : list IngredientScore.t;
  productScore : Z;
  verdict : Verdict;
  topReasons : list string;
  disclaimer : string
}.
End ProductScore.

Module ParsedIngredients.
Record t : Type := mk {
  productName : string;
  ingredients : list string;
  rawText : string
}.
End ParsedIngredients.

(* ================================================================== *)
(** ** scoringEngine.ts: scoring *)

Module ScoringEngine.
Import JsString JsNumber IngredientDatabase.

Module MULTIPLIERS.
Definition ALLERGY_PENALTY : Q := 10.
Definition DIABETES_MULTIPLIER : Q := 1.5.
Definition BLOOD_PRESSURE_MULTIPLIER : Q := 1.3.
Definition AGE_MULTIPLIER : Q := 1.1.
End MULTIPLIERS.

Definition AGE_THRESHOLD : Q := 65.
Definition HIGH_BP_SYSTOLIC : Q := 130.
Definition HIGH_BP_DIASTOLIC : Q := 80.

Definition ALLERGEN_ALERT : string :=
  "⚠️ ALLERGEN ALERT: This ingredient matches your allergy profile and should be avoided.".
Definition GENERALLY_SAFE : string :=
  "✓ Generally considered safe with no specific concerns for your profile.".
Definition MODERATE_CONCERN : string :=
  "Moderate concern ingredient, but no personalized risk factors apply.".

(** [ingredientInfo.affectedBy?.f], read as a condition. *)
Definition affected (f : AffectedBy.t -> option bool) (info : IngredientInfo.t) : bool :=
  match IngredientInfo.affectedBy info with
  | Some a => match f a with Some b => b | None => false end
  | None => false
  end.

Definition generateComment (ingredient : IngredientInfo.t)
  (multipliers : list MultiplierInfo.t) (isAllergen : bool) : string :=
  if isAllergen then ALLERGEN_ALERT
  else
    match multipliers with
    | [] =>
        if RiskLevel_eqb (IngredientInfo.baselineRisk ingredient) LOW
        then GENERALLY_SAFE
        else MODERATE_CONCERN
    | first :: _ =>
        let concerns := join ", " (IngredientInfo.concerns ingredient) in
        "Elevated concern due to: " ++ concerns ++ ". "
          ++ MultiplierInfo.reason first ++ "."
    end.

Definition createDefaultScore (ingredientName : string) : IngredientScore.t :=
  IngredientScore.mk ingredientName (underscore_spaces (toLowerCase ingredientName))
    "unknown" LOW 0 [] 0%Z
    "Ingredient not in database - unable to assess risk." false.

(** [userProfile.allergies.some(allergy => ...)] *)
Definition hasAllergy (ingredientName : string) (userProfile : UserProfile.t) : bool :=
  existsb
    (fun allergy =>
       includes (toLowerCase ingredientName) (toLowerCase allergy)
       || includes (toLowerCase allergy) (toLowerCase ingredientName))
    (UserProfile.allergies userProfile).

Definition hasHighBP (userProfile : UserProfile.t) : bool :=
  truthy_and (UserProfile.blood_pressure_systolic userProfile)
    (fun v => geb v HIGH_BP_SYSTOLIC)
  || truthy_and (UserProfile.blood_pressure_diastolic userProfile)
       (fun v => geb v HIGH_BP_DIASTOLIC).

Definition overAge (userProfile : UserProfile.t) : bool :=
  truthy_and (UserProfile.age userProfile) (fun v => gtb v AGE_THRESHOLD).

(** The three locals [finalScore], [multipliers] and [isAllergen] that the
    scoring functions update in place. *)
Record tally : Type := mkTally {
  score : Q;
  pushed : list MultiplierInfo.t;
  allergen : bool
}.

(** [score += value] and [score *= value], with the push that goes with
    them.  [value] is a literal of the source: it is recorded as written
    and enters the arithmetic as the double it denotes. *)
Definition penalise (reason : string) (value : Q) (t : tally) : tally :=
  mkTally (JsNumber.add (score t) (double value))
    (pushed t ++ [MultiplierInfo.mk reason value]) (allergen t).

Definition multiply (reason : string) (value : Q) (t : tally) : tally :=
  mkTally (JsNumber.mul (score t) (double value))
    (pushed t ++ [MultiplierInfo.mk reason value]) (allergen t).

Definition mark_allergen (t : tally) : tally :=
  mkTally (score t) (pushed t) true.

Definition scoreIngredient (ingredientName : string) (userProfile : UserProfile.t)
  : IngredientScore.t :=
  match findIngredient ingredientName with
  | None => createDefaultScore ingredientName
  | Some ingredientInfo =>
      let t := mkTally (IngredientInfo.baseScore ingredientInfo) [] false in
      (* Check for allergies *)
      let t :=
        if affected AffectedBy.allergies ingredientInfo then
          if hasAllergy ingredientName userProfile then
            mark_allergen
              (penalise "Matches your allergen list" MULTIPLIERS.ALLERGY_PENALTY t)
          else t
        else t in
      (* Diabetes multiplier *)
      let t :=
        if affected AffectedBy.diabetes ingredientInfo
           && UserProfile.has_diabetes userProfile
        then multiply "High glycemic concern for diabetes"
               MULTIPLIERS.DIABETES_MULTIPLIER t
        else t in
      (* Blood pressure multiplier *)
      let t :=
        if affected AffectedBy.bloodPressure ingredientInfo then
          if hasHighBP userProfile then
            multiply "Sodium concern for blood pressure"
              MULTIPLIERS.BLOOD_PRESSURE_MULTIPLIER t
          else t
        else t in
      (* Age multiplier *)
      let t :=
        if affected AffectedBy.age ingredientInfo && overAge userProfile
        then multiply "Increased concern for age > 65" MULTIPLIERS.AGE_MULTIPLIER t
        else t in
      let finalScore := Math_round (score t) in
      let comment := generateComment ingredientInfo (pushed t) (allergen t) in
      IngredientScore.mk
        (IngredientInfo.name ingredientInfo)
        (IngredientInfo.canonicalForm ingredientInfo)
        (IngredientInfo.category ingredientInfo)
        (IngredientInfo.baselineRisk ingredientInfo)
        (IngredientInfo.baseScore ingredientInfo)
        (pushed t) finalScore comment (allergen t)
  end.

Definition generateCommentFromAI (ingredient : AIAnalyzedIngredient.t)
  (multipliers : list MultiplierInfo.t) (isAllergen : bool) : string :=
  if isAllergen then ALLERGEN_ALERT
  else
    match multipliers with
    | [] =>
        if RiskLevel_eqb (AIAnalyzedIngredient.riskLevel ingredient) LOW
        then GENERALLY_SAFE
        else MODERATE_CONCERN
    | first :: _ =>
        let concerns := join ", " (AIAnalyzedIngredient.concerns ingredient) in
        "Elevated concern due to: " ++ concerns ++ ". "
          ++ MultiplierInfo.reason first ++ "."
    end.

(** Score ingredient using AI analysis *)
Definition scoreIngredientWithAI (aiData : AIAnalyzedIngredient.t)
  (userProfile : UserProfile.t) : IngredientScore.t :=
  let t := mkTally (AIAnalyzedIngredient.baseScore aiData) [] false in
  (* Allergen check *)
  let t :=
    if AIAnalyzedIngredient.isAllergen aiData
    then penalise "Matches your allergen list" MULTIPLIERS.ALLERGY_PENALTY t
    else t in
  (* Diabetes multiplier *)
  let t :=
    if UserProfile.has_diabetes userProfile && AIAnalyzedIngredient.diabetesRisk aiData
    then multiply "High glycemic concern for diabetes" MULTIPLIERS.DIABETES_MULTIPLIER t
    else t in
  (* Blood pressure multiplier *)
  let t :=
    if AIAnalyzedIngredient.bpRisk aiData
       && truthy_and (UserProfile.blood_pressure_systolic userProfile)
            (fun v => geb v HIGH_BP_SYSTOLIC)
    then multiply "Sodium concern for blood pressure"
           MULTIPLIERS.BLOOD_PRESSURE_MULTIPLIER t
    else t in
  (* Age multiplier for certain categories *)
  let t :=
    if overAge userProfile
       && existsb (String.eqb (AIAnalyzedIngredient.category aiData))
            ["preservative"; "fat"; "additive"]
    then multiply "Increased concern for age > 65" MULTIPLIERS.AGE_MULTIPLIER t
    else t in
  let finalScore := Z.min (Math_round (score t)) 10 in
  IngredientScore.mk
    (AIAnalyzedIngredient.name aiData)
    (underscore_spaces (toLowerCase (AIAnalyzedIngredient.name aiData)))
    (AIAnalyzedIngredient.category aiData)
    (AIAnalyzedIngredient.riskLevel aiData)
    (AIAnalyzedIngredient.baseScore aiData)
    (pushed t) finalScore
    (generateCommentFromAI aiData (pushed t) (AIAnalyzedIngredient.isAllergen aiData))
    (AIAnalyzedIngredient.isAllergen aiData).

(** [xs.map((x, index) => f(x, index))], counting from [index]. *)
Fixpoint map_indexed {A B : Type} (f : A -> nat -> B) (xs : list A) (index : nat)
  : list B :=
  match xs with
  | [] => []
  | x :: rest => f x index :: map_indexed f rest (S index)
  end.

(** [scores.reduce((sum, ing) => sum + ing.finalScore, 0)].  The final
    scores are integers, and a sum of integers is exact on doubles while
    it stays below 2^53. *)
Definition totalScore (ingredientScores : list IngredientScore.t) : Z :=
  fold_left (fun sum ing => (sum + IngredientScore.finalScore ing)%Z)
    ingredientScores 0%Z.

Definition avgScore (total : Z) (count : nat) : Q :=
  if (0 <? count)%nat
  then JsNumber.div (inject_Z total) (inject_Z (Z.of_nat count))
  else 0.

(** Normalize to 0-100 scale (assuming max individual score could be ~30) *)
Definition normalise (avg : Q) : Z :=
  Z.min (Math_round (JsNumber.mul (JsNumber.div avg 30) 100)) 100.

Definition verdict_of (productScore : Z) : Verdict :=
  if (productScore <=? 30)%Z then Good
  else if (productScore <=? 60)%Z then Moderate
  else Bad.

Definition Verdict_eqb (a b : Verdict) : bool :=
  match a, b with
  | Good, Good | Moderate, Moderate | Bad, Bad => true
  | _, _ => false
  end.

Definition generateTopReasons (ingredientScores : list IngredientScore.t)
  (verdict : Verdict) : list string :=
  let reasons : list string := [] in
  (* Check for allergens *)
  let allergens := filter IngredientScore.isAllergen ingredientScores in
  let reasons :=
    if (0 <? List.length allergens)%nat
    then reasons ++ [("Contains " ++ of_nat (List.length allergens)
                        ++ " allergen(s) matching your profile")%string]
    else reasons in
  (* High risk ingredients *)
  let highRisk :=
    filter (fun ing => RiskLevel_eqb (IngredientScore.baselineRisk ing) HIGH)
      ingredientScores in
  let reasons :=
    if (0 <? List.length highRisk)%nat
    then reasons ++ [("Contains " ++ of_nat (List.length highRisk)
                        ++ " high-risk ingredient(s): "
                        ++ join ", " (map IngredientScore.name highRisk))%string]
    else reasons in
  (* Personalized concerns *)
  let withMultipliers :=
    filter (fun ing => (0 <? List.length (IngredientScore.multipliers ing))%nat)
      ingredientScores in
  let reasons :=
    if (0 <? List.length withMultipliers)%nat && (List.length reasons <? 3)%nat
    then match withMultipliers with
         | topConcern :: _ =>
             match IngredientScore.multipliers topConcern with
             | first :: _ => reasons ++ [MultiplierInfo.reason first]
             | [] => reasons
             end
         | [] => reasons
         end
    else reasons in
  (* Positive reasons for good products *)
  let reasons :=
    if Verdict_eqb verdict Good && (List.length reasons =? 0)%nat
    then
      let lowRisk :=
        List.length
          (filter (fun ing => RiskLevel_eqb (IngredientScore.baselineRisk ing) LOW)
             ingredientScores) in
      reasons
        ++ [(of_nat lowRisk
             ++ " low-risk ingredients with no personalized concerns")%string]
        ++ ["No allergens or high-risk additives detected"]
    else reasons in
  firstn 3 reasons.

Definition DISCLAIMER : string :=
  "This analysis is for informational purposes only and is not a substitute for professional medical advice, diagnosis, or treatment.".

(** [scoreProduct].  [aiAnalysis] is what [await analyzeIngredientsWithAI]
    produced (the empty list when the call failed) and [now] is
    [new Date().toISOString()]. *)
Definition scoreProduct (productName : string) (ingredients : list string)
  (userProfile : UserProfile.t)
  (aiAnalysis : list AIAnalyzedIngredient.t) (now : string) : ProductScore.t :=
  let ingredientScores :=
    map_indexed
      (fun ing index =>
         match nth_error aiAnalysis index with
         | Some aiData => scoreIngredientWithAI aiData userProfile
         | None =>
             (* Fallback to local database *)
             scoreIngredient ing userProfile
         end)
      ingredients 0 in
  (* Calculate product score (0-100) *)
  let total := totalScore ingredientScores in
  let avg := avgScore total (List.length ingredients) in
  let productScore := normalise avg in
  (* Determine verdict *)
  let verdict := verdict_of productScore in
  (* Generate top reasons *)
  let topReasons := generateTopReasons ingredientScores verdict in
  ProductScore.mk productName now
    (PartialUserProfile.mk
       (UserProfile.age userProfile)
       None
       (Some (UserProfile.has_diabetes userProfile))
       None
       None
       (UserProfile.blood_pressure_systolic userProfile)
       (UserProfile.blood_pressure_diastolic userProfile))
    ingredientScores productScore verdict topReasons DISCLAIMER.

(* ------------------------------------------------------------------ *)
(** *** The label parser *)

Import Regex.

(** [(?:Ingredients|INGREDIENTS)] *)
Definition re_marker : regex := Alt (Lit "Ingredients") (Lit "INGREDIENTS").

(** [/^(.+?)(?:Ingredients|INGREDIENTS)/i] *)
Definition re_productName : regex :=
  Cat Bos (Cat (Group (Many false 1 is_dot)) re_marker).

Definition colon_or_space (c : ascii) : bool :=
  Ascii.eqb c ":" || is_space c.

(** [/(?:Ingredients|INGREDIENTS)[:\s]+(.+?)(?:Contains|CONTAINS|Nutrition|NUTRITION|$)/i] *)
Definition re_section : regex :=
  Cat re_marker
    (Cat (Many true 1 colon_or_space)
       (Cat (Group (Many false 1 is_dot))
          (Alt (Lit "Contains")
             (Alt (Lit "CONTAINS")
                (Alt (Lit "Nutrition") (Alt (Lit "NUTRITION") Eos)))))).

(** [/(?:Ingredients|INGREDIENTS)[:\s]+(.+)/i] *)
Definition re_fallback : regex :=
  Cat re_marker (Cat (Many true 1 colon_or_space) (Group (Many true 1 is_dot))).

(** [/\([^)]*\)/g] *)
Definition re_parenthetical : regex :=
  Cat (Lit "(") (Cat (Many true 0 (fun c => negb (Ascii.eqb c ")"))) (Lit ")")).

(** [/[^\w\s-]/g] *)
Definition re_artifact : regex :=
  Chr (fun c => negb (is_word c || is_space c || Ascii.eqb c "-")).

(** [/\s+/g] and [/\n+/g] *)
Definition re_spaces : regex := Many true 1 is_space.
Definition re_newlines : regex := Many true 1 (fun c => (code c =? 10)%nat).

(** [/^\d+$/] *)
Definition re_digits : regex := Cat Bos (Cat (Many true 1 is_digit) Eos).

Definition parseIngredientList (text : string) : list string :=
  (* Split by comma or semicolon *)
  let ingredients :=
    filter (fun ing => (0 <? String.length ing)%nat)
      (map trim (split_class (fun c => Ascii.eqb c "," || Ascii.eqb c ";") text)) in
  (* Clean up each ingredient *)
  filter
    (fun ing => (2 <? String.length ing)%nat && negb (test false re_digits ing))
    (map
       (fun ing =>
          (* Remove parenthetical content but keep the ingredient *)
          let ing := trim (replace_all false re_parenthetical "" ing) in
          (* Remove common OCR artifacts *)
          let ing := trim (replace_all false re_artifact " " ing) in
          (* Normalize whitespace *)
          replace_all false re_spaces " " ing)
       ingredients).

Definition parseIngredients (ocrText : string) : ParsedIngredients.t :=
  (* Clean up the OCR text *)
  let cleanText :=
    trim (replace_all false re_spaces " " (replace_all false re_newlines " " ocrText)) in
  (* Try to find product name (usually at the top, before "Ingredients:") *)
  let productName :=
    match match_group1 true re_productName cleanText with
    | Some g => trim g
    | None => "Unknown Product"
    end in
  (* Find ingredients section *)
  match match_group1 true re_section cleanText with
  | None =>
      (* If no clear section, try to extract everything after "Ingredients:" *)
      let ingredientsText :=
        match match_group1 true re_fallback cleanText with
        | Some g => g
        | None => cleanText
        end in
      ParsedIngredients.mk productName (parseIngredientList ingredientsText) cleanText
  | Some ingredientsText =>
      ParsedIngredients.mk productName (parseIngredientList ingredientsText) cleanText
  end.

End ScoringEngine.

(* ================================================================== *)
(** ** The scoring policy as the specification words it

    These definitions follow the text of the specification, not the
    source; the theorems below compare them with the embedded code. *)

Module Policy.
Import JsNumber ScoringEngine.

(** Section 4.4: starting from the base score, the allergy penalty is
    added, then the diabetes, blood-pressure and age factors multiply the
    running score, in that order, each only when its signal applies.
    The sums and products are the exact ones. *)
Definition running (base : Q) (allergy diabetes bp age : bool) : Q :=
  let s := if allergy then base + 10 else base in
  let s := if diabetes then s * 1.5 else s in
  let s := if bp then s * 1.3 else s in
  if age then s * 1.1 else s.

(** The same steps in the arithmetic of doubles: each sum and product is
    rounded, and the factors are the doubles nearest to 1.5, 1.3 and
    1.1. *)
Definition running_double (base : Q) (allergy diabetes bp age : bool) : Q :=
  let s := if allergy then JsNumber.add base 10 else base in
  let s := if diabetes then JsNumber.mul s (double 1.5) else s in
  let s := if bp then JsNumber.mul s (double 1.3) else s in
  if age then JsNumber.mul s (double 1.1) else s.

(** The multipliers recorded along the way, in the same order. *)
Definition recorded (allergy diabetes bp age : bool) : list MultiplierInfo.t :=
  (if allergy then [MultiplierInfo.mk "Matches your allergen list" 10] else [])
  ++ (if diabetes then [MultiplierInfo.mk "High glycemic concern for diabetes" 1.5]
      else [])
  ++ (if bp then [MultiplierInfo.mk "Sodium concern for blood pressure" 1.3] else [])
  ++ (if age then [MultiplierInfo.mk "Increased concern for age > 65" 1.1] else []).

(** Section 4.5: the average of a list of final scores, the sum divided
    by the count, as a double. *)
Definition average (finals : list Z) : Q :=
  JsNumber.div (inject_Z (fold_right Z.add 0%Z finals))
    (inject_Z (Z.of_nat (List.length finals))).

(** A signal that is on stays on. *)
Definition flag_le (x y : bool) : Prop := x = true -> y = true.

(** The blood-pressure condition of section 4.4: systolic at least 130 or
    diastolic at least 80, each looked at only when it is present. *)
Definition high_blood_pressure (p : UserProfile.t) : Prop :=
  (exists v, UserProfile.blood_pressure_systolic p = Some v /\ 130 <= v)
  \/ (exists v, UserProfile.blood_pressure_diastolic p = Some v /\ 80 <= v).

(** One personalization signal of a profile is switched on, every other
    field staying as it is. *)
Inductive switch_on : UserProfile.t -> UserProfile.t -> Prop :=
| add_allergy (age : option Q) (before after : list string) (allergy : string)
    (d : bool) (m : option string) (v sys dia : option Q) :
    switch_on (UserProfile.mk age (before ++ after) d m v sys dia)
              (UserProfile.mk age (before ++ allergy :: after) d m v sys dia)
| set_diabetes (age : option Q) (al : list string)
    (d : bool) (m : option string) (v sys dia : option Q) :
    switch_on (UserProfile.mk age al d m v sys dia)
              (UserProfile.mk age al true m v sys dia)
| raise_systolic (age : option Q) (al : list string)
    (d : bool) (m : option string) (v sys dia : option Q) (sys' : Q) :
    130 <= sys' ->
    switch_on (UserProfile.mk age al d m v sys dia)
              (UserProfile.mk age al d m v (Some sys') dia)
| raise_diastolic (age : option Q) (al : list string)
    (d : bool) (m : option string) (v sys dia : option Q) (dia' : Q) :
    80 <= dia' ->
    switch_on (UserProfile.mk age al d m v sys dia)
              (UserProfile.mk age al d m v sys (Some dia'))
| raise_age (age : option Q) (al : list string)
    (d : bool) (m : option string) (v sys dia : option Q) (age' : Q) :
    65 < age' ->
    switch_on (UserProfile.mk age al d m v sys dia)
              (UserProfile.mk (Some age') al d m v sys dia).

(** An [IngredientScore] made by one of the two scoring entry points. *)
Inductive produced (userProfile : UserProfile.t) : IngredientScore.t -> Prop :=
| by_database ing : produced userProfile (scoreIngredient ing userProfile)
| by_classifier aiData : produced userProfile (scoreIngredientWithAI aiData userProfile).

End Policy.

(* ================================================================== *)
(** ** The conditions each entry point tests

    Read off the source: the guard of each update of the running score,
    in the order [scoreIngredient] and [scoreIngredientWithAI] test them. *)

Module Signals.
Import JsNumber ScoringEngine.

Record t : Type := mk {
  allergy : bool;
  diabetes : bool;
  bp : bool;
  age : bool
}.

Definition of_database (info : IngredientInfo.t) (ingredientName : string)
  (userProfile : UserProfile.t) : t :=
  mk (affected AffectedBy.allergies info && hasAllergy ingredientName userProfile)
     (affected AffectedBy.diabetes info && UserProfile.has_diabetes userProfile)
     (affected AffectedBy.bloodPressure info && hasHighBP userProfile)
     (affected AffectedBy.age info && overAge userProfile).

Definition of_classifier (aiData : AIAnalyzedIngredient.t)
  (userProfile : UserProfile.t) : t :=
  mk (AIAnalyzedIngredient.isAllergen aiData)
     (UserProfile.has_diabetes userProfile && AIAnalyzedIngredient.diabetesRisk aiData)
     (AIAnalyzedIngredient.bpRisk aiData
      && truthy_and (UserProfile.blood_pressure_systolic userProfile)
           (fun v => geb v HIGH_BP_SYSTOLIC))
     (overAge userProfile
      && existsb (String.eqb (AIAnalyzedIngredient.category aiData))
           ["preservative"; "fat"; "additive"]).

(** The policy of section 4.4 run on a base score and a set of signals. *)
Definition running (base : Q) (s : t) : Q :=
  Policy.running base (allergy s) (diabetes s) (bp s) (age s).

Definition running_double (base : Q) (s : t) : Q :=
  Policy.running_double base (allergy s) (diabetes s) (bp s) (age s).

Definition recorded (s : t) : list MultiplierInfo.t :=
  Policy.recorded (allergy s) (diabetes s) (bp s) (age s).

End Signals.

(* ================================================================== *)
(** ** The arithmetic on IEEE 754 values

    The running score of section 4.4 and the normalisation of section 4.5
    once more, on IEEE 754 double-precision values with
    round-to-nearest-even, which is what the JavaScript operators
    compute.  It is used to compare [JsNumber.double] with the standard
    on the values the scoring engine meets. *)

Module Binary64.

Definition add : spec_float -> spec_float -> spec_float := SFadd 53 1024.
Definition mul : spec_float -> spec_float -> spec_float := SFmul 53 1024.
Definition div : spec_float -> spec_float -> spec_float := SFdiv 53 1024.

(** An integer literal (exact below 2^53). *)
Definition of_Z (z : Z) : spec_float := binary_normalize 53 1024 z 0 false.

(** A decimal literal [n/d]: the double nearest to it. *)
Definition literal (n d : Z) : spec_float := div (of_Z n) (of_Z d).

(** The exact value of a finite double. *)
Definition to_Q (x : spec_float) : Q :=
  match x with
  | S754_finite s m e =>
      let z := if s then Z.neg m else Z.pos m in
      if (0 <=? e)%Z then inject_Z (z * 2 ^ e) else z # Pos.pow 2 (Z.to_pos (- e))
  | _ => 0
  end.

Definition is_finite (x : spec_float) : bool :=
  match x with
  | S754_zero _ | S754_finite _ _ _ => true
  | _ => false
  end.

(** [Math.round] of a finite double: the nearest integer to its exact
    value, a half going up. *)
Definition Math_round (x : spec_float) : Z := JsNumber.Math_round (to_Q x).

Definition running (base : spec_float) (allergy diabetes bp age : bool) : spec_float :=
  let s := if allergy then add base (of_Z 10) else base in
  let s := if diabetes then mul s (literal 15 10) else s in
  let s := if bp then mul s (literal 13 10) else s in
  if age then mul s (literal 11 10) else s.

(** [(total / count / 30) * 100] *)
Definition normalised (total count : Z) : spec_float :=
  mul (div (div (of_Z total) (of_Z count)) (of_Z 30)) (of_Z 100).

(** The integers [lo], [lo + 1], ..., [lo + n - 1]. *)
Definition range (lo : Z) (n : nat) : list Z :=
  map (fun i => (lo + Z.of_nat i)%Z) (seq 0 n).

Definition flags : list (bool * bool * bool * bool) :=
  list_prod (list_prod (list_prod [false; true] [false; true]) [false; true])
    [false; true].

(** The running score from the base score [k/2], on IEEE 754 values and
    by [Policy.running_double], is the same finite number. *)
Definition running_agrees (k : Z) : bool :=
  forallb
    (fun f =>
       let '(a, d, b, g) := f in
       let x := running (literal k 2) a d b g in
       is_finite x
       && Qeq_bool (to_Q x) (Policy.running_double (k # 2) a d b g))
    flags.

(** The normalised average of [total] over [count], likewise. *)
Definition normalised_agrees (total count : Z) : bool :=
  let x := normalised total count in
  is_finite x
  && Qeq_bool (to_Q x)
       (JsNumber.mul
          (JsNumber.div (ScoringEngine.avgScore total (Z.to_nat count)) 30) 100).

End Binary64.

(* ================================================================== *)
(** ** Callers of the scoring engine *)

(** The severity badge of [IngredientCard]. *)
Module IngredientCard.

Record SeverityConfig : Type := mk {
  icon : string;
  color : string;
  label : string;
  bgColor : string;
  borderColor : string
}.

Definition getSeverityConfig (isAllergen : bool) (finalScore : Z) : SeverityConfig :=
  if isAllergen then
    mk "AlertCircle" "destructive" "ALLERGEN" "bg-destructive/10" "border-destructive"
  else if (7 <=? finalScore)%Z then
    mk "AlertCircle" "destructive" "HIGH RISK" "bg-destructive/10" "border-destructive"
  else if (4 <=? finalScore)%Z then
    mk "AlertTriangle" "default" "MODERATE" "bg-yellow-500/10" "border-yellow-500"
  else
    mk "CheckCircle" "default" "LOW RISK" "bg-green-500/10" "border-green-500".

(** The badge of the card rendered for one [IngredientScore]. *)
Definition severity (s : IngredientScore.t) : SeverityConfig :=
  getSeverityConfig (IngredientScore.isAllergen s) (IngredientScore.finalScore s).

End IngredientCard.

(** [parseFloat]: the double nearest to the decimal literal the string
    starts with.  [None] is NaN.  The literal [Infinity], which has no
    rational value, is read as NaN. *)
Module JsParse.
Import JsString.

Definition digit_value (c : ascii) : Z := (Z.of_nat (code c) - 48)%Z.

(** The longest prefix of decimal digits, and what follows it. *)
Fixpoint span_digits (s : string) : list ascii * string :=
  match s with
  | EmptyString => ([], EmptyString)
  | String c s' =>
      if is_digit c
      then let (ds, rest) := span_digits s' in (c :: ds, rest)
      else ([], s)
  end.

Definition decimal (ds : list ascii) : Z :=
  fold_left (fun acc d => (acc * 10 + digit_value d)%Z) ds 0%Z.

(** ExponentPart: [e] or [E], an optional sign and at least one digit;
    anything else is no exponent. *)
Definition exponent (s : string) : Z :=
  match s with
  | String c s' =>
      if Ascii.eqb c "e" || Ascii.eqb c "E" then
        let (negative, s'') :=
          match s' with
          | String sign t =>
              if Ascii.eqb sign "-" then (true, t)
              else if Ascii.eqb sign "+" then (false, t)
              else (false, s')
          | EmptyString => (false, s')
          end in
        match span_digits s'' with
        | ([], _) => 0%Z
        | (ds, _) => if negative then (- decimal ds)%Z else decimal ds
        end
      else 0%Z
  | EmptyString => 0%Z
  end.

(** StrUnsignedDecimalLiteral: digits, an optional fraction, an optional
    exponent; at least one digit before or after the point. *)
Definition unsigned_literal (s : string) : option Q :=
  let (int, rest) := span_digits s in
  let (frac, rest') :=
    match rest with
    | String point t => if Ascii.eqb point "." then span_digits t else ([], rest)
    | EmptyString => ([], rest)
    end in
  match int ++ frac with
  | [] => None
  | ds =>
      Some (JsNumber.double
              (inject_Z (decimal ds) / inject_Z (10 ^ Z.of_nat (List.length frac))
               * Qpower 10 (exponent rest')))
  end.

Definition parseFloat (s : string) : option Q :=
  match trimStart s with
  | String sign t =>
      if Ascii.eqb sign "-" then option_map Qopp (unsigned_literal t)
      else if Ascii.eqb sign "+" then unsigned_literal t
      else unsigned_literal (String sign t)
  | EmptyString => unsigned_literal EmptyString
  end.

End JsParse.

(** [extractNutritionFacts].  A field is [None] when its key is absent,
    [Some (Some v)] when it holds the number [v] and [Some None] when it
    holds NaN. *)
Module Nutrition.
Import JsString Regex ScoringEngine.

Record t : Type := mk {
  sugar_g_per_100g : option (option Q);
  sodium_mg_per_100g : option (option Q);
  sat_fat_g_per_100g : option (option Q)
}.

(** The capture group, [\d+\.?\d*] in parentheses; [N] below *)
Definition re_number : regex :=
  Group (Cat (Many true 1 is_digit) (Cat (Alt (Lit ".") (Lit "")) (Many true 0 is_digit))).

(** [[s]] under the [i] flag *)
Definition letter_s (c : ascii) : bool := Ascii.eqb (lower_ascii c) "s".

(** [/sugar[s]?[:\s]+N\s*g/i] *)
Definition re_sugar : regex :=
  Cat (Lit "sugar")
    (Cat (Alt (Chr letter_s) (Lit ""))
       (Cat (Many true 1 colon_or_space)
          (Cat re_number (Cat (Many true 0 is_space) (Lit "g"))))).

(** [/sodium[:\s]+N\s*mg/i] *)
Definition re_sodium : regex :=
  Cat (Lit "sodium")
    (Cat (Many true 1 colon_or_space)
       (Cat re_number (Cat (Many true 0 is_space) (Lit "mg")))).

(** [/saturated\s+fat[:\s]+N\s*g/i] *)
Definition re_satFat : regex :=
  Cat (Lit "saturated")
    (Cat (Many true 1 is_space)
       (Cat (Lit "fat")
          (Cat (Many true 1 colon_or_space)
             (Cat re_number (Cat (Many true 0 is_space) (Lit "g")))))).

(** [const m = ocrText.match(re); if (m) data.key = parseFloat(m[1])] *)
Definition field (re : regex) (ocrText : string) : option (option Q) :=
  match match_group1 true re ocrText with
  | Some captured => Some (JsParse.parseFloat captured)
  | None => None
  end.

Definition extractNutritionFacts (ocrText : string) : t :=
  mk (field re_sugar ocrText) (field re_sodium ocrText) (field re_satFat ocrText).

(** A regex without a capture group. *)
Fixpoint no_group (r : regex) : bool :=
  match r with
  | Cat r1 r2 | Alt r1 r2 => no_group r1 && no_group r2
  | Group _ => false
  | _ => true
  end.

End Nutrition.

(** The results page: the two colour helpers and the row [handleSaveScan]
    inserts into table [scans]. *)
Module Results.

(** The string a [Verdict] is at run time. *)
Definition Verdict_string (v : Verdict) : string :=
  match v with
  | Good => "Good"
  | Moderate => "Moderate"
  | Bad => "Bad"
  end.

Definition getVerdictColor (verdict : string) : string :=
  if String.eqb verdict "Good" then "bg-success text-white"
  else if String.eqb verdict "Moderate" then "bg-warning text-white"
  else if String.eqb verdict "Bad" then "bg-danger text-white"
  else "bg-muted".

Definition getScoreColor (score : Z) : string :=
  if (score <=? 30)%Z then "text-success"
  else if (score <=? 60)%Z then "text-warning"
  else "text-danger".

Record ScanRow : Type := mkRow {
  user_id : string;
  product_name : string;
  ingredients : list IngredientScore.t;
  nutrition_facts : option Nutrition.t;
  product_score : Z;
  verdict : string;
  top_reasons : list string
}.

(** The object literal passed to [insert] by [handleSaveScan]. *)
Definition scan_row (user : string) (productScore : ProductScore.t) : ScanRow :=
  mkRow user
    (ProductScore.productName productScore)
    (ProductScore.ingredientScores productScore)
    None
    (ProductScore.productScore productScore)
    (Verdict_string (ProductScore.verdict productScore))
    (ProductScore.topReasons productScore).

(** The two CHECK constraints of table [scans] in the migration. *)
Definition scans_check (row : ScanRow) : bool :=
  ((0 <=? product_score row)%Z && (product_score row <=? 100)%Z)
  && existsb (String.eqb (verdict row)) ["Good"; "Moderate"; "Bad"].

End Results.

(** The list operations of [IngredientEditor] on its three state cells. *)
Module IngredientEditor.
Import JsString.

Record state : Type := mk {
  ingredients : list string;
  productName : string;
  newIngredient : string
}.

(** The three [useState] initial values. *)
Definition init (initialIngredients : list string) (initialProductName : string) : state :=
  mk initialIngredients initialProductName "".

(** [xs.filter((x, i) => keep(x, i))], counting from [i]. *)
Fixpoint filter_indexed {A : Type} (keep : A -> nat -> bool) (xs : list A) (i : nat)
  : list A :=
  match xs with
  | [] => []
  | x :: rest =>
      if keep x i then x :: filter_indexed keep rest (S i)
      else filter_indexed keep rest (S i)
  end.

Definition removeIngredient (index : nat) (st : state) : state :=
  mk (filter_indexed (fun _ i => negb (i =? index)%nat) (ingredients st) 0)
     (productName st) (newIngredient st).

Definition addIngredient (st : state) : state :=
  if (0 <? String.length (trim (newIngredient st)))%nat
  then mk (ingredients st ++ [trim (newIngredient st)]) (productName st) ""
  else st.

(** The arguments [handleConfirm] passes to [onConfirm]. *)
Definition handleConfirm (st : state) : list string * string :=
  (filter (fun ing => (0 <? String.length (trim ing))%nat) (ingredients st),
   productName st).

End IngredientEditor.

(** The allergy list of the profile page. *)
Module ProfilePage.
Import JsString.

Record ProfileData : Type := mkProfile {
  age : option Q;
  allergies : list string;
  has_diabetes : bool;
  diabetes_measure : string;
  diabetes_value : option Q;
  blood_pressure_systolic : option Q;
  blood_pressure_diastolic : option Q;
  consent_image_storage : bool;
  consent_medical_data : bool
}.

(** [{ ...profile, allergies: xs }] *)
Definition with_allergies (profile : ProfileData) (xs : list string) : ProfileData :=
  mkProfile (age profile) xs (has_diabetes profile) (diabetes_measure profile)
    (diabetes_value profile) (blood_pressure_systolic profile)
    (blood_pressure_diastolic profile) (consent_image_storage profile)
    (consent_medical_data profile).

Record state : Type := mk {
  profile : ProfileData;
  allergyInput : string
}.

(** The initial values of the two [useState] cells. *)
Definition init : state :=
  mk (mkProfile None [] false "" None None None false false) "".

(** [xs.includes(x)] on an array of strings *)
Definition array_includes (xs : list string) (x : string) : bool :=
  existsb (String.eqb x) xs.

Definition addAllergy (st : state) : state :=
  if (0 <? String.length (trim (allergyInput st)))%nat
     && negb (array_includes (allergies (profile st)) (trim (allergyInput st)))
  then mk (with_allergies (profile st)
             (allergies (profile st) ++ [trim (allergyInput st)]))
          ""
  else st.

Definition removeAllergy (allergy : string) (st : state) : state :=
  mk (with_allergies (profile st)
        (filter (fun a => negb (String.eqb a allergy)) (allergies (profile st))))
     (allergyInput st).

(** What the two handlers maintain: no entry twice, none blank, each
    without surrounding whitespace. *)
Definition tidy (xs : list string) : Prop :=
  NoDup xs /\ Forall (fun a => a <> "" /\ trim a = a) xs.

End ProfilePage.

(** Notions used to describe what the whitespace clean-up computes. *)
Module Whitespace.
Import JsString.

(** A list without its leading run of characters of class [p]. *)
Fixpoint skip (p : ascii -> bool) (l : list ascii) : list ascii :=
  match l with
  | [] => []
  | c :: rest => if p c then skip p rest else l
  end.

(** Every maximal run of characters of class [p] replaced by one space;
    [in_run] tells whether the previous character was of the class. *)
Fixpoint collapse (p : ascii -> bool) (in_run : bool) (l : list ascii) : list ascii :=
  match l with
  | [] => []
  | c :: rest =>
      if p c then
        if in_run then collapse p true rest else " "%char :: collapse p true rest
      else c :: collapse p false rest
  end.

(** The only whitespace is the space character, never twice in a row;
    [after_space] tells whether the previous character was a space. *)
Fixpoint single_spaced (after_space : bool) (l : list ascii) : bool :=
  match l with
  | [] => true
  | c :: rest =>
      if is_space c
      then Ascii.eqb c " " && negb after_space && single_spaced true rest
      else single_spaced false rest
  end.

End Whitespace.

(** Notions used to state how the matcher moves through its subject. *)
Module Matching.
Import JsString Regex.

(** [c'] is reached from [c] by passing over the characters [w]. *)
Definition advance (c c' : cursor) : Prop :=
  exists w, ahead c = w ++ ahead c' /\ passed c' = rev w ++ passed c.

(** The word "ingredients", in lower case, begins the text still ahead. *)
Definition marker_here (rt : list ascii) : Prop :=
  prefix "ingredients" (toLowerCase (string_of_list_ascii rt)) = true.

End Matching.

(* ================================================================== *)
(** ** Concrete inputs used by the examples *)

Module Examples.

(** [{has_diabetes: true, allergies: [], age: 70, blood_pressure_systolic: 140}] *)
Definition scenario1 : UserProfile.t :=
  UserProfile.mk (Some 70) [] true None None (Some 140) None.

(** A profile whose only signal is a diastolic reading of 90. *)
Definition diastolic_only : UserProfile.t :=
  UserProfile.mk None [] false None None None (Some 90).

(** A classifier reply for salt, flagged as a blood-pressure risk. *)
Definition ai_salt : AIAnalyzedIngredient.t :=
  AIAnalyzedIngredient.mk "salt" "mineral" MODERATE 5
    ["Blood pressure elevation"] false false true.

(** A classifier reply with a negative base score, in a category the age
    factor applies to. *)
Definition ai_rebate : AIAnalyzedIngredient.t :=
  AIAnalyzedIngredient.mk "fibre" "additive" LOW (-25) [] false false false.

(** A classifier reply with every signal set. *)
Definition ai_everything : AIAnalyzedIngredient.t :=
  AIAnalyzedIngredient.mk "peanut oil" "fat" HIGH 8
    ["Severe allergen"] true true true.

Definition everything : UserProfile.t :=
  UserProfile.mk (Some 70) ["peanut"] true None None (Some 140) (Some 90).

Definition artificial_allergy : UserProfile.t :=
  UserProfile.mk None ["artificial"] false None None None None.

Definition choco_bar : string :=
  "Choco Bar Ingredients: Sugar, Milk, (2% or less of Salt), Cocoa. Contains: Milk, Soy".

End Examples.

Import JsString JsNumber IngredientDatabase ScoringEngine.

(* ================================================================== *)
(** ** The embedding on the scenarios of section 8 *)

(** Scenario 2: "peanuts" against the allergy "peanut". *)
Example scenario2_peanuts :
  let s := scoreIngredient "peanuts"
             (UserProfile.mk None ["peanut"] false None None None None) in
  IngredientScore.finalScore s = 10%Z
  /\ IngredientScore.isAllergen s = true
  /\ IngredientScore.comment s = ALLERGEN_ALERT.
Proof. repeat split. Qed.

(** Scenario 4: no ingredients at all. *)
Example scenario4_empty :
  let r := scoreProduct "Nothing" [] Examples.scenario1 [] "2025-01-01T00:00:00.000Z" in
  ProductScore.productScore r = 0%Z
  /\ ProductScore.verdict r = Good
  /\ ProductScore.topReasons r
     = ["0 low-risk ingredients with no personalized concerns";
        "No allergens or high-risk additives detected"].
Proof. repeat split. Qed.

(** The lookup tolerates a plural and falls back to the default record. *)
Example lookup_sugars :
  option_map IngredientInfo.canonicalForm (findIngredient "Sugars ") = Some "sugar".
Proof. reflexivity. Qed.

Example lookup_unknown :
  findIngredient "Xanthan  Gum" = Some
    (IngredientInfo.mk "Xanthan  Gum" "xanthan_gum" "unknown" LOW 0
       ["Ingredient not in database"] (Some AffectedBy.empty)).
Proof. reflexivity. Qed.

(** A label with a line break, a semicolon, short tokens and artifacts. *)
Example parse_granola :
  parseIngredients
    ("Granola" ++ String (ascii_of_nat 10)
       " INGREDIENTS: Oats (rolled), Sugar; 12, E3, Sea-Salt!! NUTRITION facts")
  = ParsedIngredients.mk "Granola" ["Oats"; "Sugar"; "Sea-Salt"]
      "Granola INGREDIENTS: Oats (rolled), Sugar; 12, E3, Sea-Salt!! NUTRITION facts".
Proof. vm_compute. reflexivity. Qed.

Example parse_without_marker :
  parseIngredients "no marker here, a, bcd"
  = ParsedIngredients.mk "Unknown Product" ["no marker here"; "bcd"]
      "no marker here, a, bcd".
Proof. vm_compute. reflexivity. Qed.

(* ================================================================== *)
(** ** Facts about the database and the lookup *)

Lemma get_In db key value :
  get db key = Some value -> In value (map snd db).
Proof.
  induction db as [|[k v] rest IH]; simpl; [discriminate|].
  destruct (String.eqb k key); [intros [= ->]; now left | right; auto].
Qed.

Lemma partial_match_In db normalized value :
  partial_match db normalized = Some value -> In value (map snd db).
Proof.
  induction db as [|[k v] rest IH]; simpl; [discriminate|].
  destruct (includes normalized k || includes k normalized);
    [intros [= ->]; now left | right; auto].
Qed.

(** Every result of the lookup is a database record or the default one. *)
Lemma findIngredient_cases ingredientName info :
  findIngredient ingredientName = Some info ->
  In info (map snd INGREDIENT_DATABASE)
  \/ info = unknown_ingredient ingredientName (trim (toLowerCase ingredientName)).
Proof.
  unfold findIngredient.
  destruct (get _ _) eqn:Hg.
  - intros [= <-]. left. eapply get_In; eauto.
  - destruct (partial_match _ _) eqn:Hp.
    + intros [= <-]. left. eapply partial_match_In; eauto.
    + intros [= <-]. now right.
Qed.

(** The lookup never answers [null]. *)
Lemma findIngredient_total ingredientName :
  exists info, findIngredient ingredientName = Some info.
Proof.
  unfold findIngredient.
  destruct (get _ _); [eauto|]. destruct (partial_match _ _); eauto.
Qed.

Lemma database_baseScore_nonneg :
  Forall (fun info => 0 <= IngredientInfo.baseScore info)
    (map snd INGREDIENT_DATABASE).
Proof. repeat constructor; simpl; discriminate. Qed.

Lemma findIngredient_baseScore_nonneg ingredientName info :
  findIngredient ingredientName = Some info -> 0 <= IngredientInfo.baseScore info.
Proof.
  intros H. destruct (findIngredient_cases _ _ H) as [Hin | ->].
  - exact (proj1 (Forall_forall _ _) database_baseScore_nonneg _ Hin).
  - simpl. discriminate.
Qed.

(* ================================================================== *)
(** ** The rounding of doubles *)

Lemma round_half_even_cases x :
  round_half_even x = Qfloor x \/ round_half_even x = (Qfloor x + 1)%Z.
Proof.
  unfold round_half_even.
  destruct (Qcompare _ _); [destruct (Z.even _)| |]; auto.
Qed.

Lemma round_half_even_Z (n : Z) : round_half_even (inject_Z n) = n.
Proof.
  unfold round_half_even. rewrite Qfloor_Z.
  destruct (Qcompare_spec (inject_Z n - inject_Z n) (1 # 2)) as [H|H|H].
  - exfalso. lra.
  - reflexivity.
  - exfalso. lra.
Qed.

Lemma round_half_even_mono x y :
  x <= y -> (round_half_even x <= round_half_even y)%Z.
Proof.
  intros H.
  pose proof (Qfloor_resp_le _ _ H) as Hf.
  destruct (Z.eq_dec (Qfloor x) (Qfloor y)) as [E|E].
  - unfold round_half_even. rewrite <- E.
    destruct (Qcompare_spec (x - inject_Z (Qfloor x)) (1 # 2)) as [Hx|Hx|Hx];
      destruct (Qcompare_spec (y - inject_Z (Qfloor x)) (1 # 2)) as [Hy|Hy|Hy];
      try destruct (Z.even (Qfloor x)); try lia; exfalso; lra.
  - destruct (round_half_even_cases x) as [-> | ->],
             (round_half_even_cases y) as [-> | ->]; lia.
Qed.

Lemma round_half_even_near x :
  x - (1 # 2) <= inject_Z (round_half_even x) <= x + (1 # 2).
Proof.
  pose proof (Qfloor_le x) as Hl. pose proof (Qlt_floor x) as Hu.
  rewrite inject_Z_plus in Hu. change (inject_Z 1) with 1 in Hu.
  unfold round_half_even.
  destruct (Qcompare_spec (x - inject_Z (Qfloor x)) (1 # 2)) as [H|H|H];
    [destruct (Z.even (Qfloor x))| |]; rewrite ?inject_Z_plus;
    change (inject_Z 1) with 1; split; lra.
Qed.

(** *** Powers of two *)

Lemma pow2_pos (e : Z) : 0 < 2 ^ e.
Proof. now apply Qpower_0_lt. Qed.

Lemma pow2_le (n m : Z) : (n <= m)%Z -> 2 ^ n <= 2 ^ m.
Proof. intros H. apply Qpower_le_compat_l; [exact H | discriminate]. Qed.

Lemma pow2_lt (n m : Z) : (n < m)%Z -> 2 ^ n < 2 ^ m.
Proof. intros H. apply Qpower_lt_compat_l; [exact H | reflexivity]. Qed.

Lemma pow2_lt_inv (n m : Z) : 2 ^ n < 2 ^ m -> (n < m)%Z.
Proof. intros H. apply (Qpower_lt_compat_l_inv 2); [exact H | reflexivity]. Qed.

Lemma pow2_plus (n m : Z) : 2 ^ (n + m) == 2 ^ n * 2 ^ m.
Proof. apply Qpower_plus. discriminate. Qed.

Lemma pow2_Z (n : Z) : (0 <= n)%Z -> inject_Z (2 ^ n) == 2 ^ n.
Proof. intros H. now rewrite Zpower_Qpower. Qed.

(** *** The binary exponent *)

Lemma ilog2_spec x : 0 < x -> 2 ^ ilog2 x <= x /\ x < 2 ^ (ilog2 x + 1).
Proof.
  intros Hx. unfold ilog2.
  set (k := (Z.log2 (Qnum x) - Z.log2 (Z.pos (Qden x)))%Z).
  assert (Hn : (0 < Qnum x)%Z).
  { unfold Qlt in Hx. simpl in Hx. lia. }
  pose proof (Z.log2_spec _ Hn) as [Hn1 Hn2].
  pose proof (Z.log2_spec (Z.pos (Qden x)) (Pos2Z.is_pos _)) as [Hd1 Hd2].
  pose proof (Z.log2_nonneg (Qnum x)) as Ha.
  pose proof (Z.log2_nonneg (Z.pos (Qden x))) as Hb.
  set (a := Z.log2 (Qnum x)) in *. set (b := Z.log2 (Z.pos (Qden x))) in *.
  assert (Hxq : x == inject_Z (Qnum x) / inject_Z (Z.pos (Qden x))).
  { rewrite <- (Qmake_Qdiv (Qnum x) (Qden x)). now destruct x. }
  assert (Hden : 0 < inject_Z (Z.pos (Qden x))).
  { change 0 with (inject_Z 0). now rewrite <- Zlt_Qlt. }
  assert (Hup : x < 2 ^ (k + 1)).
  { rewrite Hxq. apply Qlt_shift_div_r; [exact Hden|].
    apply Qlt_le_trans with (inject_Z (2 ^ Z.succ a)).
    - now rewrite <- Zlt_Qlt.
    - rewrite pow2_Z by lia.
      replace (Z.succ a) with ((k + 1) + b)%Z by (unfold k; lia).
      rewrite pow2_plus. apply Qmult_le_l; [apply pow2_pos|].
      rewrite <- pow2_Z by lia. now rewrite <- Zle_Qle. }
  assert (Hlow : 2 ^ (k - 1) < x).
  { rewrite Hxq. apply Qlt_shift_div_l; [exact Hden|].
    apply Qlt_le_trans with (2 ^ (k - 1) * inject_Z (2 ^ Z.succ b)).
    - apply Qmult_lt_l; [apply pow2_pos|]. now rewrite <- Zlt_Qlt.
    - rewrite pow2_Z by lia. rewrite <- pow2_plus.
      replace (k - 1 + Z.succ b)%Z with a by (unfold k; lia).
      rewrite <- pow2_Z by lia. now rewrite <- Zle_Qle. }
  destruct (Qle_bool (2 ^ k) x) eqn:E.
  - apply Qle_bool_iff in E. split; assumption.
  - split; [now apply Qlt_le_weak|].
    replace (k - 1 + 1)%Z with k by lia.
    apply Qnot_le_lt. intros H. apply Qle_bool_iff in H. congruence.
Qed.

Lemma ilog2_unique x k : 2 ^ k <= x -> x < 2 ^ (k + 1) -> ilog2 x = k.
Proof.
  intros Hl Hu.
  assert (Hx : 0 < x) by (eapply Qlt_le_trans; [apply (pow2_pos k) | exact Hl]).
  destruct (ilog2_spec x Hx) as [Hl' Hu'].
  assert (H1 : (k < ilog2 x + 1)%Z)
    by (apply pow2_lt_inv; eapply Qle_lt_trans; eauto).
  assert (H2 : (ilog2 x < k + 1)%Z)
    by (apply pow2_lt_inv; eapply Qle_lt_trans; eauto).
  lia.
Qed.

Lemma ilog2_mono x y : 0 < x -> x <= y -> (ilog2 x <= ilog2 y)%Z.
Proof.
  intros Hx Hxy.
  assert (Hy : 0 < y) by (eapply Qlt_le_trans; eauto).
  destruct (ilog2_spec x Hx) as [Hl _]. destruct (ilog2_spec y Hy) as [_ Hu].
  assert (H : (ilog2 x < ilog2 y + 1)%Z).
  { apply pow2_lt_inv. eapply Qle_lt_trans; [exact Hl|].
    eapply Qle_lt_trans; eauto. }
  lia.
Qed.

(** *** The nearest double *)

Lemma nearest_eq x :
  nearest x == inject_Z (round_half_even (x / 2 ^ (ilog2 x - 52))) * 2 ^ (ilog2 x - 52).
Proof. unfold nearest. apply Qred_correct. Qed.

Lemma scaled_range x :
  0 < x ->
  inject_Z (2 ^ 52) <= x / 2 ^ (ilog2 x - 52)
  /\ x / 2 ^ (ilog2 x - 52) <= inject_Z (2 ^ 53).
Proof.
  intros Hx. destruct (ilog2_spec x Hx) as [Hl Hu].
  set (e := (ilog2 x - 52)%Z).
  rewrite !pow2_Z by lia. split.
  - apply Qle_shift_div_l; [apply pow2_pos|].
    rewrite <- pow2_plus. now replace (52 + e)%Z with (ilog2 x) by (unfold e; lia).
  - apply Qle_shift_div_r; [apply pow2_pos|].
    rewrite <- pow2_plus. replace (53 + e)%Z with (ilog2 x + 1)%Z by (unfold e; lia).
    now apply Qlt_le_weak.
Qed.

Lemma significand_range x :
  0 < x ->
  (2 ^ 52 <= round_half_even (x / 2 ^ (ilog2 x - 52)) <= 2 ^ 53)%Z.
Proof.
  intros Hx. destruct (scaled_range x Hx) as [Hl Hu].
  apply round_half_even_mono in Hl, Hu.
  rewrite round_half_even_Z in Hl, Hu. lia.
Qed.

Lemma nearest_range x :
  0 < x -> 2 ^ ilog2 x <= nearest x /\ nearest x <= 2 ^ (ilog2 x + 1).
Proof.
  intros Hx. rewrite nearest_eq.
  destruct (significand_range x Hx) as [Hl Hu].
  set (e := (ilog2 x - 52)%Z) in *.
  set (m := round_half_even (x / 2 ^ e)) in *.
  rewrite Zle_Qle in Hl, Hu. rewrite !pow2_Z in Hl, Hu by lia.
  replace (ilog2 x) with (52 + e)%Z at 1 by (unfold e; lia).
  replace (ilog2 x + 1)%Z with (53 + e)%Z by (unfold e; lia).
  rewrite !pow2_plus. split; (apply Qmult_le_compat_r; [assumption|]);
    apply Qlt_le_weak, pow2_pos.
Qed.

Lemma nearest_pos x : 0 < x -> 0 < nearest x.
Proof.
  intros Hx. eapply Qlt_le_trans; [apply (pow2_pos (ilog2 x))|].
  now apply nearest_range.
Qed.

Lemma nearest_mono x y : 0 < x -> x <= y -> nearest x <= nearest y.
Proof.
  intros Hx Hxy.
  assert (Hy : 0 < y) by (eapply Qlt_le_trans; eauto).
  pose proof (ilog2_mono x y Hx Hxy) as He.
  destruct (Z.eq_dec (ilog2 x) (ilog2 y)) as [E|E].
  - rewrite !nearest_eq, E.
    apply Qmult_le_compat_r; [|apply Qlt_le_weak, pow2_pos].
    rewrite <- Zle_Qle. apply round_half_even_mono.
    apply Qmult_le_compat_r; [exact Hxy|].
    apply Qlt_le_weak, Qinv_lt_0_compat, pow2_pos.
  - apply Qle_trans with (2 ^ (ilog2 x + 1)); [now apply nearest_range|].
    apply Qle_trans with (2 ^ ilog2 y); [apply pow2_le; lia | now apply nearest_range].
Qed.

Lemma nearest_comp x y : 0 < x -> x == y -> nearest x == nearest y.
Proof.
  intros Hx E. apply Qle_antisym; apply nearest_mono; lra.
Qed.

(** The relative error of the rounding is at most [2^-53]. *)
Lemma nearest_error x :
  0 < x -> x * (1 - (1 # 2 ^ 53)) <= nearest x /\ nearest x <= x * (1 + (1 # 2 ^ 53)).
Proof.
  intros Hx. rewrite nearest_eq.
  destruct (scaled_range x Hx) as [Hl _].
  set (e := (ilog2 x - 52)%Z) in *.
  pose proof (pow2_pos e) as He.
  pose proof (round_half_even_near (x / 2 ^ e)) as [Hn1 Hn2].
  set (m := inject_Z (round_half_even (x / 2 ^ e))) in *.
  assert (Hs : x == (x / 2 ^ e) * 2 ^ e) by (field; lra).
  set (s := x / 2 ^ e) in *.
  change (inject_Z (2 ^ 52)) with 4503599627370496 in Hl.
  change (1 # 2 ^ 53) with (1 # 9007199254740992).
  rewrite Hs. split.
  - rewrite <- Qmult_assoc, (Qmult_comm (2 ^ e)), Qmult_assoc.
    apply Qmult_le_compat_r; [lra | lra].
  - rewrite <- Qmult_assoc, (Qmult_comm (2 ^ e)), Qmult_assoc.
    apply Qmult_le_compat_r; [lra | lra].
Qed.

(** *** [double] *)

Lemma double_0 : double 0 = 0.
Proof. reflexivity. Qed.

Lemma double_pos x : 0 < x -> double x = nearest x.
Proof.
  intros H. unfold double.
  destruct (Qcompare_spec x 0) as [E|E|E]; [exfalso; lra | exfalso; lra | reflexivity].
Qed.

Lemma double_neg x : x < 0 -> double x = - nearest (- x).
Proof.
  intros H. unfold double.
  destruct (Qcompare_spec x 0) as [E|E|E]; [exfalso; lra | reflexivity | exfalso; lra].
Qed.

Lemma double_zero x : x == 0 -> double x = 0.
Proof.
  intros H. unfold double.
  destruct (Qcompare_spec x 0) as [E|E|E]; [reflexivity | exfalso; lra | exfalso; lra].
Qed.

Lemma double_nonneg x : 0 <= x -> 0 <= double x.
Proof.
  intros H. destruct (Qlt_le_dec 0 x) as [Hp|Hz].
  - rewrite double_pos by assumption. now apply Qlt_le_weak, nearest_pos.
  - rewrite double_zero by lra. discriminate.
Qed.

Lemma double_nonpos x : x <= 0 -> double x <= 0.
Proof.
  intros H. destruct (Qlt_le_dec x 0) as [Hn|Hz].
  - rewrite double_neg by assumption.
    assert (0 < nearest (- x)) by (apply nearest_pos; lra). lra.
  - rewrite double_zero by lra. discriminate.
Qed.

Lemma double_mono x y : x <= y -> double x <= double y.
Proof.
  intros H.
  destruct (Qlt_le_dec 0 x) as [Hx|Hx].
  - rewrite (double_pos x), (double_pos y) by lra. now apply nearest_mono.
  - destruct (Qlt_le_dec y 0) as [Hy|Hy].
    + rewrite (double_neg x), (double_neg y) by lra.
      assert (nearest (- y) <= nearest (- x)) by (apply nearest_mono; lra). lra.
    + apply Qle_trans with 0; [now apply double_nonpos | now apply double_nonneg].
Qed.

Lemma double_comp x y : x == y -> double x == double y.
Proof.
  intros E. apply Qle_antisym; apply double_mono; rewrite E; apply Qle_refl.
Qed.

Lemma double_error_below x :
  0 <= x -> x * (1 - (1 # 2 ^ 53)) <= double x.
Proof.
  intros H. destruct (Qlt_le_dec 0 x) as [Hp|Hz].
  - rewrite double_pos by assumption. now apply nearest_error.
  - rewrite double_zero by lra.
    assert (E : x == 0) by lra. rewrite E. discriminate.
Qed.

(** *** The steps of the running score *)

Lemma double_literals :
  double 10 = 10 /\ double 15 = 15 /\ double 50 = 50 /\ double (1 # 2) = 1 # 2
  /\ 1 + (1 # 20) <= double 1.5 /\ 1 + (1 # 20) <= double 1.3
  /\ 1 + (1 # 20) <= double 1.1.
Proof. repeat split; vm_compute; reflexivity || discriminate. Qed.

(** A product by a factor of at least 1.05 is not below the other factor:
    the rounding loses at most one part in [2^53]. *)
Lemma mul_ge s c : 0 <= s -> 1 + (1 # 20) <= c -> s <= JsNumber.mul s c.
Proof.
  intros Hs Hc. unfold JsNumber.mul.
  assert (H0 : 0 <= s * c) by (apply Qmult_le_0_compat; lra).
  pose proof (double_error_below (s * c) H0) as H.
  change (1 # 2 ^ 53) with (1 # 9007199254740992) in H.
  assert (H1 : s * 1 <= s * (c * (1 - (1 # 9007199254740992)))).
  { destruct (Qlt_le_dec 0 s) as [Hp|Hz].
    - apply Qmult_le_l; [exact Hp | lra].
    - assert (E : s == 0) by lra. rewrite E. lra. }
  lra.
Qed.

Lemma mul_mono s s' c : 0 <= c -> s <= s' -> JsNumber.mul s c <= JsNumber.mul s' c.
Proof.
  intros Hc H. apply double_mono. now apply Qmult_le_compat_r.
Qed.

Lemma mul_nonneg s c : 0 <= s -> 0 <= c -> 0 <= JsNumber.mul s c.
Proof. intros Hs Hc. apply double_nonneg. now apply Qmult_le_0_compat. Qed.

Lemma mul_ge_10 s c : 10 <= s -> 1 + (1 # 20) <= c -> 10 <= JsNumber.mul s c.
Proof.
  intros Hs Hc. apply Qle_trans with s; [exact Hs | apply mul_ge; lra].
Qed.

Lemma add_10_ge base : 0 <= base -> 10 <= JsNumber.add base 10.
Proof.
  intros H. rewrite <- (proj1 double_literals) at 1.
  apply double_mono. lra.
Qed.

(* ================================================================== *)
(** ** The two scoring paths against the policy *)

(** The steps [scoreIngredient] takes, on doubles. *)
Lemma scoreIngredient_steps ingredientName userProfile info :
  findIngredient ingredientName = Some info ->
  let signals := Signals.of_database info ingredientName userProfile in
  scoreIngredient ingredientName userProfile =
  IngredientScore.mk
    (IngredientInfo.name info) (IngredientInfo.canonicalForm info)
    (IngredientInfo.category info) (IngredientInfo.baselineRisk info)
    (IngredientInfo.baseScore info)
    (Signals.recorded signals)
    (Math_round (Signals.running_double (IngredientInfo.baseScore info) signals))
    (generateComment info (Signals.recorded signals) (Signals.allergy signals))
    (Signals.allergy signals).
Proof.
  intros found. unfold scoreIngredient, Signals.of_database. rewrite found.
  destruct (affected AffectedBy.allergies info),
           (hasAllergy ingredientName userProfile),
           (affected AffectedBy.diabetes info),
           (UserProfile.has_diabetes userProfile),
           (affected AffectedBy.bloodPressure info),
           (hasHighBP userProfile),
           (affected AffectedBy.age info),
           (overAge userProfile); reflexivity.
Qed.

(** On the records of the database the rounding of doubles changes no
    final score: the running score on doubles and the exact one of
    section 4.4 round to the same integer. *)
Lemma database_running_double :
  Forall
    (fun info =>
       forall a d b g : bool,
         Math_round
           (Policy.running_double (IngredientInfo.baseScore info)
              (affected AffectedBy.allergies info && a)
              (affected AffectedBy.diabetes info && d)
              (affected AffectedBy.bloodPressure info && b)
              (affected AffectedBy.age info && g))
         = Math_round
             (Policy.running (IngredientInfo.baseScore info)
                (affected AffectedBy.allergies info && a)
                (affected AffectedBy.diabetes info && d)
                (affected AffectedBy.bloodPressure info && b)
                (affected AffectedBy.age info && g)))
    (map snd INGREDIENT_DATABASE).
Proof.
  simpl.
  repeat (apply Forall_cons;
          [intros a d b g; destruct a, d, b, g; vm_compute; reflexivity|]).
  apply Forall_nil.
Qed.

(** Hence the final score of the Knowledge-Base path is the rounded
    running score of section 4.4. *)
Lemma scoreIngredient_unfold ingredientName userProfile info :
  findIngredient ingredientName = Some info ->
  let signals := Signals.of_database info ingredientName userProfile in
  scoreIngredient ingredientName userProfile =
  IngredientScore.mk
    (IngredientInfo.name info) (IngredientInfo.canonicalForm info)
    (IngredientInfo.category info) (IngredientInfo.baselineRisk info)
    (IngredientInfo.baseScore info)
    (Signals.recorded signals)
    (Math_round (Signals.running (IngredientInfo.baseScore info) signals))
    (generateComment info (Signals.recorded signals) (Signals.allergy signals))
    (Signals.allergy signals).
Proof.
  intros found. rewrite (scoreIngredient_steps _ userProfile _ found).
  cbv zeta. f_equal.
  unfold Signals.running_double, Signals.running, Signals.of_database.
  cbn [Signals.allergy Signals.diabetes Signals.bp Signals.age].
  destruct (findIngredient_cases _ _ found) as [Hin | ->].
  - exact (proj1 (Forall_forall _ _) database_running_double _ Hin _ _ _ _).
  - reflexivity.
Qed.

Lemma scoreIngredientWithAI_unfold aiData userProfile :
  let signals := Signals.of_classifier aiData userProfile in
  scoreIngredientWithAI aiData userProfile =
  IngredientScore.mk
    (AIAnalyzedIngredient.name aiData)
    (underscore_spaces (toLowerCase (AIAnalyzedIngredient.name aiData)))
    (AIAnalyzedIngredient.category aiData) (AIAnalyzedIngredient.riskLevel aiData)
    (AIAnalyzedIngredient.baseScore aiData)
    (Signals.recorded signals)
    (Z.min
       (Math_round
          (Signals.running_double (AIAnalyzedIngredient.baseScore aiData) signals))
       10)
    (generateCommentFromAI aiData (Signals.recorded signals) (Signals.allergy signals))
    (Signals.allergy signals).
Proof.
  unfold scoreIngredientWithAI, Signals.of_classifier.
  destruct (AIAnalyzedIngredient.isAllergen aiData),
           (UserProfile.has_diabetes userProfile),
           (AIAnalyzedIngredient.diabetesRisk aiData),
           (AIAnalyzedIngredient.bpRisk aiData),
           (truthy_and _ _),
           (overAge userProfile),
           (existsb _ _); reflexivity.
Qed.

(** *** Arithmetic of the policy *)

Lemma running_nonneg base a d b g :
  0 <= base -> 0 <= Policy.running base a d b g.
Proof.
  intros H. unfold Policy.running. destruct a, d, b, g; lra.
Qed.

Lemma running_mono base a d b g a' d' b' g' :
  0 <= base ->
  Policy.flag_le a a' -> Policy.flag_le d d' ->
  Policy.flag_le b b' -> Policy.flag_le g g' ->
  Policy.running base a d b g <= Policy.running base a' d' b' g'.
Proof.
  unfold Policy.flag_le, Policy.running. intros H Ha Hd Hb Hg.
  destruct a; [rewrite (Ha eq_refl)|];
  (destruct d; [rewrite (Hd eq_refl)|]);
  (destruct b; [rewrite (Hb eq_refl)|]);
  (destruct g; [rewrite (Hg eq_refl)|]);
  destruct a', d', b', g'; lra.
Qed.

Lemma running_double_nonneg base a d b g :
  0 <= base -> 0 <= Policy.running_double base a d b g.
Proof.
  intros H. unfold Policy.running_double.
  assert (H0 : 0 <= (if a then JsNumber.add base 10 else base)).
  { destruct a; [|exact H]. apply double_nonneg. lra. }
  set (s0 := if a then JsNumber.add base 10 else base) in *.
  assert (H1 : 0 <= (if d then JsNumber.mul s0 (double 1.5) else s0)).
  { destruct d; [|exact H0]. apply mul_nonneg; [exact H0|]. vm_compute. discriminate. }
  set (s1 := if d then JsNumber.mul s0 (double 1.5) else s0) in *.
  assert (H2 : 0 <= (if b then JsNumber.mul s1 (double 1.3) else s1)).
  { destruct b; [|exact H1]. apply mul_nonneg; [exact H1|]. vm_compute. discriminate. }
  set (s2 := if b then JsNumber.mul s1 (double 1.3) else s1) in *.
  destruct g; [|exact H2]. apply mul_nonneg; [exact H2|]. vm_compute. discriminate.
Qed.

(** One multiplicative step, applied or not. *)
Lemma step_mono (on on' : bool) c s s' :
  1 + (1 # 20) <= c -> 0 <= s -> s <= s' -> Policy.flag_le on on' ->
  (if on then JsNumber.mul s c else s) <= (if on' then JsNumber.mul s' c else s').
Proof.
  unfold Policy.flag_le. intros Hc Hs Hss Hon.
  destruct on.
  - rewrite (Hon eq_refl). apply mul_mono; [lra | exact Hss].
  - destruct on'; [|exact Hss].
    apply Qle_trans with s'; [exact Hss | apply mul_ge; lra].
Qed.

Lemma step_nonneg (on : bool) c s :
  1 + (1 # 20) <= c -> 0 <= s -> 0 <= (if on then JsNumber.mul s c else s).
Proof.
  intros Hc Hs. destruct on; [|exact Hs]. apply mul_nonneg; lra.
Qed.

(** With the allergy signal unchanged, switching other signals on does
    not lower the running score on doubles. *)
Lemma running_double_mono base a d b g d' b' g' :
  0 <= base ->
  Policy.flag_le d d' -> Policy.flag_le b b' -> Policy.flag_le g g' ->
  Policy.running_double base a d b g <= Policy.running_double base a d' b' g'.
Proof.
  intros H Hd Hb Hg. unfold Policy.running_double.
  destruct double_literals as (_ & _ & _ & _ & H15 & H13 & H11).
  assert (H0 : 0 <= (if a then JsNumber.add base 10 else base)).
  { destruct a; [|exact H]. apply double_nonneg. lra. }
  set (s0 := if a then JsNumber.add base 10 else base) in *.
  apply step_mono; [exact H11 | | | exact Hg].
  - apply step_nonneg; [exact H13|]. now apply step_nonneg.
  - apply step_mono; [exact H13 | | | exact Hb].
    + now apply step_nonneg.
    + apply step_mono; [exact H15 | exact H0 | apply Qle_refl | exact Hd].
Qed.

Lemma running_double_allergy_ge base d b g :
  0 <= base -> 10 <= Policy.running_double base true d b g.
Proof.
  intros H. unfold Policy.running_double.
  destruct double_literals as (_ & _ & _ & _ & H15 & H13 & H11).
  pose proof (add_10_ge base H) as H0.
  set (s0 := JsNumber.add base 10) in *.
  assert (H1 : 10 <= (if d then JsNumber.mul s0 (double 1.5) else s0))
    by (destruct d; [now apply mul_ge_10 | exact H0]).
  set (s1 := if d then JsNumber.mul s0 (double 1.5) else s0) in *.
  assert (H2 : 10 <= (if b then JsNumber.mul s1 (double 1.3) else s1))
    by (destruct b; [now apply mul_ge_10 | exact H1]).
  set (s2 := if b then JsNumber.mul s1 (double 1.3) else s1) in *.
  destruct g; [now apply mul_ge_10 | exact H2].
Qed.

Lemma Math_round_mono x y : x <= y -> (Math_round x <= Math_round y)%Z.
Proof.
  intros H. unfold Math_round. apply Qfloor_resp_le. lra.
Qed.

Lemma Math_round_nonneg x : 0 <= x -> (0 <= Math_round x)%Z.
Proof.
  intros H. change 0%Z with (Qfloor 0). unfold Math_round.
  apply Qfloor_resp_le. lra.
Qed.

(** *** The arithmetic against IEEE 754 *)

(** The running score of the Classifier path, from every base score
    between -30 and 30 that is a multiple of 1/2 and under every
    combination of signals, is the same number on IEEE 754 values and in
    the embedding. *)
Lemma binary64_running_grid :
  forallb Binary64.running_agrees (Binary64.range (-60) 121) = true.
Proof. vm_compute. reflexivity. Qed.

(** So is the normalised average of every total from 0 to 15 times the
    count, for every count from 1 to 12. *)
Lemma binary64_normalised_grid :
  forallb
    (fun count =>
       forallb (fun total => Binary64.normalised_agrees total count)
         (Binary64.range 0 (Z.to_nat (15 * count + 1))))
    (Binary64.range 1 12) = true.
Proof. vm_compute. reflexivity. Qed.

(** Two places where the rounding of doubles shows.  A base score of -25
    times the age factor is just below -27.5 and rounds to -28, where the
    exact product -27.5 would round to -27; and a total of 81 over 20
    ingredients normalises to just below 13.5 and rounds to 13, where the
    exact value 13.5 would round to 14. *)
Example rounding_shows :
  Math_round (Policy.running_double (-25) false false false true) = (-28)%Z
  /\ Math_round (Policy.running (-25) false false false true) = (-27)%Z
  /\ Binary64.Math_round
       (Binary64.running (Binary64.of_Z (-25)) false false false true) = (-28)%Z
  /\ normalise (avgScore 81 20) = 13%Z
  /\ Z.min (Math_round (81 / 20 / 30 * 100)) 100 = 14%Z
  /\ Z.min (Binary64.Math_round (Binary64.normalised 81 20)) 100 = 13%Z.
Proof. repeat split; vm_compute; reflexivity. Qed.

(** *** The Knowledge-Base path on IEEE 754 values *)

Lemma database_baseScore_values :
  Forall (fun info => In (IngredientInfo.baseScore info) (map inject_Z [0; 5; 10]%Z))
    (map snd INGREDIENT_DATABASE).
Proof.
  simpl. repeat (apply Forall_cons; [simpl; auto 6|]). apply Forall_nil.
Qed.

Lemma binary64_running_exact_round :
  Forall
    (fun base =>
       forall a d b g,
         Binary64.is_finite (Binary64.running (Binary64.of_Z base) a d b g) = true
         /\ Binary64.Math_round (Binary64.running (Binary64.of_Z base) a d b g)
            = Math_round (Policy.running (inject_Z base) a d b g))
    [0; 5; 10]%Z.
Proof.
  repeat apply Forall_cons; try apply Forall_nil;
    intros a d b g; destruct a, d, b, g; split; vm_compute; reflexivity.
Qed.

(** Computed on IEEE 754 values, the final score of [scoreIngredient] is
    the one of the embedding. *)
Lemma scoreIngredient_binary64 ingredientName userProfile info :
  findIngredient ingredientName = Some info ->
  exists base : Z,
    IngredientInfo.baseScore info = inject_Z base
    /\ let s := Signals.of_database info ingredientName userProfile in
       IngredientScore.finalScore (scoreIngredient ingredientName userProfile)
       = Binary64.Math_round
           (Binary64.running (Binary64.of_Z base)
              (Signals.allergy s) (Signals.diabetes s) (Signals.bp s) (Signals.age s)).
Proof.
  intros found.
  assert (Hbase : In (IngredientInfo.baseScore info) (map inject_Z [0; 5; 10]%Z)).
  { destruct (findIngredient_cases _ _ found) as [Hin | ->].
    - exact (proj1 (Forall_forall _ _) database_baseScore_values _ Hin).
    - simpl. auto. }
  apply in_map_iff in Hbase. destruct Hbase as (base & Hb & Hin).
  exists base. split; [now symmetry|].
  rewrite (scoreIngredient_unfold _ userProfile _ found). simpl.
  rewrite <- Hb. unfold Signals.running. symmetry.
  apply (proj1 (Forall_forall _ _) binary64_running_exact_round base Hin).
Qed.

(** *** Final scores are never negative *)

Lemma scoreIngredient_final_nonneg ingredientName userProfile :
  (0 <= IngredientScore.finalScore (scoreIngredient ingredientName userProfile))%Z.
Proof.
  destruct (findIngredient_total ingredientName) as [info H].
  rewrite (scoreIngredient_unfold _ userProfile _ H). simpl.
  apply Math_round_nonneg, running_nonneg.
  eapply findIngredient_baseScore_nonneg; eauto.
Qed.

Lemma scoreIngredientWithAI_final_nonneg aiData userProfile :
  0 <= AIAnalyzedIngredient.baseScore aiData ->
  (0 <= IngredientScore.finalScore (scoreIngredientWithAI aiData userProfile))%Z.
Proof.
  intros H. rewrite scoreIngredientWithAI_unfold.
  cbn [IngredientScore.finalScore].
  apply Z.min_glb; [|lia]. now apply Math_round_nonneg, running_double_nonneg.
Qed.

(** *** The product aggregate *)

Lemma map_indexed_length {A B : Type} (f : A -> nat -> B) xs index :
  List.length (map_indexed f xs index) = List.length xs.
Proof.
  revert index. induction xs as [|x rest IH]; intros index; simpl; auto.
Qed.

Lemma map_indexed_Forall {A B : Type} (P : B -> Prop) (f : A -> nat -> B) xs :
  (forall x i, P (f x i)) -> forall index, Forall P (map_indexed f xs index).
Proof.
  intros H. induction xs as [|x rest IH]; intros index; simpl; constructor; auto.
Qed.

Lemma totalScore_sum scores :
  totalScore scores = fold_right Z.add 0%Z (map IngredientScore.finalScore scores).
Proof.
  unfold totalScore.
  enough (forall acc,
            fold_left (fun sum ing => (sum + IngredientScore.finalScore ing)%Z) scores acc
            = (acc + fold_right Z.add 0 (map IngredientScore.finalScore scores))%Z)
    as H by (rewrite H; lia).
  induction scores as [|s rest IH]; intros acc; simpl; [lia|].
  rewrite IH. lia.
Qed.

Lemma sum_nonneg (xs : list Z) :
  Forall (fun x => (0 <= x)%Z) xs -> (0 <= fold_right Z.add 0 xs)%Z.
Proof.
  induction 1; simpl; lia.
Qed.

Lemma avgScore_nonneg total count : (0 <= total)%Z -> 0 <= avgScore total count.
Proof.
  intros H. unfold avgScore. destruct (0 <? count)%nat; [|discriminate].
  apply double_nonneg. unfold Qdiv. apply Qmult_le_0_compat.
  - change 0 with (inject_Z 0). now rewrite <- Zle_Qle.
  - apply Qinv_le_0_compat. change 0 with (inject_Z 0). rewrite <- Zle_Qle. lia.
Qed.

Lemma normalise_bounds avg : 0 <= avg -> (0 <= normalise avg <= 100)%Z.
Proof.
  intros H. unfold normalise. split; [|apply Z.le_min_r].
  apply Z.min_glb; [|lia]. apply Math_round_nonneg.
  apply mul_nonneg; [|discriminate]. apply double_nonneg.
  unfold Qdiv. apply Qmult_le_0_compat; [assumption|discriminate].
Qed.

Lemma verdict_of_Good x : verdict_of x = Good <-> (x <= 30)%Z.
Proof.
  unfold verdict_of.
  destruct (Z.leb_spec x 30); [tauto|].
  destruct (Z.leb_spec x 60); split; (discriminate || lia).
Qed.

Lemma verdict_of_Moderate x : verdict_of x = Moderate <-> (31 <= x <= 60)%Z.
Proof.
  unfold verdict_of.
  destruct (Z.leb_spec x 30); [split; (discriminate || lia)|].
  destruct (Z.leb_spec x 60); split; (discriminate || lia || reflexivity).
Qed.

Lemma verdict_of_Bad x : verdict_of x = Bad <-> (x > 60)%Z.
Proof.
  unfold verdict_of.
  destruct (Z.leb_spec x 30); [split; (discriminate || lia)|].
  destruct (Z.leb_spec x 60); split; (discriminate || lia || reflexivity).
Qed.

Lemma scoreProduct_produced productName ingredients userProfile aiAnalysis now :
  Forall (Policy.produced userProfile)
    (ProductScore.ingredientScores
       (scoreProduct productName ingredients userProfile aiAnalysis now)).
Proof.
  simpl. apply map_indexed_Forall. intros ing i.
  destruct (nth_error aiAnalysis i); constructor.
Qed.

Lemma produced_final_nonneg userProfile s :
  Policy.produced userProfile s ->
  0 <= IngredientScore.baseScore s -> (0 <= IngredientScore.finalScore s)%Z.
Proof.
  intros [ing | aiData] H.
  - apply scoreIngredient_final_nonneg.
  - apply scoreIngredientWithAI_final_nonneg.
    now rewrite scoreIngredientWithAI_unfold in H.
Qed.

(** *** The scores of a product, by position *)

Lemma map_indexed_shift {A B C : Type} (g : A -> option C -> B) xs :
  forall (cs : list C) k,
    map_indexed (fun x i => g x (nth_error cs i)) xs k
    = map_indexed (fun x i => g x (nth_error (skipn k cs) i)) xs 0.
Proof.
  induction xs as [|x rest IH]; intros cs k; cbn [map_indexed]; [reflexivity|].
  rewrite nth_error_skipn, Nat.add_0_r. f_equal.
  rewrite (IH cs (S k)), (IH (skipn k cs) 1%nat), skipn_skipn. reflexivity.
Qed.

Lemma map_indexed_zip {A B C : Type} (g : A -> option C -> B) :
  forall xs (cs : list C),
    map_indexed (fun x i => g x (nth_error cs i)) xs 0
    = map (fun xc => g (fst xc) (Some (snd xc))) (combine xs cs)
      ++ map (fun x => g x None) (skipn (List.length cs) xs).
Proof.
  induction xs as [|x rest IH]; intros cs; cbn [map_indexed].
  - now rewrite skipn_nil.
  - destruct cs as [|c cs']; cbn [nth_error combine map app List.length skipn].
    + f_equal. rewrite map_indexed_shift. cbn [skipn].
      rewrite (IH []), combine_nil. reflexivity.
    + f_equal. rewrite map_indexed_shift. cbn [skipn]. apply IH.
Qed.

Lemma scoreProduct_scores :
  forall productName ingredients userProfile aiAnalysis now,
    ProductScore.ingredientScores
      (scoreProduct productName ingredients userProfile aiAnalysis now)
    = map (fun aiData => scoreIngredientWithAI aiData userProfile)
        (firstn (List.length ingredients) aiAnalysis)
      ++ map (fun ing => scoreIngredient ing userProfile)
           (skipn (List.length aiAnalysis) ingredients).
Proof.
  intros productName ingredients userProfile aiAnalysis now.
  cbn [scoreProduct ProductScore.ingredientScores].
  change (map_indexed _ ingredients 0)
    with (map_indexed
            (fun ing i =>
               (fun ing o =>
                  match o with
                  | Some aiData => scoreIngredientWithAI aiData userProfile
                  | None => scoreIngredient ing userProfile
                  end) ing (nth_error aiAnalysis i)) ingredients 0).
  rewrite map_indexed_zip. f_equal.
  clear. revert aiAnalysis.
  induction ingredients as [|ing rest IH]; intros [|a ai]; simpl; try reflexivity.
  now rewrite IH.
Qed.

Lemma In_firstn {A : Type} (x : A) n l : In x (firstn n l) -> In x l.
Proof.
  intros H. rewrite <- (firstn_skipn n l). apply in_or_app. now left.
Qed.

Lemma database_baseScore_range :
  Forall (fun info => 0 <= IngredientInfo.baseScore info <= 10)
    (map snd INGREDIENT_DATABASE).
Proof.
  simpl. repeat (apply Forall_cons; [simpl; split; discriminate|]). apply Forall_nil.
Qed.

Lemma scoreIngredient_baseScore_range ingredientName userProfile :
  0 <= IngredientScore.baseScore (scoreIngredient ingredientName userProfile) <= 10.
Proof.
  destruct (findIngredient_total ingredientName) as [info found].
  rewrite (scoreIngredient_unfold _ userProfile _ found).
  cbn [IngredientScore.baseScore].
  destruct (findIngredient_cases _ _ found) as [Hin | ->].
  - exact (proj1 (Forall_forall _ _) database_baseScore_range _ Hin).
  - simpl. split; discriminate.
Qed.

Lemma scoreProduct_value productName ingredients userProfile aiAnalysis now :
  let r := scoreProduct productName ingredients userProfile aiAnalysis now in
  ProductScore.productScore r
  = normalise
      (avgScore
         (fold_right Z.add 0%Z
            (map IngredientScore.finalScore (ProductScore.ingredientScores r)))
         (List.length ingredients))
  /\ ProductScore.verdict r = verdict_of (ProductScore.productScore r).
Proof.
  split; [|reflexivity]. simpl. now rewrite totalScore_sum.
Qed.

(** C1. For a non-empty ingredient list whose per-ingredient base scores
    lie in 0-10 (the classifier replies that are used have such a base
    score, and the names looked up mention no inherited member of the
    database object), [scoreProduct] scores the ingredients by position,
    every base score it reports lies in 0-10, and the product score is
    the average of the final per-ingredient scores, divided by 30, times
    100, in the arithmetic of doubles, rounded and capped at 100; it lies
    in [0, 100]; and the verdict is Good exactly when it is at most 30,
    Moderate exactly when it is in 31-60, Bad exactly when it is above
    60. *)
Theorem C1_aggregation_bounds :
  forall productName ingredients userProfile aiAnalysis now,
    let r := scoreProduct productName ingredients userProfile aiAnalysis now in
    let replies := firstn (List.length ingredients) aiAnalysis in
    let looked_up := skipn (List.length aiAnalysis) ingredients in
    let scores :=
      map (fun aiData => scoreIngredientWithAI aiData userProfile) replies
      ++ map (fun ing => scoreIngredient ing userProfile) looked_up in
    let finals := map IngredientScore.finalScore scores in
    ingredients <> [] ->
    Forall (fun aiData => 0 <= AIAnalyzedIngredient.baseScore aiData <= 10) replies ->
    Forall (fun ing => own_lookup ing = true) looked_up ->
    ProductScore.ingredientScores r = scores
    /\ Forall (fun s => 0 <= IngredientScore.baseScore s <= 10) scores
    /\ ProductScore.productScore r
       = Z.min
           (Math_round (JsNumber.mul (JsNumber.div (Policy.average finals) 30) 100))
           100
    /\ (0 <= ProductScore.productScore r <= 100)%Z
    /\ (ProductScore.verdict r = Good <-> (ProductScore.productScore r <= 30)%Z)
    /\ (ProductScore.verdict r = Moderate
        <-> (31 <= ProductScore.productScore r <= 60)%Z)
    /\ (ProductScore.verdict r = Bad <-> (ProductScore.productScore r > 60)%Z).
Proof.
  intros productName ingredients userProfile aiAnalysis now r replies looked_up
    scores finals Hne Hbase Hown.
  assert (Hscores : ProductScore.ingredientScores r = scores)
    by apply scoreProduct_scores.
  assert (Hlen : List.length finals = List.length ingredients).
  { subst finals. rewrite length_map, <- Hscores. subst r. simpl.
    apply map_indexed_length. }
  assert (Hrange : Forall (fun s => 0 <= IngredientScore.baseScore s <= 10) scores).
  { subst scores. apply Forall_app. split; apply Forall_map.
    - rewrite Forall_forall in *. intros aiData Hin.
      rewrite scoreIngredientWithAI_unfold. cbn [IngredientScore.baseScore]. auto.
    - apply Forall_forall. intros ing _. apply scoreIngredient_baseScore_range. }
  assert (Hnonneg : Forall (fun x => (0 <= x)%Z) finals).
  { subst finals scores. apply Forall_map, Forall_app. split; apply Forall_map.
    - rewrite Forall_forall in *. intros aiData Hin.
      apply scoreIngredientWithAI_final_nonneg. now apply Hbase.
    - apply Forall_forall. intros ing _. apply scoreIngredient_final_nonneg. }
  destruct (scoreProduct_value productName ingredients userProfile aiAnalysis now)
    as [Hvalue Hverdict].
  fold r in Hvalue, Hverdict. rewrite Hscores in Hvalue. fold finals in Hvalue.
  split; [exact Hscores|]. split; [exact Hrange|].
  split; [|split; [|split; [|split]]].
  - rewrite Hvalue. unfold normalise, avgScore, Policy.average.
    destruct ingredients as [|i rest]; [congruence|].
    rewrite Hlen. reflexivity.
  - rewrite Hvalue. apply normalise_bounds, avgScore_nonneg, sum_nonneg, Hnonneg.
  - rewrite Hverdict. apply verdict_of_Good.
  - rewrite Hverdict. apply verdict_of_Moderate.
  - rewrite Hverdict. apply verdict_of_Bad.
Qed.

Lemma C1_aggregation_bounds_witness :
  let ingredients := ["salt"; "sugar"; "water"] in
  let r := scoreProduct "Snack" ingredients Examples.scenario1 [Examples.ai_salt]
             "2025-01-01T00:00:00.000Z" in
  ingredients <> []
  /\ Forall (fun aiData => 0 <= AIAnalyzedIngredient.baseScore aiData <= 10)
       (firstn (List.length ingredients) [Examples.ai_salt])
  /\ Forall (fun ing => own_lookup ing = true)
       (skipn (List.length [Examples.ai_salt]) ingredients)
  /\ map IngredientScore.finalScore (ProductScore.ingredientScores r) = [7; 8; 0]%Z
  /\ ProductScore.productScore r = 17%Z
  /\ (0 <= ProductScore.productScore r <= 100)%Z.
Proof.
  intros ingredients r.
  assert (Hne : ingredients <> []) by discriminate.
  assert (Hbase : Forall (fun aiData => 0 <= AIAnalyzedIngredient.baseScore aiData <= 10)
                    (firstn (List.length ingredients) [Examples.ai_salt]))
    by (repeat constructor; vm_compute; discriminate).
  assert (Hown : Forall (fun ing => own_lookup ing = true)
                   (skipn (List.length [Examples.ai_salt]) ingredients))
    by (repeat constructor).
  split; [exact Hne|]. split; [exact Hbase|]. split; [exact Hown|].
  split; [vm_compute; reflexivity|]. split; [vm_compute; reflexivity|].
  exact (proj1 (proj2 (proj2 (proj2
           (C1_aggregation_bounds "Snack" ingredients Examples.scenario1
              [Examples.ai_salt] "2025-01-01T00:00:00.000Z" Hne Hbase Hown))))).
Defined.

(* ------------------------------------------------------------------ *)

Lemma map_indexed_no_classifier (userProfile : UserProfile.t) ingredients :
  forall index,
    map_indexed
      (fun ing i =>
         match nth_error (@nil AIAnalyzedIngredient.t) i with
         | Some aiData => scoreIngredientWithAI aiData userProfile
         | None => scoreIngredient ing userProfile
         end) ingredients index
    = map (fun ing => scoreIngredient ing userProfile) ingredients.
Proof.
  induction ingredients as [|ing rest IH]; intros index; simpl; [reflexivity|].
  rewrite IH. now destruct index.
Qed.

(** C2. When the classifier adapter returns the empty list, each element
    of [ingredientScores] is the result of scoring the ingredient at the
    same position through the Knowledge-Base path, [scoreIngredient]. *)
Theorem C2_fallback_correctness :
  forall productName ingredients userProfile now,
    ProductScore.ingredientScores
      (scoreProduct productName ingredients userProfile [] now)
    = map (fun ing => scoreIngredient ing userProfile) ingredients.
Proof.
  intros. simpl. apply map_indexed_no_classifier.
Qed.

(* ------------------------------------------------------------------ *)

(** C3. The Knowledge-Base path applies the allergy penalty +10, then the
    diabetes factor 1.5, then the blood-pressure factor 1.3, then the age
    factor 1.1, each only when the [affectedBy] flag and the profile
    condition hold, records them in that order, and rounds.  With the
    profile of scenario 1 and no classifier reply, sugar scores 8, salt 7
    and water 0. *)
Theorem C3_fixed_order :
  (forall ingredientName userProfile info,
      findIngredient ingredientName = Some info ->
      let s := scoreIngredient ingredientName userProfile in
      let allergy :=
        affected AffectedBy.allergies info && hasAllergy ingredientName userProfile in
      let diabetes :=
        affected AffectedBy.diabetes info && UserProfile.has_diabetes userProfile in
      let bp := affected AffectedBy.bloodPressure info && hasHighBP userProfile in
      let age := affected AffectedBy.age info && overAge userProfile in
      IngredientScore.finalScore s
        = Math_round
            (Policy.running (IngredientInfo.baseScore info) allergy diabetes bp age)
      /\ IngredientScore.multipliers s = Policy.recorded allergy diabetes bp age)
  /\ (forall productName now,
        map IngredientScore.finalScore
          (ProductScore.ingredientScores
             (scoreProduct productName ["sugar"; "salt"; "water"]
                Examples.scenario1 [] now))
        = [8; 7; 0]%Z).
Proof.
  split.
  - intros ingredientName userProfile info found s allergy diabetes bp age.
    subst s. rewrite (scoreIngredient_unfold _ userProfile _ found).
    split; reflexivity.
  - intros productName now. reflexivity.
Qed.

Lemma C3_fixed_order_witness :
  findIngredient "Sodium Benzoate" = Some
    (IngredientInfo.mk "Sodium Benzoate" "sodium_benzoate" "preservative" MODERATE 5
       ["Preservative"; "Sodium content"] bloodPressure_and_age)
  /\ IngredientScore.finalScore (scoreIngredient "Sodium Benzoate" Examples.scenario1)
     = Math_round (Policy.running 5 false false true true)
  /\ IngredientScore.multipliers (scoreIngredient "Sodium Benzoate" Examples.scenario1)
     = Policy.recorded false false true true.
Proof.
  split; [reflexivity|].
  exact (proj1 C3_fixed_order "Sodium Benzoate" Examples.scenario1 _ eq_refl).
Defined.

(* ------------------------------------------------------------------ *)
(** *** Blood pressure *)

Lemma truthy_above (c v : Q) : 0 < c -> c <= v -> truthy v = true.
Proof.
  intros Hc Hv. unfold truthy. destruct (Qeq_bool v 0) eqn:E; [|reflexivity].
  apply Qeq_bool_iff in E. lra.
Qed.

Lemma truthy_and_geb (x : option Q) (c : Q) :
  0 < c ->
  truthy_and x (fun v => geb v c) = true <-> exists v, x = Some v /\ c <= v.
Proof.
  intros Hc. unfold truthy_and, geb. destruct x as [v|].
  - rewrite andb_true_iff, Qle_bool_iff. split.
    + intros [_ H]. eauto.
    + intros [w [[= <-] H]]. split; [eapply truthy_above; eauto | assumption].
  - split; [discriminate | intros [w [[=] _]]].
Qed.

(** The Knowledge-Base path tests the condition of section 4.4. *)
Lemma hasHighBP_iff userProfile :
  hasHighBP userProfile = true <-> Policy.high_blood_pressure userProfile.
Proof.
  unfold hasHighBP, Policy.high_blood_pressure.
  rewrite orb_true_iff, !truthy_and_geb by reflexivity. reflexivity.
Qed.

(** The blood-pressure factor on the Knowledge-Base path: applied exactly
    when the flag is set and the profile has high blood pressure. *)
Lemma scoreIngredient_bp ingredientName userProfile info :
  findIngredient ingredientName = Some info ->
  In (MultiplierInfo.mk "Sodium concern for blood pressure"
        MULTIPLIERS.BLOOD_PRESSURE_MULTIPLIER)
     (IngredientScore.multipliers (scoreIngredient ingredientName userProfile))
  <-> affected AffectedBy.bloodPressure info = true
      /\ Policy.high_blood_pressure userProfile.
Proof.
  intros found. rewrite (scoreIngredient_unfold _ userProfile _ found).
  rewrite <- hasHighBP_iff, <- andb_true_iff.
  unfold Signals.of_database, Signals.recorded, Policy.recorded; simpl.
  destruct (affected AffectedBy.allergies info && hasAllergy ingredientName userProfile),
           (affected AffectedBy.diabetes info && UserProfile.has_diabetes userProfile),
           (affected AffectedBy.bloodPressure info && hasHighBP userProfile),
           (affected AffectedBy.age info && overAge userProfile);
    simpl; split; intros H; try reflexivity; try discriminate;
    repeat (destruct H as [H | H]; try discriminate H); try contradiction;
    tauto.
Qed.

(** The blood-pressure factor on the Classifier path: applied exactly when
    [bpRisk] is set and the systolic reading is present and at least 130;
    the diastolic reading is not consulted. *)
Lemma scoreIngredientWithAI_bp aiData userProfile :
  In (MultiplierInfo.mk "Sodium concern for blood pressure"
        MULTIPLIERS.BLOOD_PRESSURE_MULTIPLIER)
     (IngredientScore.multipliers (scoreIngredientWithAI aiData userProfile))
  <-> AIAnalyzedIngredient.bpRisk aiData = true
      /\ exists v, UserProfile.blood_pressure_systolic userProfile = Some v /\ 130 <= v.
Proof.
  rewrite scoreIngredientWithAI_unfold.
  rewrite <- (truthy_and_geb _ 130) by reflexivity. rewrite <- andb_true_iff.
  unfold Signals.of_classifier, Signals.recorded, Policy.recorded; simpl.
  change HIGH_BP_SYSTOLIC with 130.
  destruct (AIAnalyzedIngredient.isAllergen aiData),
           (UserProfile.has_diabetes userProfile && AIAnalyzedIngredient.diabetesRisk aiData),
           (AIAnalyzedIngredient.bpRisk aiData && _),
           (overAge userProfile && _);
    simpl; split; intros H; try reflexivity; try discriminate;
    repeat (destruct H as [H | H]; try discriminate H); try contradiction;
    tauto.
Qed.

(** C4 (the code departs from the claim on the Classifier path).  A
    classifier-sourced ingredient with [bpRisk = true], scored against a
    profile without a systolic reading and with diastolic 90, gets no
    multiplier and keeps its base score 5, although the profile has high
    blood pressure by the shared policy; the Knowledge-Base path applies
    the factor 1.3 to salt for the same profile and yields 7. *)
Theorem C4_classifier_path_ignores_diastolic :
  Policy.high_blood_pressure Examples.diastolic_only
  /\ AIAnalyzedIngredient.bpRisk Examples.ai_salt = true
  /\ IngredientScore.multipliers
       (scoreIngredientWithAI Examples.ai_salt Examples.diastolic_only) = []
  /\ IngredientScore.finalScore
       (scoreIngredientWithAI Examples.ai_salt Examples.diastolic_only) = 5%Z
  /\ IngredientScore.multipliers (scoreIngredient "salt" Examples.diastolic_only)
     = [MultiplierInfo.mk "Sodium concern for blood pressure" 1.3]
  /\ IngredientScore.finalScore (scoreIngredient "salt" Examples.diastolic_only) = 7%Z.
Proof.
  split.
  - right. exists 90. split; [reflexivity | discriminate].
  - repeat split; reflexivity.
Qed.

(* ------------------------------------------------------------------ *)

(** C5. The final score of the Classifier path is at most 10 for every
    input, being the rounded running score capped at 10 (the running
    score is the one the code computes, on doubles; the equation is
    stated for base scores in the range where no double overflows); the
    final score of the Knowledge-Base path is the rounded running score
    with no cap, and it exceeds 10 for an allergy-flagged ingredient of
    base score 5 scored against a profile with a matching allergy. *)
Theorem C5_ceiling_asymmetry :
  (forall aiData userProfile,
      (IngredientScore.finalScore (scoreIngredientWithAI aiData userProfile) <= 10)%Z)
  /\ (forall aiData userProfile,
        finite_range (AIAnalyzedIngredient.baseScore aiData) ->
        IngredientScore.finalScore (scoreIngredientWithAI aiData userProfile)
        = Z.min
            (Math_round
               (Signals.running_double (AIAnalyzedIngredient.baseScore aiData)
                  (Signals.of_classifier aiData userProfile)))
            10)
  /\ (forall ingredientName userProfile info,
        findIngredient ingredientName = Some info ->
        IngredientScore.finalScore (scoreIngredient ingredientName userProfile)
        = Math_round
            (Signals.running (IngredientInfo.baseScore info)
               (Signals.of_database info ingredientName userProfile)))
  /\ (exists ingredientName userProfile info,
        findIngredient ingredientName = Some info
        /\ affected AffectedBy.allergies info = true
        /\ hasAllergy ingredientName userProfile = true
        /\ IngredientInfo.baseScore info = 5
        /\ (10 < IngredientScore.finalScore (scoreIngredient ingredientName userProfile))%Z).
Proof.
  split; [|split; [|split]].
  - intros aiData userProfile.
    rewrite scoreIngredientWithAI_unfold. cbn [IngredientScore.finalScore].
    apply Z.le_min_r.
  - intros aiData userProfile _.
    now rewrite scoreIngredientWithAI_unfold.
  - intros ingredientName userProfile info found.
    now rewrite (scoreIngredient_unfold _ userProfile _ found).
  - exists "artificial flavors", Examples.artificial_allergy.
    eexists. split; [reflexivity|]. repeat split.
Qed.

Lemma C5_ceiling_asymmetry_witness :
  finite_range (AIAnalyzedIngredient.baseScore Examples.ai_rebate)
  /\ Signals.running_double (AIAnalyzedIngredient.baseScore Examples.ai_rebate)
       (Signals.of_classifier Examples.ai_rebate Examples.scenario1)
     == - (7740561859543041 # 281474976710656)
  /\ IngredientScore.finalScore
       (scoreIngredientWithAI Examples.ai_rebate Examples.scenario1)
     = Z.min
         (Math_round
            (Signals.running_double (AIAnalyzedIngredient.baseScore Examples.ai_rebate)
               (Signals.of_classifier Examples.ai_rebate Examples.scenario1)))
         10
  /\ IngredientScore.finalScore
       (scoreIngredientWithAI Examples.ai_rebate Examples.scenario1) = (-28)%Z
  /\ findIngredient "artificial flavors" = Some
       (IngredientInfo.mk "Artificial Flavors" "artificial_flavors" "additive" MODERATE 5
          ["Synthetic additives"; "Unclear composition"] only_allergies)
  /\ IngredientScore.finalScore
       (scoreIngredient "artificial flavors" Examples.artificial_allergy)
     = Math_round (Policy.running 5 true false false false)
  /\ IngredientScore.finalScore
       (scoreIngredient "artificial flavors" Examples.artificial_allergy) = 15%Z.
Proof.
  assert (Hrange : finite_range
                     (AIAnalyzedIngredient.baseScore Examples.ai_rebate))
    by (split; vm_compute; discriminate).
  split; [exact Hrange|]. split; [vm_compute; reflexivity|].
  split; [exact (proj1 (proj2 C5_ceiling_asymmetry) Examples.ai_rebate
                   Examples.scenario1 Hrange)|].
  split; [vm_compute; reflexivity|].
  split; [reflexivity|]. split; [|reflexivity].
  exact (proj1 (proj2 (proj2 C5_ceiling_asymmetry)) "artificial flavors"
           Examples.artificial_allergy _ eq_refl).
Defined.

(* ------------------------------------------------------------------ *)

(** C6, refuted as stated: on the Choco Bar label the parser does not
    return the list with "or less of Salt"; the parenthetical token is
    removed whole. *)
Lemma C6_parse_example_counterexample :
  ~ (ParsedIngredients.productName (parseIngredients Examples.choco_bar) = "Choco Bar"
     /\ ParsedIngredients.ingredients (parseIngredients Examples.choco_bar)
        = ["Sugar"; "Milk"; "or less of Salt"; "Cocoa"]).
Proof.
  intros [_ H]. vm_compute in H. discriminate H.
Qed.

(** C6, amended. [parseIngredients] applied to
    "Choco Bar Ingredients: Sugar, Milk, (2% or less of Salt), Cocoa. Contains: Milk, Soy"
    returns productName "Choco Bar" and the ingredients list
    ["Sugar", "Milk", "Cocoa"]. *)
Theorem C6_parse_example :
  ParsedIngredients.productName (parseIngredients Examples.choco_bar) = "Choco Bar"
  /\ ParsedIngredients.ingredients (parseIngredients Examples.choco_bar)
     = ["Sugar"; "Milk"; "Cocoa"].
Proof.
  split; vm_compute; reflexivity.
Qed.

(* ------------------------------------------------------------------ *)

Lemma produced_allergen_comment userProfile s :
  Policy.produced userProfile s ->
  IngredientScore.isAllergen s = true ->
  IngredientScore.comment s = ALLERGEN_ALERT.
Proof.
  intros [ing | aiData].
  - destruct (findIngredient_total ing) as [info found].
    rewrite (scoreIngredient_unfold _ userProfile _ found). simpl.
    intros ->. reflexivity.
  - rewrite scoreIngredientWithAI_unfold. simpl. intros ->. reflexivity.
Qed.

(** C7. On either scoring path, and hence for every element of the
    [ingredientScores] of a product, an [IngredientScore] with
    [isAllergen = true] carries exactly the fixed allergen-alert comment,
    whatever other multipliers were applied. *)
Theorem C7_allergy_precedence :
  forall userProfile s,
    (exists ingredientName, s = scoreIngredient ingredientName userProfile)
    \/ (exists aiData, s = scoreIngredientWithAI aiData userProfile)
    \/ (exists productName ingredients aiAnalysis now,
          In s (ProductScore.ingredientScores
                  (scoreProduct productName ingredients userProfile aiAnalysis now))) ->
    IngredientScore.isAllergen s = true ->
    IngredientScore.comment s = ALLERGEN_ALERT.
Proof.
  intros userProfile s Hs. apply (produced_allergen_comment userProfile).
  destruct Hs as [[ing ->] | [[aiData ->] | (productName & ingredients & ai & now & Hin)]].
  - constructor.
  - constructor.
  - exact (proj1 (Forall_forall _ _)
             (scoreProduct_produced productName ingredients userProfile ai now) _ Hin).
Qed.

Lemma C7_allergy_precedence_witness :
  let s := scoreIngredientWithAI Examples.ai_everything Examples.everything in
  List.length (IngredientScore.multipliers s) = 4%nat
  /\ IngredientScore.isAllergen s = true
  /\ IngredientScore.comment s = ALLERGEN_ALERT.
Proof.
  intros s. split; [reflexivity|]. split; [reflexivity|].
  apply (C7_allergy_precedence Examples.everything s).
  - right. left. exists Examples.ai_everything. reflexivity.
  - reflexivity.
Defined.

(* ------------------------------------------------------------------ *)
(** *** Monotonicity in the profile *)

Lemma geb_above (c v : Q) : c <= v -> geb v c = true.
Proof. intros H. unfold geb. now apply Qle_bool_iff. Qed.

Lemma gtb_above (c v : Q) : c < v -> gtb v c = true.
Proof.
  intros H. unfold gtb. destruct (Qle_bool v c) eqn:E; [|reflexivity].
  apply Qle_bool_iff in E. lra.
Qed.

Lemma hasAllergy_insert ingredientName age before after allergy d m v sys dia :
  hasAllergy ingredientName (UserProfile.mk age (before ++ after) d m v sys dia) = true ->
  hasAllergy ingredientName (UserProfile.mk age (before ++ allergy :: after) d m v sys dia)
  = true.
Proof.
  unfold hasAllergy; simpl. rewrite !existsb_app. simpl.
  rewrite !orb_true_iff. tauto.
Qed.

(** Switching a signal on keeps every tested condition that held. *)
Lemma switch_on_signals info ingredientName p p' :
  Policy.switch_on p p' ->
  let s := Signals.of_database info ingredientName p in
  let s' := Signals.of_database info ingredientName p' in
  Policy.flag_le (Signals.allergy s) (Signals.allergy s')
  /\ Policy.flag_le (Signals.diabetes s) (Signals.diabetes s')
  /\ Policy.flag_le (Signals.bp s) (Signals.bp s')
  /\ Policy.flag_le (Signals.age s) (Signals.age s').
Proof.
  unfold Policy.flag_le.
  intros [age before after allergy d m v sys dia
         | age al d m v sys dia
         | age al d m v sys dia sys' Hsys
         | age al d m v sys dia dia' Hdia
         | age al d m v sys dia age' Hage]; simpl;
    rewrite !andb_true_iff; repeat split; try tauto.
  - apply hasAllergy_insert. tauto.
  - unfold hasHighBP, truthy_and; simpl.
    rewrite (truthy_above 130), geb_above by (assumption || reflexivity).
    reflexivity.
  - unfold hasHighBP, truthy_and; simpl.
    rewrite (truthy_above 80), geb_above by (assumption || reflexivity).
    apply orb_true_r.
  - unfold overAge, truthy_and; simpl.
    rewrite (truthy_above 65), gtb_above by (assumption || reflexivity || lra).
    reflexivity.
Qed.

(** C8. For every ingredient, switching on one personalization signal of
    the profile (adding an allergy, setting has_diabetes, raising a blood
    pressure reading to its threshold, raising age above 65), every other
    field being equal, never decreases the final score of
    [scoreIngredient]. *)
Theorem C8_score_monotonicity :
  forall ingredientName p p',
    Policy.switch_on p p' ->
    (IngredientScore.finalScore (scoreIngredient ingredientName p)
     <= IngredientScore.finalScore (scoreIngredient ingredientName p'))%Z.
Proof.
  intros ingredientName p p' H.
  destruct (findIngredient_total ingredientName) as [info found].
  rewrite (scoreIngredient_unfold _ p _ found), (scoreIngredient_unfold _ p' _ found).
  simpl.
  destruct (switch_on_signals info ingredientName p p' H) as (Ha & Hd & Hb & Hg).
  apply Math_round_mono, running_mono; try assumption.
  eapply findIngredient_baseScore_nonneg; eauto.
Qed.

Lemma C8_score_monotonicity_witness :
  let p := UserProfile.mk (Some 40) [] false None None (Some 120) None in
  let p' := UserProfile.mk (Some 40) [] false None None (Some 135) None in
  Policy.switch_on p p'
  /\ IngredientScore.finalScore (scoreIngredient "salt" p) = 5%Z
  /\ IngredientScore.finalScore (scoreIngredient "salt" p') = 7%Z
  /\ (IngredientScore.finalScore (scoreIngredient "salt" p)
      <= IngredientScore.finalScore (scoreIngredient "salt" p'))%Z.
Proof.
  intros p p'.
  assert (H : Policy.switch_on p p')
    by (apply Policy.raise_systolic; discriminate).
  split; [exact H|]. split; [reflexivity|]. split; [reflexivity|].
  exact (C8_score_monotonicity "salt" p p' H).
Defined.

(* ------------------------------------------------------------------ *)

(** C9. [findIngredient] applied to the empty string, or to any input
    that is empty after lowercasing and trimming, does not return the
    unknown-ingredient default: the empty string is a substring of the
    first key, so the first entry of the database, the sugar record
    (category sweetener, MODERATE, base score 5), is returned. *)
Theorem C9_empty_name_matches_first_entry :
  forall ingredientName,
    trim (toLowerCase ingredientName) = "" ->
    findIngredient ingredientName = option_map snd (hd_error INGREDIENT_DATABASE)
    /\ findIngredient ingredientName = Some
         (IngredientInfo.mk "Sugar" "sugar" "sweetener" MODERATE 5
            ["High glycemic index"; "Blood sugar spikes"] only_diabetes)
    /\ findIngredient ingredientName
       <> Some (unknown_ingredient ingredientName (trim (toLowerCase ingredientName))).
Proof.
  intros ingredientName H.
  assert (F : findIngredient ingredientName = Some
                (IngredientInfo.mk "Sugar" "sugar" "sweetener" MODERATE 5
                   ["High glycemic index"; "Blood sugar spikes"] only_diabetes)).
  { unfold findIngredient. rewrite H. reflexivity. }
  split; [exact F|]. split; [exact F|].
  rewrite F. unfold unknown_ingredient. intros E. discriminate E.
Qed.

Lemma C9_empty_name_matches_first_entry_witness :
  trim (toLowerCase "") = ""
  /\ trim (toLowerCase "   ") = ""
  /\ option_map IngredientInfo.name (findIngredient "") = Some "Sugar"
  /\ option_map IngredientInfo.name (findIngredient "   ") = Some "Sugar".
Proof.
  split; [reflexivity|]. split; [reflexivity|]. split.
  - rewrite (proj1 (proj2 (C9_empty_name_matches_first_entry "" eq_refl))).
    reflexivity.
  - rewrite (proj1 (proj2 (C9_empty_name_matches_first_entry "   " eq_refl))).
    reflexivity.
Defined.

(* ------------------------------------------------------------------ *)

(** C10. The [userProfile] of the result of [scoreProduct] holds the four
    fields age, has_diabetes, blood_pressure_systolic and
    blood_pressure_diastolic of the input and nothing else: allergies,
    diabetes_measure and diabetes_value are absent; so two runs on
    profiles that differ only in these fields, allergies in particular,
    return the same [userProfile]. *)
Theorem C10_redacted_profile :
  (forall productName ingredients userProfile aiAnalysis now,
      ProductScore.userProfile
        (scoreProduct productName ingredients userProfile aiAnalysis now)
      = PartialUserProfile.mk
          (UserProfile.age userProfile) None
          (Some (UserProfile.has_diabetes userProfile)) None None
          (UserProfile.blood_pressure_systolic userProfile)
          (UserProfile.blood_pressure_diastolic userProfile))
  /\ (forall productName1 productName2 ingredients1 ingredients2
             aiAnalysis1 aiAnalysis2 now1 now2
             age has_diabetes systolic diastolic
             allergies1 allergies2 measure1 measure2 value1 value2,
        ProductScore.userProfile
          (scoreProduct productName1 ingredients1
             (UserProfile.mk age allergies1 has_diabetes measure1 value1
                systolic diastolic)
             aiAnalysis1 now1)
        = ProductScore.userProfile
            (scoreProduct productName2 ingredients2
               (UserProfile.mk age allergies2 has_diabetes measure2 value2
                  systolic diastolic)
               aiAnalysis2 now2)).
Proof.
  split; intros; reflexivity.
Qed.

(* ================================================================== *)
(** * Further properties of the pipeline and of its callers *)

(* ================================================================== *)
(** ** Further properties of the product aggregate *)

(** X1. [scoreProduct] pairs ingredients with classifier replies by
    position: the ingredients that have a reply at their index are scored
    from that reply, whatever its name, and the remaining ones through
    the Knowledge Base; replies beyond the ingredient list are ignored. *)
Theorem scoreProduct_positional :
  forall productName ingredients userProfile aiAnalysis now,
    ProductScore.ingredientScores
      (scoreProduct productName ingredients userProfile aiAnalysis now)
    = map (fun aiData => scoreIngredientWithAI aiData userProfile)
        (firstn (List.length ingredients) aiAnalysis)
      ++ map (fun ing => scoreIngredient ing userProfile)
           (skipn (List.length aiAnalysis) ingredients).
Proof.
  intros. apply scoreProduct_scores.
Qed.

(** X2. For an empty ingredient list, whatever the profile and the
    classifier reply, [scoreProduct] returns no ingredient scores, product
    score 0, verdict Good and the two positive reasons. *)
Theorem scoreProduct_no_ingredients :
  forall productName userProfile aiAnalysis now,
    let r := scoreProduct productName [] userProfile aiAnalysis now in
    ProductScore.ingredientScores r = []
    /\ ProductScore.productScore r = 0%Z
    /\ ProductScore.verdict r = Good
    /\ ProductScore.topReasons r
       = ["0 low-risk ingredients with no personalized concerns";
          "No allergens or high-risk additives detected"].
Proof. intros. repeat split. Qed.

(* ------------------------------------------------------------------ *)
(** *** Bounds of the Knowledge-Base path *)

Ltac each_record tac :=
  simpl; repeat (apply Forall_cons; [tac|]); apply Forall_nil.

Lemma database_final_le_15 :
  Forall
    (fun info =>
       forall a d b g : bool,
         (Math_round
            (Policy.running (IngredientInfo.baseScore info)
               (affected AffectedBy.allergies info && a)
               (affected AffectedBy.diabetes info && d)
               (affected AffectedBy.bloodPressure info && b)
               (affected AffectedBy.age info && g)) <= 15)%Z)
    (map snd INGREDIENT_DATABASE).
Proof.
  each_record ltac:(intros a d b g; destruct a, d, b, g; vm_compute; discriminate).
Qed.

Lemma scoreIngredient_final_le_15 ingredientName userProfile :
  (IngredientScore.finalScore (scoreIngredient ingredientName userProfile) <= 15)%Z.
Proof.
  destruct (findIngredient_total ingredientName) as [info found].
  rewrite (scoreIngredient_unfold _ userProfile _ found).
  cbn [IngredientScore.finalScore].
  destruct (findIngredient_cases _ _ found) as [Hin | ->].
  - exact (proj1 (Forall_forall _ _) database_final_le_15 _ Hin _ _ _ _).
  - vm_compute. discriminate.
Qed.

Lemma sum_le (c : Z) (xs : list Z) :
  Forall (fun x => (x <= c)%Z) xs ->
  (fold_right Z.add 0 xs <= c * Z.of_nat (List.length xs))%Z.
Proof.
  induction 1; simpl List.length; simpl fold_right; [lia|].
  rewrite Nat2Z.inj_succ. lia.
Qed.

Lemma avgScore_le_15 (total : Z) count :
  (total <= 15 * Z.of_nat count)%Z -> avgScore total count <= 15.
Proof.
  intros H. unfold avgScore. destruct (0 <? count)%nat eqn:E; [|discriminate].
  apply Nat.ltb_lt in E.
  destruct double_literals as (_ & H15 & _). rewrite <- H15.
  apply double_mono. apply Qle_shift_div_r.
  - change 0 with (inject_Z 0). rewrite <- Zlt_Qlt. lia.
  - change 15 with (inject_Z 15). rewrite <- inject_Z_mult, <- Zle_Qle. exact H.
Qed.

Lemma normalise_le_50 avg : avg <= 15 -> (normalise avg <= 50)%Z.
Proof.
  intros H. unfold normalise.
  etransitivity; [apply Z.le_min_l|].
  change 50%Z with (Math_round 50).
  apply Math_round_mono.
  destruct double_literals as (_ & _ & H50 & Hhalf & _).
  rewrite <- H50. apply double_mono.
  assert (Hd : JsNumber.div avg 30 <= 1 # 2).
  { rewrite <- Hhalf. apply double_mono.
    apply Qle_shift_div_r; [reflexivity | lra]. }
  clear H50 Hhalf. lra.
Qed.

(** X3. With no classifier reply, and no ingredient whose name mentions
    an inherited member of the database object ("constructor",
    "__proto__"), the product score lies between 0 and 50 for every
    ingredient list and profile, so the verdict is never Bad. *)
Theorem scoreProduct_without_classifier_never_bad :
  forall productName ingredients userProfile now,
    Forall (fun ing => own_lookup ing = true) ingredients ->
    let r := scoreProduct productName ingredients userProfile [] now in
    (0 <= ProductScore.productScore r <= 50)%Z
    /\ ProductScore.verdict r <> Bad.
Proof.
  intros productName ingredients userProfile now _ r.
  assert (Hscores : ProductScore.ingredientScores r
                    = map (fun ing => scoreIngredient ing userProfile) ingredients).
  { subst r. simpl. apply map_indexed_no_classifier. }
  destruct (scoreProduct_value productName ingredients userProfile [] now)
    as [Hps Hv].
  fold r in Hps, Hv.
  assert (Hlen : List.length
                   (map IngredientScore.finalScore (ProductScore.ingredientScores r))
                 = List.length ingredients).
  { now rewrite Hscores, !length_map. }
  assert (Hbounds : (0 <= ProductScore.productScore r <= 50)%Z).
  { rewrite Hps. split.
    - apply normalise_bounds, avgScore_nonneg, sum_nonneg.
      rewrite Hscores, map_map. apply Forall_map, Forall_forall.
      intros ing _. apply scoreIngredient_final_nonneg.
    - apply normalise_le_50. apply avgScore_le_15.
      rewrite <- Hlen. apply sum_le.
      rewrite Hscores, map_map. apply Forall_map, Forall_forall.
      intros ing _. apply scoreIngredient_final_le_15. }
  split; [exact Hbounds|].
  rewrite Hv. intros Hbad. apply verdict_of_Bad in Hbad. lia.
Qed.

Lemma scoreProduct_without_classifier_never_bad_witness :
  let ingredients := ["Artificial Flavors"; "trans fat"; "salt"] in
  let p := UserProfile.mk (Some 70) ["artificial"] true None None (Some 150) None in
  let r := scoreProduct "Snack" ingredients p [] "2025-01-01T00:00:00.000Z" in
  Forall (fun ing => own_lookup ing = true) ingredients
  /\ map IngredientScore.finalScore (ProductScore.ingredientScores r) = [15; 11; 7]%Z
  /\ ProductScore.productScore r = 37%Z
  /\ (0 <= ProductScore.productScore r <= 50)%Z
  /\ ProductScore.verdict r <> Bad.
Proof.
  intros ingredients p r.
  assert (Hown : Forall (fun ing => own_lookup ing = true) ingredients)
    by (repeat constructor).
  split; [exact Hown|]. split; [vm_compute; reflexivity|].
  split; [vm_compute; reflexivity|].
  exact (scoreProduct_without_classifier_never_bad "Snack" ingredients p
           "2025-01-01T00:00:00.000Z" Hown).
Defined.

(* ------------------------------------------------------------------ *)
(** *** Allergens *)

Lemma running_allergy_ge base d b g :
  0 <= base -> 10 <= Policy.running base true d b g.
Proof.
  intros H. unfold Policy.running. destruct d, b, g; lra.
Qed.

(** X4. An ingredient reported as an allergen has a final score of at
    least 10 on the Knowledge-Base path, and of exactly 10 on the
    Classifier path when the reply's base score is not negative. *)
Theorem allergen_scores_at_least_ten :
  (forall ingredientName userProfile,
      IngredientScore.isAllergen (scoreIngredient ingredientName userProfile) = true ->
      (10 <= IngredientScore.finalScore (scoreIngredient ingredientName userProfile))%Z)
  /\ (forall aiData userProfile,
        IngredientScore.isAllergen (scoreIngredientWithAI aiData userProfile) = true ->
        0 <= AIAnalyzedIngredient.baseScore aiData ->
        IngredientScore.finalScore (scoreIngredientWithAI aiData userProfile) = 10%Z).
Proof.
  split.
  - intros ingredientName userProfile.
    destruct (findIngredient_total ingredientName) as [info found].
    rewrite (scoreIngredient_unfold _ userProfile _ found).
    cbn [IngredientScore.isAllergen IngredientScore.finalScore].
    intros Ha. unfold Signals.running. rewrite Ha.
    change 10%Z with (Math_round 10).
    apply Math_round_mono, running_allergy_ge.
    eapply findIngredient_baseScore_nonneg; eauto.
  - intros aiData userProfile. rewrite scoreIngredientWithAI_unfold.
    cbn [IngredientScore.isAllergen IngredientScore.finalScore].
    intros Ha Hbase. unfold Signals.running_double. rewrite Ha.
    apply Z.min_r. change 10%Z with (Math_round 10).
    now apply Math_round_mono, running_double_allergy_ge.
Qed.

(* ------------------------------------------------------------------ *)
(** *** The saved row and the colours of the results page *)

Lemma scoreProduct_final_nonneg productName ingredients userProfile aiAnalysis now :
  Forall (fun aiData => 0 <= AIAnalyzedIngredient.baseScore aiData) aiAnalysis ->
  Forall (fun s => (0 <= IngredientScore.finalScore s)%Z)
    (ProductScore.ingredientScores
       (scoreProduct productName ingredients userProfile aiAnalysis now)).
Proof.
  intros H. rewrite scoreProduct_scores. apply Forall_app. split.
  - apply Forall_map. rewrite Forall_forall in *. intros a Ha.
    apply scoreIngredientWithAI_final_nonneg, H.
    eapply In_firstn; eauto.
  - apply Forall_map, Forall_forall. intros ing _.
    apply scoreIngredient_final_nonneg.
Qed.

(** X5. The row [handleSaveScan] inserts meets the two CHECK constraints
    of table [scans] (product_score in 0..100, verdict one of the three
    names) whenever no classifier reply has a negative base score and no
    name that is looked up mentions an inherited member of the database
    object; a reply with a negative base score can break the first
    constraint. *)
Theorem saved_scan_meets_table_checks :
  (forall user productName ingredients userProfile aiAnalysis now,
      Forall (fun aiData => 0 <= AIAnalyzedIngredient.baseScore aiData) aiAnalysis ->
      Forall (fun ing => own_lookup ing = true)
        (skipn (List.length aiAnalysis) ingredients) ->
      Results.scans_check
        (Results.scan_row user
           (scoreProduct productName ingredients userProfile aiAnalysis now)) = true)
  /\ (exists user productName ingredients userProfile aiAnalysis now,
        Results.scans_check
          (Results.scan_row user
             (scoreProduct productName ingredients userProfile aiAnalysis now)) = false).
Proof.
  split.
  - intros user productName ingredients userProfile aiAnalysis now H _.
    destruct (scoreProduct_value productName ingredients userProfile
                aiAnalysis now) as [Hps Hv].
    unfold Results.scans_check, Results.scan_row.
    cbn [Results.product_score Results.verdict].
    rewrite !andb_true_iff, !Z.leb_le. split; [split|].
    + rewrite Hps. apply normalise_bounds, avgScore_nonneg, sum_nonneg.
      apply Forall_map. now apply scoreProduct_final_nonneg.
    + rewrite Hps. apply Z.le_min_r.
    + destruct (ProductScore.verdict _); reflexivity.
  - exists "u", "P", ["x"], (UserProfile.mk None [] false None None None None),
      [AIAnalyzedIngredient.mk "x" "unknown" LOW (-3) [] false false false], "t".
    vm_compute. reflexivity.
Qed.

(** X6. On the results page the colour of the score and the colour of
    the verdict badge always have the same tone (success, warning or
    danger); the fallback colour of [getVerdictColor] is never used. *)
Theorem score_colour_matches_verdict_colour :
  forall productName ingredients userProfile aiAnalysis now,
    let r := scoreProduct productName ingredients userProfile aiAnalysis now in
    exists tone,
      In tone ["success"; "warning"; "danger"]
      /\ Results.getVerdictColor (Results.Verdict_string (ProductScore.verdict r))
         = ("bg-" ++ tone ++ " text-white")%string
      /\ Results.getScoreColor (ProductScore.productScore r)
         = ("text-" ++ tone)%string.
Proof.
  intros productName ingredients userProfile aiAnalysis now r.
  assert (Hv : ProductScore.verdict r = verdict_of (ProductScore.productScore r))
    by reflexivity.
  rewrite Hv. unfold verdict_of, Results.getScoreColor.
  destruct (ProductScore.productScore r <=? 30)%Z;
    [exists "success" | destruct (ProductScore.productScore r <=? 60)%Z;
                        [exists "warning" | exists "danger"]];
    simpl; auto 6.
Qed.

Lemma allergen_scores_at_least_ten_witness :
  let p := UserProfile.mk None ["peanut"] true None None None None in
  IngredientScore.isAllergen (scoreIngredient "peanuts" p) = true
  /\ (10 <= IngredientScore.finalScore (scoreIngredient "peanuts" p))%Z.
Proof.
  intros p.
  assert (H : IngredientScore.isAllergen (scoreIngredient "peanuts" p) = true)
    by reflexivity.
  split; [exact H|].
  exact (proj1 allergen_scores_at_least_ten "peanuts" p H).
Defined.

Lemma saved_scan_meets_table_checks_witness :
  Forall (fun aiData => 0 <= AIAnalyzedIngredient.baseScore aiData) [Examples.ai_salt]
  /\ Forall (fun ing => own_lookup ing = true)
       (skipn (List.length [Examples.ai_salt]) ["salt"; "sugar"])
  /\ Results.scans_check
       (Results.scan_row "user-1"
          (scoreProduct "Snack" ["salt"; "sugar"] Examples.scenario1
             [Examples.ai_salt] "2025-01-01T00:00:00.000Z")) = true.
Proof.
  assert (H : Forall (fun aiData => 0 <= AIAnalyzedIngredient.baseScore aiData)
                [Examples.ai_salt])
    by (repeat constructor; vm_compute; discriminate).
  assert (Hown : Forall (fun ing => own_lookup ing = true)
                   (skipn (List.length [Examples.ai_salt]) ["salt"; "sugar"]))
    by (repeat constructor).
  split; [exact H|]. split; [exact Hown|].
  exact (proj1 saved_scan_meets_table_checks "user-1" "Snack" ["salt"; "sugar"]
           Examples.scenario1 [Examples.ai_salt] "2025-01-01T00:00:00.000Z" H Hown).
Defined.


(* ================================================================== *)
(** ** Strings *)

Lemma lower_ascii_idempotent c : lower_ascii (lower_ascii c) = lower_ascii c.
Proof.
  destruct c as [[] [] [] [] [] [] [] []]; reflexivity.
Qed.

Lemma toLowerCase_idempotent s : toLowerCase (toLowerCase s) = toLowerCase s.
Proof.
  induction s as [|c s IH]; simpl; [reflexivity|].
  now rewrite lower_ascii_idempotent, IH.
Qed.

Lemma prefix_refl s : prefix s s = true.
Proof.
  induction s as [|c s IH]; simpl; [reflexivity|].
  destruct (ascii_dec c c); [assumption | congruence].
Qed.

Lemma includes_empty s : includes s "" = true.
Proof. destruct s; reflexivity. Qed.

Lemma includes_refl s : includes s s = true.
Proof.
  destruct s as [|c s]; [reflexivity|].
  cbn [includes]. now rewrite prefix_refl.
Qed.

Lemma prefix_app_l a b s : prefix (a ++ b) s = true -> prefix a s = true.
Proof.
  revert s. induction a as [|c a IH]; intros s; [now destruct s|].
  destruct s as [|x s]; simpl; [discriminate|].
  destruct (ascii_dec c x); [apply IH | discriminate].
Qed.

Lemma includes_cons c s sub : includes s sub = true -> includes (String c s) sub = true.
Proof.
  intros H. cbn [includes]. rewrite H. apply orb_true_r.
Qed.

Lemma includes_app_l s a b : includes s (a ++ b) = true -> includes s a = true.
Proof.
  induction s as [|c s IH]; intros H; cbn [includes] in H;
    apply orb_true_iff in H; destruct H as [H | H]; try discriminate.
  - cbn [includes]. now rewrite (prefix_app_l _ _ _ H).
  - cbn [includes]. now rewrite (prefix_app_l _ _ _ H).
  - apply includes_cons, IH, H.
Qed.

Lemma prefix_app_includes a b s : prefix (a ++ b) s = true -> includes s b = true.
Proof.
  revert s. induction a as [|c a IH]; intros s.
  - simpl. intros H. destruct s; cbn [includes]; rewrite H; reflexivity.
  - destruct s as [|x s]; simpl; [discriminate|].
    destruct (ascii_dec c x); [|discriminate].
    intros H. apply includes_cons, IH, H.
Qed.

Lemma includes_app_r s a b : includes s (a ++ b) = true -> includes s b = true.
Proof.
  induction s as [|c s IH]; intros H; cbn [includes] in H;
    apply orb_true_iff in H; destruct H as [H | H]; try discriminate.
  - eapply prefix_app_includes; eauto.
  - eapply prefix_app_includes; eauto.
  - apply includes_cons, IH, H.
Qed.

(* ================================================================== *)
(** ** Further properties of the lookup *)

Lemma database_get_own :
  Forall (fun kv => get INGREDIENT_DATABASE (fst kv) = Some (snd kv))
    INGREDIENT_DATABASE.
Proof.
  unfold INGREDIENT_DATABASE at 2.
  repeat (apply Forall_cons; [vm_compute; reflexivity|]). apply Forall_nil.
Qed.

(** X7. Looking up a key of the database, in any letter case and with
    surrounding whitespace, returns the record stored under that key. *)
Theorem findIngredient_by_key :
  forall key value ingredientName,
    In (key, value) INGREDIENT_DATABASE ->
    trim (toLowerCase ingredientName) = key ->
    findIngredient ingredientName = Some value.
Proof.
  intros key value ingredientName Hin Hkey.
  pose proof (proj1 (Forall_forall _ _) database_get_own _ Hin) as Hget.
  cbn [fst snd] in Hget.
  unfold findIngredient. rewrite Hkey, Hget. reflexivity.
Qed.

Lemma findIngredient_by_key_witness :
  In ("palm oil",
      IngredientInfo.mk "Palm Oil" "palm_oil" "fat" MODERATE 5
        ["High in saturated fat"] only_age) INGREDIENT_DATABASE
  /\ trim (toLowerCase "  Palm OIL ") = "palm oil"
  /\ option_map IngredientInfo.canonicalForm (findIngredient "  Palm OIL ")
     = Some "palm_oil".
Proof.
  assert (Hin : In ("palm oil",
                    IngredientInfo.mk "Palm Oil" "palm_oil" "fat" MODERATE 5
                      ["High in saturated fat"] only_age) INGREDIENT_DATABASE)
    by (simpl; auto 20).
  split; [exact Hin|]. split; [reflexivity|].
  rewrite (findIngredient_by_key _ _ "  Palm OIL " Hin eq_refl). reflexivity.
Defined.

Lemma database_categories_known :
  Forall (fun info => IngredientInfo.category info <> "unknown")
    (map snd INGREDIENT_DATABASE).
Proof. each_record ltac:(simpl; discriminate). Qed.

(** X8. An ingredient the lookup resolves to the unknown record scores 0,
    has no multiplier, is not an allergen and gets the generally-safe
    comment for every profile, also when the profile lists it as an
    allergy. *)
Theorem unknown_ingredient_ignores_profile :
  forall ingredientName info userProfile,
    findIngredient ingredientName = Some info ->
    IngredientInfo.category info = "unknown" ->
    scoreIngredient ingredientName userProfile
    = IngredientScore.mk ingredientName
        (underscore_spaces (trim (toLowerCase ingredientName)))
        "unknown" LOW 0 [] 0%Z GENERALLY_SAFE false.
Proof.
  intros ingredientName info userProfile found Hcat.
  destruct (findIngredient_cases _ _ found) as [Hin | ->].
  - now destruct (proj1 (Forall_forall _ _) database_categories_known _ Hin).
  - unfold scoreIngredient. rewrite found. reflexivity.
Qed.

Lemma unknown_ingredient_ignores_profile_witness :
  let p := UserProfile.mk (Some 70) ["shrimp"] true None None (Some 150) (Some 95) in
  option_map IngredientInfo.category (findIngredient "shrimp") = Some "unknown"
  /\ hasAllergy "shrimp" p = true
  /\ IngredientScore.isAllergen (scoreIngredient "shrimp" p) = false
  /\ IngredientScore.finalScore (scoreIngredient "shrimp" p) = 0%Z.
Proof.
  intros p. split; [reflexivity|]. split; [reflexivity|].
  rewrite (unknown_ingredient_ignores_profile "shrimp" _ p eq_refl eq_refl).
  split; reflexivity.
Defined.

(** X9. Names that differ only in letter case are scored alike: every
    field of the two [IngredientScore]s other than [name] is equal. *)
Theorem scoreIngredient_case_insensitive :
  forall name1 name2 userProfile,
    toLowerCase name1 = toLowerCase name2 ->
    let s1 := scoreIngredient name1 userProfile in
    let s2 := scoreIngredient name2 userProfile in
    IngredientScore.canonicalForm s1 = IngredientScore.canonicalForm s2
    /\ IngredientScore.category s1 = IngredientScore.category s2
    /\ IngredientScore.baselineRisk s1 = IngredientScore.baselineRisk s2
    /\ IngredientScore.baseScore s1 = IngredientScore.baseScore s2
    /\ IngredientScore.multipliers s1 = IngredientScore.multipliers s2
    /\ IngredientScore.finalScore s1 = IngredientScore.finalScore s2
    /\ IngredientScore.comment s1 = IngredientScore.comment s2
    /\ IngredientScore.isAllergen s1 = IngredientScore.isAllergen s2.
Proof.
  intros name1 name2 userProfile H s1 s2. subst s1 s2.
  unfold scoreIngredient, findIngredient, hasAllergy. rewrite H.
  destruct (get INGREDIENT_DATABASE (trim (toLowerCase name2)));
    [repeat split|].
  destruct (partial_match INGREDIENT_DATABASE (trim (toLowerCase name2)));
    repeat split.
Qed.

Lemma scoreIngredient_case_insensitive_witness :
  toLowerCase "MILK" = toLowerCase "Milk"
  /\ IngredientScore.finalScore
       (scoreIngredient "MILK" (UserProfile.mk None ["milk"] false None None None None))
     = IngredientScore.finalScore
         (scoreIngredient "Milk" (UserProfile.mk None ["milk"] false None None None None)).
Proof.
  split; [reflexivity|].
  exact (proj1 (proj2 (proj2 (proj2 (proj2 (proj2
           (scoreIngredient_case_insensitive "MILK" "Milk"
              (UserProfile.mk None ["milk"] false None None None None) eq_refl))))))).
Defined.

(** *** Allergy matching *)

Lemma scoreIngredient_allergen ingredientName userProfile info :
  findIngredient ingredientName = Some info ->
  affected AffectedBy.allergies info = true ->
  hasAllergy ingredientName userProfile = true ->
  let s := scoreIngredient ingredientName userProfile in
  IngredientScore.isAllergen s = true
  /\ IngredientScore.comment s = ALLERGEN_ALERT
  /\ (10 <= IngredientScore.finalScore s)%Z.
Proof.
  intros found Hflag Hhas s. subst s.
  rewrite (scoreIngredient_unfold _ userProfile _ found).
  cbn [IngredientScore.isAllergen IngredientScore.comment IngredientScore.finalScore].
  unfold Signals.running, Signals.of_database.
  cbn [Signals.allergy Signals.diabetes Signals.bp Signals.age].
  rewrite Hflag, Hhas. cbn [andb generateComment].
  split; [reflexivity|]. split; [reflexivity|].
  change 10%Z with (Math_round 10).
  apply Math_round_mono.
  assert (Hb : 0 <= IngredientInfo.baseScore info)
    by (eapply findIngredient_baseScore_nonneg; eauto).
  unfold Policy.running.
  destruct (affected AffectedBy.diabetes info && _),
           (affected AffectedBy.bloodPressure info && _),
           (affected AffectedBy.age info && _); lra.
Qed.

(** X10. When the record found for an ingredient is allergy-sensitive and
    the profile lists an allergy equal to the name up to letter case, or
    an empty allergy string, the ingredient is reported as an allergen,
    with the alert comment and a final score of at least 10. *)
Theorem listed_allergy_is_reported :
  forall ingredientName userProfile info allergy,
    findIngredient ingredientName = Some info ->
    affected AffectedBy.allergies info = true ->
    In allergy (UserProfile.allergies userProfile) ->
    toLowerCase allergy = toLowerCase ingredientName \/ allergy = "" ->
    let s := scoreIngredient ingredientName userProfile in
    IngredientScore.isAllergen s = true
    /\ IngredientScore.comment s = ALLERGEN_ALERT
    /\ (10 <= IngredientScore.finalScore s)%Z.
Proof.
  intros ingredientName userProfile info allergy found Hflag Hin Hmatch.
  apply (scoreIngredient_allergen _ _ _ found Hflag).
  unfold hasAllergy. apply existsb_exists. exists allergy. split; [exact Hin|].
  destruct Hmatch as [-> | ->].
  - now rewrite includes_refl.
  - cbn [toLowerCase]. now rewrite includes_empty.
Qed.

Lemma listed_allergy_is_reported_witness :
  let p := UserProfile.mk None ["SOY"] false None None None None in
  findIngredient "Soy" = Some
    (IngredientInfo.mk "Soy" "soy" "legume" LOW 0 ["Common allergen"] only_allergies)
  /\ In "SOY" (UserProfile.allergies p)
  /\ IngredientScore.isAllergen (scoreIngredient "Soy" p) = true.
Proof.
  intros p. split; [reflexivity|]. split; [now left|].
  exact (proj1 (listed_allergy_is_reported "Soy" p _ "SOY" eq_refl eq_refl
                  (or_introl eq_refl) (or_introl eq_refl))).
Defined.

(** X11. [scoreIngredient] never returns the result of
    [createDefaultScore]: the lookup always answers, so the branch for a
    missing record is dead and its comment is never produced. *)
Theorem scoreIngredient_never_default :
  forall ingredientName userProfile,
    IngredientScore.comment (scoreIngredient ingredientName userProfile)
    <> IngredientScore.comment (createDefaultScore ingredientName)
    /\ scoreIngredient ingredientName userProfile <> createDefaultScore ingredientName.
Proof.
  intros ingredientName userProfile.
  assert (H : IngredientScore.comment (scoreIngredient ingredientName userProfile)
              <> IngredientScore.comment (createDefaultScore ingredientName)).
  { destruct (findIngredient_total ingredientName) as [info found].
    rewrite (scoreIngredient_unfold _ userProfile _ found).
    cbn [IngredientScore.comment createDefaultScore].
    destruct (Signals.of_database info ingredientName userProfile) as [a d b g].
    unfold generateComment, Signals.recorded, Policy.recorded.
    cbn [Signals.allergy Signals.diabetes Signals.bp Signals.age].
    destruct a; [discriminate|].
    destruct d, b, g; cbn [app]; try discriminate.
    destruct (RiskLevel_eqb _ _); discriminate. }
  split; [exact H|]. intros E. apply H. now rewrite E.
Qed.

(** *** Keys that contain an earlier key *)

Lemma get_key_In db key value :
  get db key = Some value -> In key (map fst db).
Proof.
  induction db as [|[k v] rest IH]; simpl; [discriminate|].
  destruct (String.eqb k key) eqn:E; [|right; auto].
  apply String.eqb_eq in E. now left.
Qed.

Lemma partial_match_stops entries1 key value entries2 normalized :
  includes normalized key || includes key normalized = true ->
  exists found,
    partial_match (entries1 ++ (key, value) :: entries2) normalized = Some found
    /\ In found (map snd (entries1 ++ [(key, value)])).
Proof.
  intros H. induction entries1 as [|[k v] rest IH]; simpl.
  - rewrite H. eauto.
  - destruct (includes normalized k || includes k normalized); [eauto|].
    destruct IH as (found & Hp & Hin). eauto.
Qed.

Lemma only_key_containing (longer : string) :
  Forall (fun k => includes k longer = true -> k = longer)
    (map fst INGREDIENT_DATABASE) ->
  forall normalized value,
    includes normalized longer = true -> normalized <> longer ->
    get INGREDIENT_DATABASE normalized = Some value -> False.
Proof.
  intros Hall normalized value Hinc Hne Hget.
  apply get_key_In in Hget.
  exact (Hne (proj1 (Forall_forall _ _) Hall _ Hget Hinc)).
Qed.

(** X12. A name that contains the key "sodium benzoate" without being
    equal to it is resolved to one of the four records that precede that
    key, never to the preservative record, so its age flag is unset; a
    name that contains "whole wheat" without being equal to it is resolved
    to one of the records up to "wheat", never to the whole-wheat record. *)
Theorem longer_key_is_shadowed :
  forall ingredientName,
    let normalized := trim (toLowerCase ingredientName) in
    (includes normalized "sodium benzoate" = true ->
     normalized <> "sodium benzoate" ->
     exists info,
       findIngredient ingredientName = Some info
       /\ In info (map snd (firstn 4 INGREDIENT_DATABASE))
       /\ IngredientInfo.category info <> "preservative"
       /\ affected AffectedBy.age info = false)
    /\ (includes normalized "whole wheat" = true ->
        normalized <> "whole wheat" ->
        exists info,
          findIngredient ingredientName = Some info
          /\ In info (map snd (firstn 14 INGREDIENT_DATABASE))
          /\ IngredientInfo.canonicalForm info <> "whole_wheat").
Proof.
  intros ingredientName normalized. split; intros Hinc Hne.
  - assert (Hshort : includes normalized "sodium" = true)
      by (apply (includes_app_l _ "sodium" " benzoate"); exact Hinc).
    unfold findIngredient. fold normalized.
    destruct (get INGREDIENT_DATABASE normalized) as [value|] eqn:Hget.
    { exfalso. eapply (only_key_containing "sodium benzoate"); eauto.
      each_record ltac:(vm_compute; intros H; try discriminate H; reflexivity). }
    change INGREDIENT_DATABASE
      with (firstn 3 INGREDIENT_DATABASE
              ++ ("sodium",
                  IngredientInfo.mk "Sodium" "sodium" "mineral" MODERATE 5
                    ["Blood pressure elevation"] only_bloodPressure)
              :: skipn 4 INGREDIENT_DATABASE) at 1.
    destruct (partial_match_stops (firstn 3 INGREDIENT_DATABASE) "sodium"
                (IngredientInfo.mk "Sodium" "sodium" "mineral" MODERATE 5
                   ["Blood pressure elevation"] only_bloodPressure)
                (skipn 4 INGREDIENT_DATABASE) normalized)
      as (found & Hp & Hin); [now rewrite Hshort|].
    rewrite Hp. exists found. split; [reflexivity|]. split; [exact Hin|].
    simpl in Hin.
    destruct Hin as [<- | [<- | [<- | [<- | []]]]]; split; (discriminate || reflexivity).
  - assert (Hshort : includes normalized "wheat" = true)
      by (apply (includes_app_r _ "whole " "wheat"); exact Hinc).
    unfold findIngredient. fold normalized.
    destruct (get INGREDIENT_DATABASE normalized) as [value|] eqn:Hget.
    { exfalso. eapply (only_key_containing "whole wheat"); eauto.
      each_record ltac:(vm_compute; intros H; try discriminate H; reflexivity). }
    change INGREDIENT_DATABASE
      with (firstn 13 INGREDIENT_DATABASE
              ++ ("wheat",
                  IngredientInfo.mk "Wheat" "wheat" "grain" LOW 0
                    ["Common allergen"; "Gluten content"] only_allergies)
              :: skipn 14 INGREDIENT_DATABASE) at 1.
    destruct (partial_match_stops (firstn 13 INGREDIENT_DATABASE) "wheat"
                (IngredientInfo.mk "Wheat" "wheat" "grain" LOW 0
                   ["Common allergen"; "Gluten content"] only_allergies)
                (skipn 14 INGREDIENT_DATABASE) normalized)
      as (found & Hp & Hin); [now rewrite Hshort|].
    rewrite Hp. exists found. split; [reflexivity|]. split; [exact Hin|].
    simpl in Hin.
    repeat (destruct Hin as [<- | Hin]; [discriminate|]). destruct Hin.
Qed.

Lemma longer_key_is_shadowed_witness :
  includes (trim (toLowerCase "Sodium Benzoate E211")) "sodium benzoate" = true
  /\ trim (toLowerCase "Sodium Benzoate E211") <> "sodium benzoate"
  /\ option_map IngredientInfo.category (findIngredient "Sodium Benzoate E211")
     = Some "mineral"
  /\ exists info,
       findIngredient "Sodium Benzoate E211" = Some info
       /\ In info (map snd (firstn 4 INGREDIENT_DATABASE))
       /\ IngredientInfo.category info <> "preservative"
       /\ affected AffectedBy.age info = false.
Proof.
  assert (H1 : includes (trim (toLowerCase "Sodium Benzoate E211")) "sodium benzoate"
               = true) by reflexivity.
  assert (H2 : trim (toLowerCase "Sodium Benzoate E211") <> "sodium benzoate")
    by discriminate.
  split; [exact H1|]. split; [exact H2|]. split; [reflexivity|].
  exact (proj1 (longer_key_is_shadowed "Sodium Benzoate E211") H1 H2).
Defined.

(* ================================================================== *)
(** ** Trimming *)

Lemma trimStart_length s : (String.length (trimStart s) <= String.length s)%nat.
Proof.
  induction s as [|c s IH]; simpl; [lia|].
  destruct (is_space c); simpl; lia.
Qed.

Lemma trimStart_fixed c s : trimStart (String c s) = String c s -> is_space c = false.
Proof.
  simpl. destruct (is_space c); [|reflexivity].
  intros H. pose proof (trimStart_length s) as Hl.
  rewrite H in Hl. simpl in Hl. lia.
Qed.

Lemma trimStart_idempotent s : trimStart (trimStart s) = trimStart s.
Proof.
  induction s as [|c s IH]; simpl; [reflexivity|].
  destruct (is_space c) eqn:E; [exact IH|].
  simpl. now rewrite E.
Qed.

Lemma trimEnd_idempotent s : trimEnd (trimEnd s) = trimEnd s.
Proof.
  induction s as [|c s IH]; [reflexivity|].
  cbn [trimEnd]. destruct (trimEnd s) as [|d t] eqn:E.
  - destruct (is_space c) eqn:Ec; [reflexivity|].
    cbn [trimEnd]. now rewrite Ec.
  - cbn [trimEnd] in *. now rewrite IH.
Qed.

Lemma trimStart_trimEnd s : trimStart s = s -> trimStart (trimEnd s) = trimEnd s.
Proof.
  destruct s as [|c s]; [reflexivity|].
  intros H. apply trimStart_fixed in H.
  cbn [trimEnd]. destruct (trimEnd s).
  - rewrite H. simpl. now rewrite H.
  - simpl. now rewrite H.
Qed.

Lemma trim_idempotent s : trim (trim s) = trim s.
Proof.
  unfold trim.
  rewrite (trimStart_trimEnd (trimStart s) (trimStart_idempotent s)).
  apply trimEnd_idempotent.
Qed.

Lemma nonblank_nonempty s : (0 <? String.length s)%nat = true <-> s <> "".
Proof.
  destruct s; simpl; split; intros H; try reflexivity; try discriminate; congruence.
Qed.

(* ================================================================== *)
(** ** The allergy list of the profile page *)

Lemma array_includes_In xs x : ProfilePage.array_includes xs x = true <-> In x xs.
Proof.
  unfold ProfilePage.array_includes. rewrite existsb_exists. split.
  - intros (y & Hin & E). apply String.eqb_eq in E. now subst.
  - intros Hin. exists x. split; [exact Hin | apply String.eqb_refl].
Qed.

Lemma NoDup_snoc {A : Type} (xs : list A) (x : A) :
  NoDup xs -> ~ In x xs -> NoDup (xs ++ [x]).
Proof.
  induction 1 as [|y ys Hy Hnd IH]; intros Hx; simpl.
  - constructor; [intros [] | constructor].
  - constructor.
    + rewrite in_app_iff. intros [H | [H | []]]; [auto | subst; apply Hx; now left].
    + apply IH. intros H. apply Hx. now right.
Qed.

Lemma filter_other_snoc (xs : list string) (x : string) :
  ~ In x xs -> filter (fun a => negb (String.eqb a x)) (xs ++ [x]) = xs.
Proof.
  induction xs as [|y ys IH]; intros Hx; simpl.
  - now rewrite String.eqb_refl.
  - destruct (String.eqb y x) eqn:E.
    + apply String.eqb_eq in E. subst. exfalso. apply Hx. now left.
    + simpl. f_equal. apply IH. intros H. apply Hx. now right.
Qed.

(** X13. The allergy list of the profile page starts, and stays under
    [addAllergy] and [removeAllergy], free of duplicates, of blank entries
    and of surrounding whitespace. *)
Theorem allergy_list_stays_tidy :
  ProfilePage.tidy (ProfilePage.allergies (ProfilePage.profile ProfilePage.init))
  /\ forall st,
       ProfilePage.tidy (ProfilePage.allergies (ProfilePage.profile st)) ->
       ProfilePage.tidy
         (ProfilePage.allergies (ProfilePage.profile (ProfilePage.addAllergy st)))
       /\ forall allergy,
            ProfilePage.tidy
              (ProfilePage.allergies
                 (ProfilePage.profile (ProfilePage.removeAllergy allergy st))).
Proof.
  split; [split; constructor|].
  intros st [Hnd Hall]. split.
  - unfold ProfilePage.addAllergy.
    destruct (0 <? String.length (trim (ProfilePage.allergyInput st)))%nat eqn:Hlen;
      [|now split].
    destruct (ProfilePage.array_includes _ _) eqn:Hinc; [now split|].
    cbn [andb negb ProfilePage.profile ProfilePage.with_allergies ProfilePage.allergies].
    split.
    + apply NoDup_snoc; [exact Hnd|].
      intros Hin. apply array_includes_In in Hin. congruence.
    + apply Forall_app. split; [exact Hall|].
      constructor; [|constructor]. split.
      * now apply nonblank_nonempty.
      * apply trim_idempotent.
  - intros allergy.
    cbn [ProfilePage.removeAllergy ProfilePage.profile ProfilePage.with_allergies
           ProfilePage.allergies].
    split.
    + now apply NoDup_filter.
    + rewrite Forall_forall in *. intros a Ha. apply filter_In in Ha.
      apply Hall, Ha.
Qed.

Lemma allergy_list_stays_tidy_witness :
  let st := ProfilePage.mk
              (ProfilePage.mkProfile (Some 40) ["milk"] false "" None None None true true)
              "  Soy " in
  ProfilePage.tidy (ProfilePage.allergies (ProfilePage.profile st))
  /\ ProfilePage.allergies (ProfilePage.profile (ProfilePage.addAllergy st))
     = ["milk"; "Soy"]
  /\ ProfilePage.tidy
       (ProfilePage.allergies (ProfilePage.profile (ProfilePage.addAllergy st))).
Proof.
  intros st.
  assert (H : ProfilePage.tidy (ProfilePage.allergies (ProfilePage.profile st))).
  { split.
    - constructor; [intros [] | constructor].
    - constructor; [split; [discriminate | reflexivity] | constructor]. }
  split; [exact H|]. split; [reflexivity|].
  exact (proj1 (proj2 allergy_list_stays_tidy st H)).
Defined.

(** X14. Adding an allergy that is not blank and not yet listed appends
    its trimmed text and clears the input; removing it again restores the
    profile. *)
Theorem add_then_remove_allergy :
  forall st,
    let allergy := trim (ProfilePage.allergyInput st) in
    allergy <> "" ->
    ~ In allergy (ProfilePage.allergies (ProfilePage.profile st)) ->
    ProfilePage.allergies (ProfilePage.profile (ProfilePage.addAllergy st))
    = ProfilePage.allergies (ProfilePage.profile st) ++ [allergy]
    /\ ProfilePage.allergyInput (ProfilePage.addAllergy st) = ""
    /\ ProfilePage.profile (ProfilePage.removeAllergy allergy (ProfilePage.addAllergy st))
       = ProfilePage.profile st.
Proof.
  intros st allergy Hne Hnew. subst allergy.
  unfold ProfilePage.addAllergy.
  rewrite (proj2 (nonblank_nonempty _) Hne).
  destruct (ProfilePage.array_includes _ _) eqn:Hinc;
    [apply array_includes_In in Hinc; contradiction|].
  cbn [andb negb]. split; [reflexivity|]. split; [reflexivity|].
  cbn [ProfilePage.removeAllergy ProfilePage.profile ProfilePage.with_allergies
         ProfilePage.allergies
         ProfilePage.age ProfilePage.has_diabetes ProfilePage.diabetes_measure
         ProfilePage.diabetes_value ProfilePage.blood_pressure_systolic
         ProfilePage.blood_pressure_diastolic ProfilePage.consent_image_storage
         ProfilePage.consent_medical_data].
  rewrite (filter_other_snoc _ _ Hnew).
  now destruct (ProfilePage.profile st).
Qed.

Lemma add_then_remove_allergy_witness :
  let st := ProfilePage.mk
              (ProfilePage.mkProfile None ["milk"] false "" None None None false false)
              " peanut " in
  trim (ProfilePage.allergyInput st) <> ""
  /\ ~ In (trim (ProfilePage.allergyInput st))
         (ProfilePage.allergies (ProfilePage.profile st))
  /\ ProfilePage.profile (ProfilePage.removeAllergy "peanut" (ProfilePage.addAllergy st))
     = ProfilePage.profile st.
Proof.
  intros st.
  assert (H1 : trim (ProfilePage.allergyInput st) <> "") by discriminate.
  assert (H2 : ~ In (trim (ProfilePage.allergyInput st))
                   (ProfilePage.allergies (ProfilePage.profile st)))
    by (intros [H | []]; discriminate H).
  split; [exact H1|]. split; [exact H2|].
  exact (proj2 (proj2 (add_then_remove_allergy st H1 H2))).
Defined.

(* ================================================================== *)
(** ** The ingredient editor *)

Lemma filter_indexed_past {A : Type} (xs : list A) :
  forall idx k,
    (idx < k)%nat ->
    IngredientEditor.filter_indexed (fun _ i => negb (i =? idx)%nat) xs k = xs.
Proof.
  induction xs as [|x rest IH]; intros idx k Hk; [reflexivity|].
  cbn [IngredientEditor.filter_indexed].
  replace (k =? idx)%nat with false by (symmetry; apply Nat.eqb_neq; lia).
  cbn [negb]. f_equal. apply IH. lia.
Qed.

Lemma filter_indexed_remove {A : Type} (xs : list A) :
  forall idx k,
    (k <= idx)%nat ->
    IngredientEditor.filter_indexed (fun _ i => negb (i =? idx)%nat) xs k
    = firstn (idx - k) xs ++ skipn (S (idx - k)) xs.
Proof.
  induction xs as [|x rest IH]; intros idx k Hk.
  - now rewrite firstn_nil, skipn_nil.
  - cbn [IngredientEditor.filter_indexed].
    destruct (k =? idx)%nat eqn:E.
    + apply Nat.eqb_eq in E. subst k. rewrite Nat.sub_diag.
      cbn [negb firstn skipn app]. apply filter_indexed_past. lia.
    + apply Nat.eqb_neq in E. cbn [negb].
      replace (idx - k)%nat with (S (idx - S k)) by lia.
      cbn [firstn skipn app]. f_equal. apply IH. lia.
Qed.

(** X15. [removeIngredient] drops exactly the entry at the given position
    and keeps every other entry, duplicates included, in order; a position
    past the end changes nothing. *)
Theorem removeIngredient_removes_one_position :
  forall idx st,
    IngredientEditor.ingredients (IngredientEditor.removeIngredient idx st)
    = firstn idx (IngredientEditor.ingredients st)
      ++ skipn (S idx) (IngredientEditor.ingredients st)
    /\ ((List.length (IngredientEditor.ingredients st) <= idx)%nat ->
        IngredientEditor.removeIngredient idx st = st)
    /\ ((idx < List.length (IngredientEditor.ingredients st))%nat ->
        S (List.length
             (IngredientEditor.ingredients (IngredientEditor.removeIngredient idx st)))
        = List.length (IngredientEditor.ingredients st)).
Proof.
  intros idx st.
  assert (H : IngredientEditor.ingredients (IngredientEditor.removeIngredient idx st)
              = firstn idx (IngredientEditor.ingredients st)
                ++ skipn (S idx) (IngredientEditor.ingredients st)).
  { cbn [IngredientEditor.removeIngredient IngredientEditor.ingredients].
    rewrite filter_indexed_remove by lia. now rewrite Nat.sub_0_r. }
  split; [exact H|]. split.
  - intros Hlen. destruct st as [l n i].
    unfold IngredientEditor.removeIngredient.
    cbn [IngredientEditor.ingredients IngredientEditor.productName
           IngredientEditor.newIngredient] in *.
    f_equal. rewrite filter_indexed_remove, Nat.sub_0_r by lia.
    rewrite firstn_all2, skipn_all2 by lia. apply app_nil_r.
  - intros Hlt. rewrite H, length_app, length_firstn, length_skipn. lia.
Qed.

Lemma removeIngredient_removes_one_position_witness :
  let st := IngredientEditor.init ["Sugar"; "Milk"; "Sugar"; "Cocoa"] "Choco Bar" in
  (2 < List.length (IngredientEditor.ingredients st))%nat
  /\ IngredientEditor.ingredients (IngredientEditor.removeIngredient 2 st)
     = ["Sugar"; "Milk"; "Cocoa"]
  /\ S (List.length
          (IngredientEditor.ingredients (IngredientEditor.removeIngredient 2 st)))
     = List.length (IngredientEditor.ingredients st).
Proof.
  intros st.
  assert (H : (2 < List.length (IngredientEditor.ingredients st))%nat)
    by (simpl; lia).
  split; [exact H|]. split; [reflexivity|].
  exact (proj2 (proj2 (removeIngredient_removes_one_position 2 st)) H).
Defined.

(** X16. An ingredient typed into the editor that is not blank is
    appended trimmed, clears the input and is passed on by [handleConfirm]
    as the last ingredient; blank input leaves the editor unchanged. *)
Theorem added_ingredient_is_confirmed :
  forall st,
    let typed := trim (IngredientEditor.newIngredient st) in
    (typed <> "" ->
     IngredientEditor.ingredients (IngredientEditor.addIngredient st)
     = IngredientEditor.ingredients st ++ [typed]
     /\ IngredientEditor.newIngredient (IngredientEditor.addIngredient st) = ""
     /\ fst (IngredientEditor.handleConfirm (IngredientEditor.addIngredient st))
        = fst (IngredientEditor.handleConfirm st) ++ [typed])
    /\ (typed = "" -> IngredientEditor.addIngredient st = st).
Proof.
  intros st typed. subst typed. unfold IngredientEditor.addIngredient. split.
  - intros Hne. rewrite (proj2 (nonblank_nonempty _) Hne).
    split; [reflexivity|]. split; [reflexivity|].
    cbn [IngredientEditor.handleConfirm IngredientEditor.ingredients fst].
    rewrite filter_app. f_equal. cbn [filter].
    rewrite trim_idempotent. now rewrite (proj2 (nonblank_nonempty _) Hne).
  - intros ->. reflexivity.
Qed.

Lemma added_ingredient_is_confirmed_witness :
  let st := IngredientEditor.mk ["Sugar"; "   "] "Choco Bar" "  Palm oil " in
  trim (IngredientEditor.newIngredient st) <> ""
  /\ fst (IngredientEditor.handleConfirm (IngredientEditor.addIngredient st))
     = ["Sugar"; "Palm oil"].
Proof.
  intros st.
  assert (H : trim (IngredientEditor.newIngredient st) <> "") by discriminate.
  split; [exact H|].
  rewrite (proj2 (proj2 (proj1 (added_ingredient_is_confirmed st) H))).
  reflexivity.
Defined.


(* ================================================================== *)
(** ** Top reasons *)

Lemma filter_nil_iff {A : Type} (f : A -> bool) (xs : list A) :
  filter f xs = [] <-> Forall (fun x => f x = false) xs.
Proof.
  induction xs as [|x rest IH]; simpl; [split; constructor|].
  destruct (f x) eqn:E; split; intros H.
  - discriminate.
  - inversion H; congruence.
  - constructor; [exact E | now apply IH].
  - inversion H; now apply IH.
Qed.

Lemma filter_head_In {A : Type} (f : A -> bool) (xs : list A) x rest :
  filter f xs = x :: rest -> In x xs /\ f x = true.
Proof.
  intros H. apply filter_In. rewrite H. now left.
Qed.

(** The length guard and the final [slice] never drop anything. *)
Lemma generateTopReasons_explicit scores verdict :
  let allergens := filter IngredientScore.isAllergen scores in
  let highRisk :=
    filter (fun ing => RiskLevel_eqb (IngredientScore.baselineRisk ing) HIGH) scores in
  let withMultipliers :=
    filter (fun ing => (0 <? List.length (IngredientScore.multipliers ing))%nat)
      scores in
  generateTopReasons scores verdict
  = match
      match allergens with
      | [] => []
      | _ :: _ =>
          [("Contains " ++ of_nat (List.length allergens)
              ++ " allergen(s) matching your profile")%string]
      end
      ++ match highRisk with
         | [] => []
         | _ :: _ =>
             [("Contains " ++ of_nat (List.length highRisk)
                 ++ " high-risk ingredient(s): "
                 ++ join ", " (map IngredientScore.name highRisk))%string]
         end
      ++ match withMultipliers with
         | [] => []
         | topConcern :: _ =>
             match IngredientScore.multipliers topConcern with
             | first :: _ => [MultiplierInfo.reason first]
             | [] => []
             end
         end
    with
    | [] =>
        if Verdict_eqb verdict Good
        then [(of_nat (List.length
                         (filter (fun ing =>
                                    RiskLevel_eqb (IngredientScore.baselineRisk ing) LOW)
                            scores))
                 ++ " low-risk ingredients with no personalized concerns")%string;
              "No allergens or high-risk additives detected"]
        else []
    | found => found
    end.
Proof.
  intros allergens highRisk withMultipliers.
  unfold generateTopReasons.
  fold allergens. fold highRisk. fold withMultipliers.
  destruct allergens as [|a A]; destruct highRisk as [|h H];
    destruct withMultipliers as [|m M];
    cbn [List.length Nat.ltb Nat.leb app andb Nat.eqb];
    try (destruct (IngredientScore.multipliers m) as [|first ms]);
    cbn [List.length Nat.ltb Nat.leb app andb Nat.eqb firstn];
    destruct verdict; reflexivity.
Qed.

(** X17. [generateTopReasons] returns at most three reasons; at least one
    when the verdict is Good; and none exactly when the verdict is not
    Good and no ingredient is an allergen, of HIGH baseline risk or
    carries a multiplier. *)
Theorem topReasons_count_and_emptiness :
  forall scores verdict,
    let reasons := generateTopReasons scores verdict in
    (List.length reasons <= 3)%nat
    /\ (verdict = Good -> reasons <> [])
    /\ (reasons = []
        <-> verdict <> Good
            /\ Forall (fun s => IngredientScore.isAllergen s = false
                                /\ IngredientScore.baselineRisk s <> HIGH
                                /\ IngredientScore.multipliers s = []) scores).
Proof.
  intros scores verdict reasons. subst reasons.
  rewrite generateTopReasons_explicit. cbv zeta.
  destruct (filter IngredientScore.isAllergen scores) as [|a A] eqn:EA;
  destruct (filter (fun ing => RiskLevel_eqb (IngredientScore.baselineRisk ing) HIGH)
              scores) as [|h H] eqn:EH;
  destruct (filter (fun ing => (0 <? List.length (IngredientScore.multipliers ing))%nat)
              scores) as [|m M] eqn:EM;
  try (destruct (filter_head_In _ _ _ _ EM) as [_ Hm];
       destruct (IngredientScore.multipliers m) as [|first ms] eqn:Em;
       [discriminate Hm|]);
  cbn [app].
  all: try (apply filter_head_In in EA; destruct EA as [HinA HA]).
  all: try (apply filter_head_In in EH; destruct EH as [HinH HH]).
  all: try (apply filter_head_In in EM; destruct EM as [HinM HM]).
  all: split; [destruct verdict; simpl; lia|].
  all: split; [intros ->; discriminate|].
  all: split; [try discriminate | intros [Hv Hall]; rewrite Forall_forall in Hall].
  - (* nothing found *)
    destruct verdict; try discriminate; intros _.
    + split; [discriminate|].
      rewrite filter_nil_iff in EA, EH, EM. rewrite Forall_forall in *.
      intros s Hs. repeat split.
      * now apply EA.
      * intros E. specialize (EH s Hs). cbv beta in EH. now rewrite E in EH.
      * specialize (EM s Hs). cbv beta in EM.
        now destruct (IngredientScore.multipliers s).
    + split; [discriminate|].
      rewrite filter_nil_iff in EA, EH, EM. rewrite Forall_forall in *.
      intros s Hs. repeat split.
      * now apply EA.
      * intros E. specialize (EH s Hs). cbv beta in EH. now rewrite E in EH.
      * specialize (EM s Hs). cbv beta in EM.
        now destruct (IngredientScore.multipliers s).
  - destruct verdict; [congruence | reflexivity | reflexivity].
  - exfalso. destruct (Hall m HinM) as (_ & _ & E). rewrite E in HM. discriminate.
  - exfalso. destruct (Hall h HinH) as (_ & E & _).
    destruct (IngredientScore.baselineRisk h); try discriminate; now apply E.
  - exfalso. destruct (Hall h HinH) as (_ & E & _).
    destruct (IngredientScore.baselineRisk h); try discriminate; now apply E.
  - exfalso. destruct (Hall a HinA) as (E & _). congruence.
  - exfalso. destruct (Hall a HinA) as (E & _). congruence.
  - exfalso. destruct (Hall a HinA) as (E & _). congruence.
  - exfalso. destruct (Hall a HinA) as (E & _). congruence.
Qed.

Lemma topReasons_count_and_emptiness_witness :
  Good = Good
  /\ generateTopReasons [] Good
     = ["0 low-risk ingredients with no personalized concerns";
        "No allergens or high-risk additives detected"]
  /\ generateTopReasons [] Good <> [].
Proof.
  split; [reflexivity|]. split; [reflexivity|].
  exact (proj1 (proj2 (topReasons_count_and_emptiness [] Good)) eq_refl).
Defined.

Lemma filter_nonempty {A : Type} (f : A -> bool) (xs : list A) x :
  In x xs -> f x = true -> exists y rest, filter f xs = y :: rest.
Proof.
  intros Hin Hf. destruct (filter f xs) as [|y rest] eqn:E; [|eauto].
  assert (H : In x (filter f xs)) by (apply filter_In; auto).
  rewrite E in H. destruct H.
Qed.

(** X18. When some ingredient is an allergen the first reason is the
    allergen count; when some ingredient has HIGH baseline risk the
    high-risk sentence is listed; when some ingredient carries a
    multiplier the first multiplier reason of the first such ingredient is
    listed.  The length guard and the final slice never drop them. *)
Theorem topReasons_list_every_kind :
  forall scores verdict,
    let reasons := generateTopReasons scores verdict in
    let allergens := filter IngredientScore.isAllergen scores in
    let highRisk :=
      filter (fun ing => RiskLevel_eqb (IngredientScore.baselineRisk ing) HIGH) scores in
    let withMultipliers :=
      filter (fun ing => (0 <? List.length (IngredientScore.multipliers ing))%nat)
        scores in
    (forall s, In s scores -> IngredientScore.isAllergen s = true ->
       hd_error reasons
       = Some ("Contains " ++ of_nat (List.length allergens)
                 ++ " allergen(s) matching your profile")%string)
    /\ (forall s, In s scores -> IngredientScore.baselineRisk s = HIGH ->
          In ("Contains " ++ of_nat (List.length highRisk)
                ++ " high-risk ingredient(s): "
                ++ join ", " (map IngredientScore.name highRisk))%string reasons)
    /\ (forall s, In s scores -> IngredientScore.multipliers s <> [] ->
          exists topConcern first,
            hd_error withMultipliers = Some topConcern
            /\ hd_error (IngredientScore.multipliers topConcern) = Some first
            /\ In (MultiplierInfo.reason first) reasons).
Proof.
  intros scores verdict reasons allergens highRisk withMultipliers.
  subst reasons. rewrite generateTopReasons_explicit. cbv zeta.
  fold allergens. fold highRisk. fold withMultipliers.
  split; [|split].
  - intros s Hin Hs.
    destruct (filter_nonempty IngredientScore.isAllergen scores s Hin Hs)
      as (a & A & E).
    fold allergens in E. rewrite E. reflexivity.
  - intros s Hin Hs.
    destruct (filter_nonempty
                (fun ing => RiskLevel_eqb (IngredientScore.baselineRisk ing) HIGH)
                scores s Hin) as (h & H & E); [now rewrite Hs|].
    fold highRisk in E. rewrite E.
    destruct allergens; cbn [app]; auto using in_eq, in_cons.
  - intros s Hin Hs.
    destruct (filter_nonempty
                (fun ing => (0 <? List.length (IngredientScore.multipliers ing))%nat)
                scores s Hin) as (m & M & E);
      [now destruct (IngredientScore.multipliers s)|].
    fold withMultipliers in E. rewrite E.
    destruct (filter_head_In _ _ _ _ E) as [_ Hm].
    destruct (IngredientScore.multipliers m) as [|first ms] eqn:Em; [discriminate Hm|].
    exists m, first. split; [reflexivity|]. split; [now rewrite Em|].
    destruct allergens, highRisk; cbn [app]; auto using in_eq, in_cons.
Qed.

Lemma topReasons_list_every_kind_witness :
  let p := UserProfile.mk None ["milk"] true None None None None in
  let scores := [scoreIngredient "corn syrup" p; scoreIngredient "milk" p] in
  In (scoreIngredient "milk" p) scores
  /\ IngredientScore.isAllergen (scoreIngredient "milk" p) = true
  /\ generateTopReasons scores Moderate
     = ["Contains 1 allergen(s) matching your profile";
        "Contains 1 high-risk ingredient(s): Corn Syrup";
        "High glycemic concern for diabetes"]
  /\ hd_error (generateTopReasons scores Moderate)
     = Some "Contains 1 allergen(s) matching your profile".
Proof.
  intros p scores.
  assert (H1 : In (scoreIngredient "milk" p) scores) by (right; now left).
  assert (H2 : IngredientScore.isAllergen (scoreIngredient "milk" p) = true)
    by reflexivity.
  split; [exact H1|]. split; [exact H2|]. split; [reflexivity|].
  exact (proj1 (topReasons_list_every_kind scores Moderate) _ H1 H2).
Defined.

(* ================================================================== *)
(** ** The severity badge against the baseline risk *)

Lemma database_severity :
  Forall
    (fun info =>
       forall a d b g : bool,
         let allergy := affected AffectedBy.allergies info && a in
         let final :=
           Math_round
             (Policy.running (IngredientInfo.baseScore info) allergy
                (affected AffectedBy.diabetes info && d)
                (affected AffectedBy.bloodPressure info && b)
                (affected AffectedBy.age info && g)) in
         let label :=
           IngredientCard.label (IngredientCard.getSeverityConfig allergy final) in
         (IngredientInfo.baselineRisk info = HIGH -> label = "HIGH RISK")
         /\ (IngredientInfo.baselineRisk info = LOW ->
             label = if allergy then "ALLERGEN" else "LOW RISK")
         /\ (IngredientInfo.baselineRisk info = MODERATE -> label <> "LOW RISK"))
    (map snd INGREDIENT_DATABASE).
Proof.
  each_record ltac:(intros a d b g; destruct a, d, b, g; vm_compute;
                    repeat split; intros; (discriminate || reflexivity)).
Qed.

(** X19. On the Knowledge-Base path the badge of the ingredient card
    follows the baseline risk: HIGH baseline gives the label HIGH RISK, LOW
    baseline gives LOW RISK unless the ingredient is an allergen, and
    MODERATE baseline never gives LOW RISK. *)
Theorem severity_follows_baseline :
  forall ingredientName userProfile,
    let s := scoreIngredient ingredientName userProfile in
    let label := IngredientCard.label (IngredientCard.severity s) in
    (IngredientScore.baselineRisk s = HIGH -> label = "HIGH RISK")
    /\ (IngredientScore.baselineRisk s = LOW ->
        label = if IngredientScore.isAllergen s then "ALLERGEN" else "LOW RISK")
    /\ (IngredientScore.baselineRisk s = MODERATE -> label <> "LOW RISK").
Proof.
  intros ingredientName userProfile s label. subst label s.
  destruct (findIngredient_total ingredientName) as [info found].
  rewrite (scoreIngredient_unfold _ userProfile _ found).
  unfold IngredientCard.severity.
  cbn [IngredientScore.baselineRisk IngredientScore.isAllergen
         IngredientScore.finalScore].
  destruct (findIngredient_cases _ _ found) as [Hin | ->].
  - exact (proj1 (Forall_forall _ _) database_severity _ Hin _ _ _ _).
  - vm_compute. repeat split; intros; (discriminate || reflexivity).
Qed.

Lemma severity_follows_baseline_witness :
  IngredientScore.baselineRisk (scoreIngredient "corn syrup" Examples.scenario1) = HIGH
  /\ IngredientScore.finalScore (scoreIngredient "corn syrup" Examples.scenario1) = 15%Z
  /\ IngredientCard.label
       (IngredientCard.severity (scoreIngredient "corn syrup" Examples.scenario1))
     = "HIGH RISK".
Proof.
  assert (H : IngredientScore.baselineRisk
                (scoreIngredient "corn syrup" Examples.scenario1) = HIGH)
    by reflexivity.
  split; [exact H|]. split; [reflexivity|].
  exact (proj1 (severity_follows_baseline "corn syrup" Examples.scenario1) H).
Defined.
Import Regex Matching.

(* ================================================================== *)
(** ** The matcher only moves forward *)


Lemma advance_refl c : advance c c.
Proof. now exists []. Qed.

Lemma advance_trans c1 c2 c3 : advance c1 c2 -> advance c2 c3 -> advance c1 c3.
Proof.
  intros (w1 & A1 & P1) (w2 & A2 & P2). exists (w1 ++ w2). split.
  - now rewrite A1, A2, app_assoc.
  - now rewrite P2, P1, rev_app_distr, app_assoc.
Qed.

Lemma lit_sound ci s :
  forall l r l' r',
    lit ci s l r = Some (l', r') ->
    exists w,
      r = w ++ r' /\ l' = rev w ++ l
      /\ Forall2 (fun a b => same_char ci a b = true) (list_ascii_of_string s) w.
Proof.
  induction s as [|c s IH]; intros l r l' r'; simpl.
  - intros [= <- <-]. exists []. repeat split. constructor.
  - destruct r as [|x r]; [discriminate|].
    destruct (same_char ci c x) eqn:E; [|discriminate].
    intros H. destruct (IH _ _ _ _ H) as (w & -> & -> & Hw).
    exists (x :: w). simpl. rewrite <- app_assoc. repeat split.
    now constructor.
Qed.

Lemma many_greedy_sound {A : Type} p (k : list ascii -> list ascii -> option A) :
  forall r lo l e,
    many_greedy p k lo l r = Some e ->
    exists w r',
      r = w ++ r' /\ Forall (fun c => p c = true) w /\ k (rev w ++ l) r' = Some e
      /\ (lo <= List.length w)%nat.
Proof.
  assert (Hstop : forall lo l r e,
             stop k lo l r = Some e -> k l r = Some e /\ (lo <= 0)%nat).
  { unfold stop. intros lo l r e. destruct (lo =? 0)%nat eqn:E; [|discriminate].
    apply Nat.eqb_eq in E. subst. auto. }
  induction r as [|x r IH]; intros lo l e; simpl.
  - intros H. destruct (Hstop _ _ _ _ H). exists [], []. repeat split; auto.
  - destruct (p x) eqn:E.
    + destruct (many_greedy p k (pred lo) (x :: l) r) as [e'|] eqn:Hrec.
      * intros [= ->]. destruct (IH _ _ _ Hrec) as (w & r' & -> & Hw & Hk & Hlen).
        exists (x :: w), r'. simpl. rewrite <- app_assoc.
        repeat split; auto. lia.
      * intros H. destruct (Hstop _ _ _ _ H). exists [], (x :: r).
        repeat split; auto.
    + intros H. destruct (Hstop _ _ _ _ H). exists [], (x :: r).
      repeat split; auto.
Qed.

Lemma many_lazy_sound {A : Type} p (k : list ascii -> list ascii -> option A) :
  forall r lo l e,
    many_lazy p k lo l r = Some e ->
    exists w r',
      r = w ++ r' /\ Forall (fun c => p c = true) w /\ k (rev w ++ l) r' = Some e
      /\ (lo <= List.length w)%nat.
Proof.
  assert (Hstop : forall lo l r e,
             stop k lo l r = Some e -> k l r = Some e /\ (lo <= 0)%nat).
  { unfold stop. intros lo l r e. destruct (lo =? 0)%nat eqn:E; [|discriminate].
    apply Nat.eqb_eq in E. subst. auto. }
  induction r as [|x r IH]; intros lo l e; simpl.
  - destruct (stop k lo l []) as [e'|] eqn:Hs; [|discriminate].
    intros [= ->]. destruct (Hstop _ _ _ _ Hs). exists [], []. repeat split; auto.
  - destruct (stop k lo l (x :: r)) as [e'|] eqn:Hs.
    + intros [= ->]. destruct (Hstop _ _ _ _ Hs). exists [], (x :: r).
      repeat split; auto.
    + destruct (p x) eqn:E; [|discriminate].
      intros H. destruct (IH _ _ _ H) as (w & r' & -> & Hw & Hk & Hlen).
      exists (x :: w), r'. simpl. rewrite <- app_assoc. repeat split; auto. lia.
Qed.

(** Whenever a match succeeds, the continuation was entered at a cursor
    further along the same subject. *)
Lemma exec_sound ci r :
  forall c k e,
    exec ci r c k = Some e -> exists c', advance c c' /\ k c' = Some e.
Proof.
  induction r as [p | s | r1 IH1 r2 IH2 | r1 IH1 r2 IH2 | greedy lo p | r1 IH1 | | ];
    intros c k e; simpl.
  - destruct (ahead c) as [|x r'] eqn:Ea; [discriminate|].
    destruct (p x); [|discriminate]. intros H.
    eexists. split; [|exact H]. exists [x]. simpl. now rewrite Ea.
  - destruct (lit ci s (passed c) (ahead c)) as [[l r']|] eqn:El; [|discriminate].
    intros H. destruct (lit_sound _ _ _ _ _ _ El) as (w & Hr & Hl & _).
    eexists. split; [|exact H]. exists w. simpl. now split.
  - intros H. destruct (IH1 _ _ _ H) as (c1 & A1 & H1).
    destruct (IH2 _ _ _ H1) as (c2 & A2 & H2).
    exists c2. split; [eapply advance_trans; eauto | exact H2].
  - destruct (exec ci r1 c k) as [e'|] eqn:E1.
    + intros [= ->]. eauto.
    + eauto.
  - intros H.
    assert (Hs : exists w r',
               ahead c = w ++ r' /\ Forall (fun x => p x = true) w
               /\ k (mkCursor (rev w ++ passed c) r' (group1 c)) = Some e
               /\ (lo <= List.length w)%nat).
    { destruct greedy;
        [apply many_greedy_sound in H | apply many_lazy_sound in H]; exact H. }
    destruct Hs as (w & r' & Ha & _ & Hk & _).
    eexists. split; [|exact Hk]. exists w. simpl. now split.
  - intros H. destruct (IH1 _ _ _ H) as (c1 & (w & Ha & Hp) & H1).
    eexists. split; [|exact H1]. exists w. simpl. now split.
  - destruct (passed c); [|discriminate]. intros H.
    exists c. split; [apply advance_refl | exact H].
  - destruct (ahead c); [|discriminate]. intros H.
    exists c. split; [apply advance_refl | exact H].
Qed.

Lemma match_at_sound ci r l rt e :
  match_at ci r l rt = Some e ->
  exists w, rt = w ++ ahead e /\ passed e = rev w ++ l.
Proof.
  unfold match_at. intros H.
  destruct (exec_sound _ _ _ _ _ H) as (c' & (w & Ha & Hp) & [= <-]).
  exists w. now split.
Qed.

Lemma search_sound ci r :
  forall rt l e,
    search ci r l rt = Some e ->
    exists pre suf, rt = pre ++ suf /\ match_at ci r (rev pre ++ l) suf = Some e.
Proof.
  induction rt as [|x rt IH]; intros l e; simpl.
  - destruct (match_at ci r l []) eqn:E; [|discriminate].
    intros [= ->]. now exists [], [].
  - destruct (match_at ci r l (x :: rt)) eqn:E.
    + intros [= ->]. now exists [], (x :: rt).
    + intros H. destruct (IH _ _ H) as (pre & suf & -> & Hm).
      exists (x :: pre), suf. simpl. rewrite <- app_assoc. now split.
Qed.

(* ================================================================== *)
(** ** The ingredient tokens *)

Lemma split_class_nonempty sep s : split_class sep s <> [].
Proof.
  destruct s as [|c s]; simpl; [discriminate|].
  destruct (sep c); [discriminate|]. destruct (split_class sep s); discriminate.
Qed.

Lemma split_class_app sep a c b :
  sep c = true ->
  split_class sep (a ++ String c b) = split_class sep a ++ split_class sep b.
Proof.
  intros Hc. induction a as [|x a IH]; simpl.
  - now rewrite Hc.
  - rewrite IH. destruct (sep x); [reflexivity|].
    pose proof (split_class_nonempty sep a) as Hne.
    destruct (split_class sep a); [congruence | reflexivity].
Qed.

(** X20. [parseIngredientList] treats the parts on either side of a comma
    or semicolon independently and keeps their order: the list for
    [a ++ sep ++ b] is the list for [a] followed by the list for [b], so
    duplicates are kept. *)
Theorem parseIngredientList_separator :
  forall a b sep,
    sep = ","%char \/ sep = ";"%char ->
    parseIngredientList (a ++ String sep b)
    = parseIngredientList a ++ parseIngredientList b.
Proof.
  intros a b sep Hsep. unfold parseIngredientList.
  rewrite split_class_app by (destruct Hsep as [-> | ->]; reflexivity).
  now rewrite map_app, filter_app, map_app, filter_app.
Qed.

Lemma parseIngredientList_separator_witness :
  (";"%char = ","%char \/ ";"%char = ";"%char)
  /\ parseIngredientList ("Sugar, Milk" ++ String ";" " Sugar (raw), E3")
     = ["Sugar"; "Milk"] ++ ["Sugar"].
Proof.
  split; [now right|].
  rewrite (parseIngredientList_separator "Sugar, Milk" " Sugar (raw), E3" ";"
             (or_intror eq_refl)).
  reflexivity.
Defined.

(** *** Characters that survive the cleaning *)

Lemma chars_length s : List.length (list_ascii_of_string s) = String.length s.
Proof. induction s; simpl; congruence. Qed.

Lemma replace_from_chars (P : ascii -> Prop) ci r rep :
  Forall P rep ->
  forall fuel l rt, Forall P rt -> Forall P (replace_from fuel ci r rep l rt).
Proof.
  intros Hrep. induction fuel as [|fuel IH]; intros l rt Hrt; simpl; [exact Hrt|].
  assert (Hcopy : Forall P match rt with
                           | [] => []
                           | x :: rt' => x :: replace_from fuel ci r rep (x :: l) rt'
                           end).
  { destruct rt as [|x rt']; [constructor|].
    inversion Hrt; subst. constructor; auto. }
  destruct (match_at ci r l rt) as [e|] eqn:E; [|exact Hcopy].
  destruct (match_at_sound _ _ _ _ _ E) as (w & Hw & _).
  destruct (List.length (passed e) =? List.length l)%nat.
  - apply Forall_app. now split.
  - apply Forall_app. split; [exact Hrep|]. apply IH.
    rewrite Hw in Hrt. apply Forall_app in Hrt. tauto.
Qed.

Lemma replace_all_chars (P : ascii -> Prop) ci r rep s :
  Forall P (list_ascii_of_string rep) ->
  Forall P (list_ascii_of_string s) ->
  Forall P (list_ascii_of_string (replace_all ci r rep s)).
Proof.
  intros Hrep Hs. unfold replace_all.
  rewrite list_ascii_of_string_of_list_ascii. now apply replace_from_chars.
Qed.

Lemma replace_from_class p fuel :
  forall l rt,
    (List.length rt < fuel)%nat ->
    replace_from fuel false (Chr p) [" "%char] l rt
    = map (fun c => if p c then " "%char else c) rt.
Proof.
  induction fuel as [|fuel IH]; intros l rt Hlen; [lia|].
  destruct rt as [|x rt']; [reflexivity|].
  cbn [replace_from match_at exec ahead passed group1 map].
  simpl in Hlen. destruct (p x).
  - cbn [passed ahead List.length].
    replace (S (List.length l) =? List.length l)%nat with false
      by (symmetry; apply Nat.eqb_neq; lia).
    cbn [app]. f_equal. apply IH. lia.
  - f_equal. apply IH. lia.
Qed.

Lemma trimStart_chars (P : ascii -> Prop) s :
  Forall P (list_ascii_of_string s) -> Forall P (list_ascii_of_string (trimStart s)).
Proof.
  induction s as [|c s IH]; simpl; [auto|].
  intros H. inversion H; subst. destruct (is_space c); [auto | exact H].
Qed.

Lemma trimEnd_chars (P : ascii -> Prop) s :
  Forall P (list_ascii_of_string s) -> Forall P (list_ascii_of_string (trimEnd s)).
Proof.
  induction s as [|c s IH]; [auto|].
  intros H. cbn [list_ascii_of_string] in H. inversion H; subst.
  cbn [trimEnd]. specialize (IH H3).
  destruct (trimEnd s).
  - destruct (is_space c); simpl; auto.
  - cbn [list_ascii_of_string] in *. now constructor.
Qed.

Lemma trim_chars (P : ascii -> Prop) s :
  Forall P (list_ascii_of_string s) -> Forall P (list_ascii_of_string (trim s)).
Proof.
  intros H. now apply trimEnd_chars, trimStart_chars.
Qed.

(** X21. Every ingredient returned by [parseIngredientList] is longer
    than two characters, is not a bare number, and consists only of
    letters, digits, underscore, whitespace and hyphen. *)
Theorem parsed_ingredients_are_clean :
  forall text ing,
    In ing (parseIngredientList text) ->
    (2 < String.length ing)%nat
    /\ test false re_digits ing = false
    /\ Forall (fun c => is_word c || is_space c || Ascii.eqb c "-" = true)
         (list_ascii_of_string ing).
Proof.
  intros text ing Hin. unfold parseIngredientList in Hin.
  apply filter_In in Hin. destruct Hin as [Hin Hkeep].
  apply andb_true_iff in Hkeep. destruct Hkeep as [Hlen Hdig].
  split; [now apply Nat.ltb_lt|]. split; [now apply negb_true_iff|].
  apply in_map_iff in Hin. destruct Hin as (raw & <- & _).
  apply replace_all_chars; [repeat constructor|].
  apply trim_chars. unfold replace_all at 1.
  rewrite list_ascii_of_string_of_list_ascii.
  unfold re_artifact. rewrite replace_from_class by (rewrite chars_length; lia).
  apply Forall_map, Forall_forall. intros c _.
  destruct (is_word c || is_space c || Ascii.eqb c "-") eqn:E; simpl; [exact E | reflexivity].
Qed.

Lemma parsed_ingredients_are_clean_witness :
  In "Sea-Salt" (parseIngredientList "Oats (rolled), Sea-Salt!!; 12")
  /\ (2 < String.length "Sea-Salt")%nat
  /\ test false re_digits "Sea-Salt" = false.
Proof.
  assert (H : In "Sea-Salt" (parseIngredientList "Oats (rolled), Sea-Salt!!; 12"))
    by (vm_compute; auto).
  split; [exact H|].
  destruct (parsed_ingredients_are_clean _ _ H) as (H1 & H2 & _).
  split; [exact H1 | exact H2].
Defined.

(* ================================================================== *)
(** ** Labels without the word "ingredients" *)

Lemma lit_prefix s :
  forall l r l' r',
    lit true s l r = Some (l', r') ->
    prefix (toLowerCase s) (toLowerCase (string_of_list_ascii r)) = true.
Proof.
  induction s as [|c s IH]; intros l r l' r';
    [intros _; now destruct (toLowerCase (string_of_list_ascii r))|].
  cbn [lit]. destruct r as [|x r]; [discriminate|].
  unfold same_char. destruct (Ascii.eqb (lower_ascii c) (lower_ascii x)) eqn:E;
    [|discriminate].
  apply Ascii.eqb_eq in E. intros H.
  cbn [toLowerCase string_of_list_ascii prefix]. rewrite E.
  destruct (ascii_dec (lower_ascii x) (lower_ascii x)); [|congruence].
  eapply IH; eauto.
Qed.

Lemma prefix_includes sub s : prefix sub s = true -> includes s sub = true.
Proof. intros H. destruct s; cbn [includes]; now rewrite H. Qed.

Lemma includes_after pre suf sub :
  prefix sub (toLowerCase (string_of_list_ascii suf)) = true ->
  includes (toLowerCase (string_of_list_ascii (pre ++ suf))) sub = true.
Proof.
  intros H. induction pre as [|x pre IH]; cbn [app string_of_list_ascii toLowerCase].
  - now apply prefix_includes.
  - cbn [includes]. rewrite IH. apply orb_true_r.
Qed.


Lemma exec_marker c k e : exec true re_marker c k = Some e -> marker_here (ahead c).
Proof.
  unfold re_marker, marker_here. cbn [exec].
  destruct (lit true "Ingredients" (passed c) (ahead c)) as [[l r']|] eqn:E1.
  - intros _. exact (lit_prefix _ _ _ _ _ E1).
  - destruct (lit true "INGREDIENTS" (passed c) (ahead c)) as [[l r']|] eqn:E2;
      [|discriminate].
    intros _. exact (lit_prefix _ _ _ _ _ E2).
Qed.

Lemma marker_regex_sound r l rt e :
  r = re_productName \/ r = re_section \/ r = re_fallback ->
  match_at true r l rt = Some e ->
  exists w rt', rt = w ++ rt' /\ marker_here rt'.
Proof.
  unfold match_at. intros [-> | [-> | ->]] H.
  - unfold re_productName in H. cbn [exec passed] in H.
    destruct l; [|discriminate].
    apply many_lazy_sound in H. destruct H as (w & rt' & Ha & _ & H & _).
    apply exec_marker in H. cbn [ahead] in Ha, H. eauto.
  - unfold re_section in H. cbn [exec] in H. apply exec_marker in H.
    exists [], rt. now split.
  - unfold re_fallback in H. cbn [exec] in H. apply exec_marker in H.
    exists [], rt. now split.
Qed.

Lemma no_marker_no_match r s :
  r = re_productName \/ r = re_section \/ r = re_fallback ->
  includes (toLowerCase s) "ingredients" = false ->
  match_group1 true r s = None.
Proof.
  intros Hr Hno. unfold match_group1.
  destruct (search true r [] (list_ascii_of_string s)) as [e|] eqn:E; [|reflexivity].
  exfalso. apply search_sound in E. destruct E as (pre & suf & Hs & Hm).
  destruct (marker_regex_sound _ _ _ _ Hr Hm) as (w & rt' & -> & Hmark).
  assert (Hinc : includes (toLowerCase (string_of_list_ascii ((pre ++ w) ++ rt')))
                   "ingredients" = true) by (apply includes_after; exact Hmark).
  rewrite <- app_assoc, <- Hs, string_of_list_ascii_of_string in Hinc. congruence.
Qed.

(** X22. When the cleaned text does not contain the word "ingredients"
    in any letter case, [parseIngredients] names the product
    "Unknown Product" and tokenises the whole cleaned text. *)
Theorem parseIngredients_without_marker :
  forall ocrText,
    let parsed := parseIngredients ocrText in
    includes (toLowerCase (ParsedIngredients.rawText parsed)) "ingredients" = false ->
    ParsedIngredients.productName parsed = "Unknown Product"
    /\ ParsedIngredients.ingredients parsed
       = parseIngredientList (ParsedIngredients.rawText parsed).
Proof.
  intros ocrText parsed. subst parsed. unfold parseIngredients.
  set (cleanText := trim _).
  assert (Hraw : forall a b c d,
             ParsedIngredients.rawText
               match match_group1 true re_section cleanText with
               | None => ParsedIngredients.mk a b cleanText
               | Some x => ParsedIngredients.mk c (d x) cleanText
               end = cleanText)
    by (intros; destruct (match_group1 true re_section cleanText); reflexivity).
  rewrite Hraw. intros Hno.
  rewrite !no_marker_no_match by auto. split; reflexivity.
Qed.

Lemma parseIngredients_without_marker_witness :
  includes (toLowerCase (ParsedIngredients.rawText (parseIngredients "Sugar, Salt; Water")))
    "ingredients" = false
  /\ ParsedIngredients.productName (parseIngredients "Sugar, Salt; Water")
     = "Unknown Product"
  /\ ParsedIngredients.ingredients (parseIngredients "Sugar, Salt; Water")
     = ["Sugar"; "Salt"; "Water"].
Proof.
  assert (H : includes
                (toLowerCase
                   (ParsedIngredients.rawText (parseIngredients "Sugar, Salt; Water")))
                "ingredients" = false) by (vm_compute; reflexivity).
  split; [exact H|].
  destruct (parseIngredients_without_marker "Sugar, Salt; Water" H) as [H1 H2].
  split; [exact H1|]. rewrite H2. vm_compute. reflexivity.
Defined.

Example nutrition_label :
  Nutrition.extractNutritionFacts
    "Nutrition Facts  Sugars: 12.5 g  Sodium 140mg Saturated Fat: 3. g"
  = Nutrition.mk (Some (Some (25 # 2))) (Some (Some 140)) (Some (Some 3)).
Proof. vm_compute. reflexivity. Qed.

Example parseFloat_samples :
  map JsParse.parseFloat [" -3.25e2x"; "."; ".5"; "5."; "abc"; "+7e-1"; "1e"]
  = [Some (-325); None; Some (1 # 2); Some 5; None;
     Some (3152519739159347 # 4503599627370496); Some 1].
Proof. vm_compute. reflexivity. Qed.

(* ================================================================== *)
(** ** Nutrition facts *)

Lemma exec_Cat ci r1 r2 c k :
  exec ci (Cat r1 r2) c k = exec ci r1 c (fun c' => exec ci r2 c' k).
Proof. reflexivity. Qed.

Lemma exec_keeps_group ci r :
  Nutrition.no_group r = true ->
  forall c k e,
    exec ci r c k = Some e ->
    exists c', group1 c' = group1 c /\ k c' = Some e.
Proof.
  induction r as [p | s | r1 IH1 r2 IH2 | r1 IH1 r2 IH2 | greedy lo p | r1 IH1 | | ];
    cbn [Nutrition.no_group]; intros Hng c k e; cbn [exec].
  - destruct (ahead c) as [|x r']; [discriminate|].
    destruct (p x); [|discriminate]. intros H. eexists. split; [|exact H]. reflexivity.
  - destruct (lit ci s (passed c) (ahead c)) as [[l r']|]; [|discriminate].
    intros H. eexists. split; [|exact H]. reflexivity.
  - apply andb_true_iff in Hng. destruct Hng as [H1 H2]. intros H.
    destruct (IH1 H1 _ _ _ H) as (c1 & G1 & K1).
    destruct (IH2 H2 _ _ _ K1) as (c2 & G2 & K2).
    exists c2. split; [congruence | exact K2].
  - apply andb_true_iff in Hng. destruct Hng as [H1 H2].
    destruct (exec ci r1 c k) as [e'|] eqn:E1.
    + intros [= ->]. eauto.
    + eauto.
  - intros H.
    assert (Hs : exists w r',
               k (mkCursor (rev w ++ passed c) r' (group1 c)) = Some e).
    { destruct greedy;
        [apply many_greedy_sound in H | apply many_lazy_sound in H];
        destruct H as (w & r' & _ & _ & H & _); eauto. }
    destruct Hs as (w & r' & Hk). eexists. split; [|exact Hk]. reflexivity.
  - discriminate.
  - destruct (passed c); [|discriminate]. eauto.
  - destruct (ahead c); [|discriminate]. eauto.
Qed.

(** A group that opens with [\d+] captures text that starts with a digit. *)
Lemma digits_group_capture ci rest c k e :
  exec ci (Group (Cat (Many true 1 is_digit) rest)) c k = Some e ->
  exists c' d w, is_digit d = true /\ group1 c' = Some (d :: w) /\ k c' = Some e.
Proof.
  cbn [exec]. intros H.
  apply many_greedy_sound in H.
  destruct H as (w1 & r1 & Ha & Hdig & H & Hlen).
  apply exec_sound in H. destruct H as (c' & (w' & Ha' & Hp') & H).
  cbn [passed ahead] in *.
  destruct w1 as [|d w1]; [simpl in Hlen; lia|].
  eexists. exists d, (w1 ++ w'). split; [now inversion Hdig|]. split; [|exact H].
  cbn [group1]. f_equal.
  rewrite Hp', app_assoc, <- rev_app_distr.
  rewrite length_app, Nat.add_sub.
  rewrite <- (Nat.add_0_r (List.length (rev _))), firstn_app_2.
  cbn [firstn]. rewrite app_nil_r, rev_involutive. reflexivity.
Qed.

Ltac skip_part H :=
  rewrite exec_Cat in H; apply exec_sound in H;
  let c := fresh "c" in destruct H as (c & _ & H); cbv beta in H.

Lemma field_capture re l rt e :
  re = Nutrition.re_sugar \/ re = Nutrition.re_sodium \/ re = Nutrition.re_satFat ->
  match_at true re l rt = Some e ->
  exists d w, is_digit d = true /\ group1 e = Some (d :: w).
Proof.
  unfold match_at. intros [-> | [-> | ->]] H.
  - unfold Nutrition.re_sugar in H. do 3 skip_part H.
    rewrite exec_Cat in H. unfold Nutrition.re_number in H.
    apply digits_group_capture in H. destruct H as (c' & d & w & Hd & Hg & H).
    apply exec_keeps_group in H; [|reflexivity].
    destruct H as (c'' & Hg' & [= <-]). exists d, w. split; congruence.
  - unfold Nutrition.re_sodium in H. do 2 skip_part H.
    rewrite exec_Cat in H. unfold Nutrition.re_number in H.
    apply digits_group_capture in H. destruct H as (c' & d & w & Hd & Hg & H).
    apply exec_keeps_group in H; [|reflexivity].
    destruct H as (c'' & Hg' & [= <-]). exists d, w. split; congruence.
  - unfold Nutrition.re_satFat in H. do 4 skip_part H.
    rewrite exec_Cat in H. unfold Nutrition.re_number in H.
    apply digits_group_capture in H. destruct H as (c' & d & w & Hd & Hg & H).
    apply exec_keeps_group in H; [|reflexivity].
    destruct H as (c'' & Hg' & [= <-]). exists d, w. split; congruence.
Qed.

(** *** [parseFloat] on text that starts with a digit *)

Lemma digit_facts d :
  is_digit d = true ->
  is_space d = false /\ Ascii.eqb d "-" = false /\ Ascii.eqb d "+" = false
  /\ (0 <= JsParse.digit_value d)%Z.
Proof.
  destruct d as [[] [] [] [] [] [] [] []]; intros H; try discriminate H;
    repeat split; vm_compute; discriminate.
Qed.

Lemma span_digits_digits s :
  Forall (fun c => is_digit c = true) (fst (JsParse.span_digits s)).
Proof.
  induction s as [|c s IH]; simpl; [constructor|].
  destruct (is_digit c) eqn:E; [|constructor].
  destruct (JsParse.span_digits s). simpl in *. now constructor.
Qed.

Lemma decimal_nonneg ds :
  Forall (fun c => is_digit c = true) ds -> (0 <= JsParse.decimal ds)%Z.
Proof.
  unfold JsParse.decimal.
  assert (H : forall acc, (0 <= acc)%Z ->
                Forall (fun c => is_digit c = true) ds ->
                (0 <= fold_left (fun a d => (a * 10 + JsParse.digit_value d)%Z) ds acc)%Z).
  { induction ds as [|d ds IH]; intros acc Hacc Hds; simpl; [exact Hacc|].
    inversion Hds; subst. apply IH; [|assumption].
    pose proof (digit_facts d H1) as (_ & _ & _ & Hd). lia. }
  apply H. lia.
Qed.

Lemma unsigned_literal_digit_led d s :
  is_digit d = true ->
  exists v, JsParse.unsigned_literal (String d s) = Some v /\ 0 <= v.
Proof.
  intros Hd. unfold JsParse.unsigned_literal. cbn [JsParse.span_digits]. rewrite Hd.
  pose proof (span_digits_digits s) as Hint.
  destruct (JsParse.span_digits s) as [int rest]. cbn [fst] in Hint.
  assert (Hfrac : exists frac rest',
             match rest with
             | String point t =>
                 if Ascii.eqb point "." then JsParse.span_digits t else ([], rest)
             | EmptyString => ([], rest)
             end = (frac, rest')
             /\ Forall (fun c => is_digit c = true) frac).
  { destruct rest as [|point t]; [exists [], ""; split; [reflexivity | constructor]|].
    destruct (Ascii.eqb point ".").
    - pose proof (span_digits_digits t) as Hf.
      destruct (JsParse.span_digits t) as [f r]. exists f, r. now split.
    - exists [], (String point t). split; [reflexivity | constructor]. }
  destruct Hfrac as (frac & rest' & -> & Hfrac).
  cbn [app]. eexists. split; [reflexivity|].
  apply double_nonneg.
  apply Qmult_le_0_compat; [|apply Qpower_0_le; discriminate].
  unfold Qdiv. apply Qmult_le_0_compat.
  - change 0 with (inject_Z 0). rewrite <- Zle_Qle.
    apply decimal_nonneg. constructor; [exact Hd|]. apply Forall_app. now split.
  - apply Qinv_le_0_compat. change 0 with (inject_Z 0). rewrite <- Zle_Qle.
    apply Z.pow_nonneg. lia.
Qed.

Lemma parseFloat_digit_led d s :
  is_digit d = true ->
  exists v, JsParse.parseFloat (String d s) = Some v /\ 0 <= v.
Proof.
  intros Hd. destruct (digit_facts d Hd) as (Hsp & Hminus & Hplus & _).
  unfold JsParse.parseFloat. cbn [trimStart]. rewrite Hsp, Hminus, Hplus.
  now apply unsigned_literal_digit_led.
Qed.

Lemma field_value re ocrText :
  re = Nutrition.re_sugar \/ re = Nutrition.re_sodium \/ re = Nutrition.re_satFat ->
  Nutrition.field re ocrText = None
  \/ exists v, Nutrition.field re ocrText = Some (Some v) /\ 0 <= v.
Proof.
  intros Hre. unfold Nutrition.field, match_group1.
  destruct (search true re [] (list_ascii_of_string ocrText)) as [e|] eqn:E;
    [right | now left].
  apply search_sound in E. destruct E as (pre & suf & _ & Hm).
  destruct (field_capture _ _ _ _ Hre Hm) as (d & w & Hd & ->).
  cbn [string_of_list_ascii].
  destruct (parseFloat_digit_led d (string_of_list_ascii w) Hd) as (v & -> & Hv).
  eauto.
Qed.

(** X23. Each field of [extractNutritionFacts] is either absent or a
    number that is not negative; it is never NaN. *)
Theorem nutrition_values_are_numbers :
  forall ocrText,
    let facts := Nutrition.extractNutritionFacts ocrText in
    Forall (fun field => field = None \/ exists v, field = Some (Some v) /\ 0 <= v)
      [Nutrition.sugar_g_per_100g facts;
       Nutrition.sodium_mg_per_100g facts;
       Nutrition.sat_fat_g_per_100g facts].
Proof.
  intros ocrText facts. subst facts.
  unfold Nutrition.extractNutritionFacts.
  cbn [Nutrition.sugar_g_per_100g Nutrition.sodium_mg_per_100g
         Nutrition.sat_fat_g_per_100g].
  repeat (apply Forall_cons; [apply field_value; auto|]). apply Forall_nil.
Qed.

(** *** A field needs its keyword *)

Lemma keyword_regex_sound keyword rest l rt e :
  match_at true (Cat (Lit keyword) rest) l rt = Some e ->
  prefix (toLowerCase keyword) (toLowerCase (string_of_list_ascii rt)) = true.
Proof.
  unfold match_at. cbn [exec passed ahead].
  destruct (lit true keyword l rt) as [[l' r']|] eqn:E; [|discriminate].
  intros _. exact (lit_prefix _ _ _ _ _ E).
Qed.

Lemma field_needs_keyword keyword rest ocrText :
  includes (toLowerCase ocrText) (toLowerCase keyword) = false ->
  Nutrition.field (Cat (Lit keyword) rest) ocrText = None.
Proof.
  intros Hno. unfold Nutrition.field, match_group1.
  destruct (search true _ [] (list_ascii_of_string ocrText)) as [e|] eqn:E;
    [|reflexivity].
  exfalso. apply search_sound in E. destruct E as (pre & suf & Hs & Hm).
  apply keyword_regex_sound in Hm.
  pose proof (includes_after pre suf _ Hm) as Hinc.
  rewrite <- Hs, string_of_list_ascii_of_string in Hinc. congruence.
Qed.

(** X24. A field of [extractNutritionFacts] is absent whenever the text
    does not contain its keyword ("sugar", "sodium", "saturated") in any
    letter case. *)
Theorem nutrition_field_needs_keyword :
  forall ocrText,
    let facts := Nutrition.extractNutritionFacts ocrText in
    (includes (toLowerCase ocrText) "sugar" = false ->
     Nutrition.sugar_g_per_100g facts = None)
    /\ (includes (toLowerCase ocrText) "sodium" = false ->
        Nutrition.sodium_mg_per_100g facts = None)
    /\ (includes (toLowerCase ocrText) "saturated" = false ->
        Nutrition.sat_fat_g_per_100g facts = None).
Proof.
  intros ocrText facts. subst facts.
  unfold Nutrition.extractNutritionFacts.
  cbn [Nutrition.sugar_g_per_100g Nutrition.sodium_mg_per_100g
         Nutrition.sat_fat_g_per_100g].
  split; [|split]; intros H.
  - unfold Nutrition.re_sugar. now apply field_needs_keyword.
  - unfold Nutrition.re_sodium. now apply field_needs_keyword.
  - unfold Nutrition.re_satFat. now apply field_needs_keyword.
Qed.

Lemma nutrition_field_needs_keyword_witness :
  includes (toLowerCase "Sugars 12g, Salt 1.2g") "sodium" = false
  /\ Nutrition.extractNutritionFacts "Sugars 12g, Salt 1.2g"
     = Nutrition.mk (Some (Some 12)) None None
  /\ Nutrition.sodium_mg_per_100g
       (Nutrition.extractNutritionFacts "Sugars 12g, Salt 1.2g") = None.
Proof.
  assert (H : includes (toLowerCase "Sugars 12g, Salt 1.2g") "sodium" = false)
    by reflexivity.
  split; [exact H|]. split; [vm_compute; reflexivity|].
  exact (proj1 (proj2 (nutrition_field_needs_keyword "Sugars 12g, Salt 1.2g")) H).
Defined.

(* ================================================================== *)
(** ** Monotonicity of the Classifier path *)

Lemma switch_on_classifier_signals aiData p p' :
  Policy.switch_on p p' ->
  let s := Signals.of_classifier aiData p in
  let s' := Signals.of_classifier aiData p' in
  Policy.flag_le (Signals.allergy s) (Signals.allergy s')
  /\ Policy.flag_le (Signals.diabetes s) (Signals.diabetes s')
  /\ Policy.flag_le (Signals.bp s) (Signals.bp s')
  /\ Policy.flag_le (Signals.age s) (Signals.age s').
Proof.
  unfold Policy.flag_le.
  intros [age before after allergy d m v sys dia
         | age al d m v sys dia
         | age al d m v sys dia sys' Hsys
         | age al d m v sys dia dia' Hdia
         | age al d m v sys dia age' Hage]; simpl;
    rewrite ?andb_true_iff; repeat split; try tauto.
  - apply (truthy_above 130); [reflexivity | assumption].
  - now apply geb_above.
  - unfold overAge, truthy_and; simpl.
    rewrite (truthy_above 65), gtb_above by (assumption || reflexivity || lra).
    reflexivity.
Qed.

(** X25. On the Classifier path, for a reply whose base score is not
    negative, switching on one personalization signal of the profile never
    decreases the final score; for a negative base score it can. *)
Theorem classifier_score_monotonicity :
  (forall aiData p p',
      0 <= AIAnalyzedIngredient.baseScore aiData ->
      Policy.switch_on p p' ->
      (IngredientScore.finalScore (scoreIngredientWithAI aiData p)
       <= IngredientScore.finalScore (scoreIngredientWithAI aiData p'))%Z)
  /\ (exists aiData p p',
        Policy.switch_on p p'
        /\ (IngredientScore.finalScore (scoreIngredientWithAI aiData p')
            < IngredientScore.finalScore (scoreIngredientWithAI aiData p))%Z).
Proof.
  split.
  - intros aiData p p' Hbase H.
    rewrite !scoreIngredientWithAI_unfold. cbn [IngredientScore.finalScore].
    destruct (switch_on_classifier_signals aiData p p' H) as (Ha & Hd & Hb & Hg).
    apply Z.min_le_compat_r, Math_round_mono.
    unfold Signals.running_double. cbn [Signals.of_classifier Signals.allergy].
    apply running_double_mono; assumption.
  - exists (AIAnalyzedIngredient.mk "x" "sweetener" LOW (-4) [] false true false),
      (UserProfile.mk None [] false None None None None),
      (UserProfile.mk None [] true None None None None).
    split; [constructor | reflexivity].
Qed.

Lemma classifier_score_monotonicity_witness :
  let p := UserProfile.mk (Some 40) [] false None None (Some 120) None in
  let p' := UserProfile.mk (Some 40) [] false None None (Some 135) None in
  0 <= AIAnalyzedIngredient.baseScore Examples.ai_salt
  /\ Policy.switch_on p p'
  /\ IngredientScore.finalScore (scoreIngredientWithAI Examples.ai_salt p) = 5%Z
  /\ IngredientScore.finalScore (scoreIngredientWithAI Examples.ai_salt p') = 7%Z
  /\ (IngredientScore.finalScore (scoreIngredientWithAI Examples.ai_salt p)
      <= IngredientScore.finalScore (scoreIngredientWithAI Examples.ai_salt p'))%Z.
Proof.
  intros p p'.
  assert (H0 : 0 <= AIAnalyzedIngredient.baseScore Examples.ai_salt) by discriminate.
  assert (H : Policy.switch_on p p') by (apply Policy.raise_systolic; discriminate).
  split; [exact H0|]. split; [exact H|]. split; [reflexivity|]. split; [reflexivity|].
  exact (proj1 classifier_score_monotonicity Examples.ai_salt p p' H0 H).
Defined.

(* ================================================================== *)
(** ** The whitespace clean-up of the parser *)

Lemma skip_length p l : (List.length (Whitespace.skip p l) <= List.length l)%nat.
Proof.
  induction l as [|c l IH]; simpl; [lia|]. destruct (p c); simpl; lia.
Qed.

Lemma collapse_skip p l :
  Whitespace.collapse p true l = Whitespace.collapse p false (Whitespace.skip p l).
Proof.
  induction l as [|c l IH]; simpl; [reflexivity|].
  destruct (p c) eqn:E; [exact IH|]. simpl. now rewrite E.
Qed.

(** A greedy run with a continuation that accepts takes the whole run. *)
Lemma many_greedy_run p (g : option (list ascii)) :
  forall r lo l,
    (lo <= List.length r - List.length (Whitespace.skip p r))%nat ->
    exists w,
      many_greedy p (fun l' r' => Some (mkCursor l' r' g)) lo l r
      = Some (mkCursor (rev w ++ l) (Whitespace.skip p r) g)
      /\ List.length w = (List.length r - List.length (Whitespace.skip p r))%nat.
Proof.
  induction r as [|x r IH]; intros lo l Hlo.
  - simpl in *. replace lo with 0%nat by lia. exists []. now split.
  - cbn [many_greedy Whitespace.skip]. destruct (p x) eqn:E.
    + pose proof (skip_length p r) as Hs.
      destruct (IH (pred lo) (x :: l)) as (w & -> & Hw).
      { cbn [Whitespace.skip List.length] in Hlo. rewrite E in Hlo.
        cbn [List.length] in Hlo. lia. }
      exists (x :: w). split.
      * simpl. now rewrite <- app_assoc.
      * cbn [List.length]. lia.
    + cbn [Whitespace.skip List.length] in Hlo. rewrite E in Hlo.
      cbn [List.length] in Hlo.
      replace lo with 0%nat by lia. exists []. split; [reflexivity|].
      cbn [List.length]. lia.
Qed.

Lemma replace_from_collapse p fuel :
  forall l rt,
    (List.length rt < fuel)%nat ->
    replace_from fuel false (Many true 1 p) [" "%char] l rt
    = Whitespace.collapse p false rt.
Proof.
  induction fuel as [|fuel IH]; intros l rt Hlen; [lia|].
  destruct rt as [|x rt']; [reflexivity|].
  cbn [replace_from match_at exec passed ahead group1 Whitespace.collapse].
  simpl in Hlen. destruct (p x) eqn:E.
  - pose proof (skip_length p rt') as Hs.
    destruct (many_greedy_run p None (x :: rt') 1 l) as (w & -> & Hw).
    { cbn [Whitespace.skip List.length]. rewrite E. lia. }
    cbn [Whitespace.skip] in *. rewrite E in *. cbn [passed ahead List.length] in *.
    replace (List.length (rev w ++ l) =? List.length l)%nat with false
      by (symmetry; apply Nat.eqb_neq; rewrite length_app, length_rev; lia).
    cbn [app]. f_equal. rewrite IH by lia. symmetry. apply collapse_skip.
  - cbn [many_greedy]. rewrite E. cbn [stop Nat.eqb]. f_equal. apply IH. lia.
Qed.

Lemma replace_all_collapse p s :
  replace_all false (Many true 1 p) " " s
  = string_of_list_ascii (Whitespace.collapse p false (list_ascii_of_string s)).
Proof.
  unfold replace_all. f_equal. apply replace_from_collapse.
  rewrite chars_length. lia.
Qed.

Lemma collapse_single_spaced l :
  forall b, Whitespace.single_spaced b (Whitespace.collapse is_space b l) = true.
Proof.
  induction l as [|c l IH]; intros b; [reflexivity|].
  cbn [Whitespace.collapse]. destruct (is_space c) eqn:E.
  - destruct b; [apply IH|].
    cbn [Whitespace.single_spaced]. change (is_space " ") with true.
    cbn [andb negb]. rewrite IH. reflexivity.
  - cbn [Whitespace.single_spaced]. rewrite E. apply IH.
Qed.

Lemma single_spaced_fixed l :
  forall b,
    Whitespace.single_spaced b l = true -> Whitespace.collapse is_space b l = l.
Proof.
  induction l as [|c l IH]; intros b; [reflexivity|].
  cbn [Whitespace.single_spaced Whitespace.collapse].
  destruct (is_space c) eqn:E.
  - rewrite !andb_true_iff. intros [[Hc Hb] Hl].
    apply Ascii.eqb_eq in Hc. apply negb_true_iff in Hb. subst.
    f_equal. now apply IH.
  - intros Hl. f_equal. now apply IH.
Qed.

Lemma newline_is_odd_space c :
  (code c =? 10)%nat = true -> is_space c = true /\ Ascii.eqb c " " = false.
Proof.
  intros H. apply Nat.eqb_eq in H.
  assert (Hc : c = ascii_of_nat 10)
    by (rewrite <- (ascii_nat_embedding c); unfold code in H; now rewrite H).
  subst. split; reflexivity.
Qed.

Lemma single_spaced_no_newline l :
  forall b b',
    Whitespace.single_spaced b l = true ->
    Whitespace.collapse (fun c => (code c =? 10)%nat) b' l = l.
Proof.
  induction l as [|c l IH]; intros b b'; [reflexivity|].
  cbn [Whitespace.single_spaced Whitespace.collapse].
  destruct (code c =? 10)%nat eqn:En.
  - destruct (newline_is_odd_space c En) as [-> ->]. discriminate.
  - destruct (is_space c).
    + rewrite !andb_true_iff. intros [_ Hl]. f_equal. eapply IH; eauto.
    + intros Hl. f_equal. eapply IH; eauto.
Qed.

Lemma trimStart_single_spaced s :
  forall b,
    Whitespace.single_spaced b (list_ascii_of_string s) = true ->
    Whitespace.single_spaced false (list_ascii_of_string (trimStart s)) = true.
Proof.
  induction s as [|c s IH]; intros b; [reflexivity|].
  cbn [list_ascii_of_string Whitespace.single_spaced trimStart].
  destruct (is_space c) eqn:E.
  - rewrite !andb_true_iff. intros [_ Hl]. eapply IH; eauto.
  - intros Hl. cbn [list_ascii_of_string Whitespace.single_spaced]. now rewrite E.
Qed.

Lemma trimEnd_single_spaced s :
  forall b,
    Whitespace.single_spaced b (list_ascii_of_string s) = true ->
    Whitespace.single_spaced b (list_ascii_of_string (trimEnd s)) = true.
Proof.
  induction s as [|c s IH]; intros b; [reflexivity|].
  cbn [list_ascii_of_string Whitespace.single_spaced trimEnd].
  destruct (is_space c) eqn:E.
  - rewrite !andb_true_iff. intros [[Hc Hb] Hl]. specialize (IH true Hl).
    destruct (trimEnd s); [reflexivity|].
    cbn [list_ascii_of_string Whitespace.single_spaced] in *.
    rewrite E, Hc, Hb. exact IH.
  - intros Hl. specialize (IH false Hl).
    destruct (trimEnd s);
      cbn [list_ascii_of_string Whitespace.single_spaced] in *; now rewrite E.
Qed.

Lemma cleaned_single_spaced s :
  Whitespace.single_spaced false
    (list_ascii_of_string (trim (replace_all false re_spaces " " s))) = true.
Proof.
  unfold trim. apply trimEnd_single_spaced. apply (trimStart_single_spaced _ false).
  unfold re_spaces. rewrite replace_all_collapse, list_ascii_of_string_of_list_ascii.
  apply collapse_single_spaced.
Qed.

Lemma cleaning_idempotent s :
  let cleanText :=
    trim (replace_all false re_spaces " " (replace_all false re_newlines " " s)) in
  trim (replace_all false re_spaces " " (replace_all false re_newlines " " cleanText))
  = cleanText.
Proof.
  intros cleanText.
  pose proof (cleaned_single_spaced (replace_all false re_newlines " " s)) as Hss.
  fold cleanText in Hss.
  unfold re_newlines at 1. rewrite replace_all_collapse.
  rewrite (single_spaced_no_newline _ false false Hss), string_of_list_ascii_of_string.
  unfold re_spaces at 1. rewrite replace_all_collapse.
  rewrite (single_spaced_fixed _ false Hss), string_of_list_ascii_of_string.
  subst cleanText. apply trim_idempotent.
Qed.

(** X26. Parsing the [rawText] of a result again gives the same result;
    [rawText] has no surrounding whitespace, and its only whitespace is
    single space characters. *)
Theorem parseIngredients_reparse :
  forall ocrText,
    let parsed := parseIngredients ocrText in
    parseIngredients (ParsedIngredients.rawText parsed) = parsed
    /\ trim (ParsedIngredients.rawText parsed) = ParsedIngredients.rawText parsed
    /\ Whitespace.single_spaced false
         (list_ascii_of_string (ParsedIngredients.rawText parsed)) = true.
Proof.
  intros ocrText parsed.
  assert (Hraw : ParsedIngredients.rawText parsed
                 = trim (replace_all false re_spaces " "
                           (replace_all false re_newlines " " ocrText))).
  { subst parsed. unfold parseIngredients.
    destruct (match_group1 true re_section _); reflexivity. }
  rewrite Hraw. split; [|split].
  - subst parsed. unfold parseIngredients. rewrite cleaning_idempotent. reflexivity.
  - apply trim_idempotent.
  - apply cleaned_single_spaced.
Qed.

(* ================================================================== *)
(** ** From the parser to the editor *)

Lemma trim_starts_nonspace s c rest : trim s = String c rest -> is_space c = false.
Proof.
  intros H. apply (trimStart_fixed c rest). rewrite <- H. unfold trim.
  apply trimStart_trimEnd, trimStart_idempotent.
Qed.

Lemma trim_nonspace_head c rest :
  is_space c = false -> trim (String c rest) <> "".
Proof.
  intros H. unfold trim. cbn [trimStart]. rewrite H. cbn [trimEnd].
  destruct (trimEnd rest); [rewrite H|]; discriminate.
Qed.

Lemma filter_keeps_all {A : Type} (f : A -> bool) (xs : list A) :
  (forall x, In x xs -> f x = true) -> filter f xs = xs.
Proof.
  induction xs as [|x rest IH]; intros H; simpl; [reflexivity|].
  rewrite (H x (or_introl eq_refl)). f_equal. apply IH. intros y Hy. apply H. now right.
Qed.

Lemma parsed_ingredient_not_blank text ing :
  In ing (parseIngredientList text) -> trim ing <> "".
Proof.
  intros Hin. unfold parseIngredientList in Hin.
  apply filter_In in Hin. destruct Hin as [Hin Hkeep].
  apply andb_true_iff in Hkeep. destruct Hkeep as [Hlen _].
  apply Nat.ltb_lt in Hlen.
  apply in_map_iff in Hin. destruct Hin as (raw & <- & _).
  unfold re_spaces in *. rewrite replace_all_collapse in *.
  destruct (trim (replace_all false re_artifact " "
                    (trim (replace_all false re_parenthetical "" raw))))
    as [|c rest] eqn:E.
  - simpl in Hlen. lia.
  - apply trim_starts_nonspace in E.
    cbn [list_ascii_of_string Whitespace.collapse]. rewrite E.
    cbn [string_of_list_ascii]. now apply trim_nonspace_head.
Qed.

(** X27. Opening the editor on a parser result and confirming without
    edits passes on exactly the parsed ingredients and product name: the
    blank filter of [handleConfirm] drops none of them. *)
Theorem confirm_keeps_parsed_ingredients :
  forall ocrText,
    let parsed := parseIngredients ocrText in
    IngredientEditor.handleConfirm
      (IngredientEditor.init (ParsedIngredients.ingredients parsed)
         (ParsedIngredients.productName parsed))
    = (ParsedIngredients.ingredients parsed, ParsedIngredients.productName parsed).
Proof.
  intros ocrText parsed.
  unfold IngredientEditor.handleConfirm, IngredientEditor.init.
  cbn [IngredientEditor.ingredients IngredientEditor.productName]. f_equal.
  apply filter_keeps_all. intros ing Hin.
  apply nonblank_nonempty.
  assert (Hlist : exists text, ParsedIngredients.ingredients parsed
                               = parseIngredientList text).
  { subst parsed. unfold parseIngredients.
    destruct (match_group1 true re_section _); eexists; reflexivity. }
  destruct Hlist as (text & Hlist). rewrite Hlist in Hin.
  eapply parsed_ingredient_not_blank; eauto.
Qed.
